(** * claude-tui-tools: the usage monitor and its self-healing driver

  A shallow embedding of
    - [packages/usage/src/claude_tui_usage/monitor.py]
      (capture retry loop, text normaliser, percentage cascade,
       reset-time resolver, validator), and
    - [scripts/self_heal.py]
      (failure classifier, fix catalog, majority verifier),
  followed by the properties the specification states about them.

  Conventions of the embedding.
    - A Python [str] is a Rocq [string]; a character is a code point
      below 256, classified (space, digit, printable, lower case) the
      way Python classifies that code point.
    - A Python [int] is a [Z]; [int(s)] and [" " * n] are defined for
      every digit string and every count (no limit on the number of
      digits or on the length of a string).
    - A naive [datetime] is a [Z]: the number of microseconds since
      0001-01-01T00:00:00, so that a [timedelta] is a difference of
      two such numbers.  The time line is not cut off at the years 1
      and 9999.  The quotient [(a - b).total_seconds() / 3600] is only
      ever compared with an integer number of hours; the comparison is
      carried out exactly on microseconds.
    - [Optional[T]] is [option T]; code that may raise returns a
      [result].
    - [dateutil] is not part of the repository: its parser is a
      parameter of the functions that call it.
    - The terminal, the installed commands and the clock are a
      [world]; the functions that use them thread a [trace] of what
      they consumed. *)

From Stdlib Require Import ZArith List Bool Ascii String Lia QArith.
From Stdlib Require Import Floats Uint63.
Import ListNotations.

Local Open Scope string_scope.
Local Open Scope Z_scope.

(* ================================================================== *)
(** ** Exceptions *)

Inductive exn : Type :=
| ValueError (msg : string)
| ParserError (msg : string)
| CaptureError (msg : string)
| ParseError (msg : string)
| ValidationError (msg : string)
| OtherError (cls msg : string).

Inductive result (A : Type) : Type :=
| Ok (a : A)
| Raise (e : exn).
Arguments Ok {A} a.
Arguments Raise {A} e.

Definition bind {A B} (m : result A) (f : A -> result B) : result B :=
match m with
| Ok a => f a
| Raise e => Raise e
end.

Notation "x <- m ;; k" := (bind m (fun x => k))
(at level 61, m at next level, right associativity).

(* ================================================================== *)
(** ** Python strings *)

Module Str.

Definition code (c : ascii) : Z := Z.of_N (N_of_ascii c).
Definition chr (n : Z) : ascii := ascii_of_N (Z.to_N n).

Definition between (lo hi : Z) (c : ascii) : bool :=
  (lo <=? code c) && (code c <=? hi).

Definition is_char (a c : ascii) : bool := Ascii.eqb a c.

(** [str.isspace] and the regex class [\s] on one character. *)
Definition is_space (c : ascii) : bool :=
  between 9 13 c || between 28 32 c || (code c =? 133) || (code c =? 160).

(** The regex class [\d]. *)
Definition is_digit (c : ascii) : bool := between 48 57 c.

(** [str.isprintable] on one character. *)
Definition is_printable (c : ascii) : bool :=
  between 32 126 c || (between 161 255 c && negb (code c =? 173)).

(** [str.lower] on one character. *)
Definition lower_char (c : ascii) : ascii :=
  if between 65 90 c || (between 192 222 c && negb (code c =? 215))
  then chr (code c + 32) else c.

(** [str.upper] on an ASCII letter (used on "am"/"pm" only). *)
Definition upper_char (c : ascii) : ascii :=
  if between 97 122 c then chr (code c - 32) else c.

Fixpoint map (f : ascii -> ascii) (s : string) : string :=
  match s with
  | EmptyString => EmptyString
  | String c s' => String (f c) (map f s')
  end.

Definition lower : string -> string := map lower_char.
Definition upper : string -> string := map upper_char.

Fixpoint filter (p : ascii -> bool) (s : string) : string :=
  match s with
  | EmptyString => EmptyString
  | String c s' => if p c then String c (filter p s') else filter p s'
  end.

Fixpoint rev_onto (s acc : string) : string :=
  match s with
  | EmptyString => acc
  | String c s' => rev_onto s' (String c acc)
  end.

Definition rev (s : string) : string := rev_onto s EmptyString.

Fixpoint take (n : nat) (s : string) : string :=
  match n, s with
  | S n', String c s' => String c (take n' s')
  | _, _ => EmptyString
  end.

Fixpoint drop (n : nat) (s : string) : string :=
  match n, s with
  | S n', String _ s' => drop n' s'
  | _, _ => s
  end.

(** [s.startswith(p)], and the rest of [s] after [p]. *)
Fixpoint strip_prefix (p s : string) : option string :=
  match p, s with
  | EmptyString, _ => Some s
  | String a p', String b s' =>
      if Ascii.eqb a b then strip_prefix p' s' else None
  | String _ _, EmptyString => None
  end.

(** [sub in s]. *)
Fixpoint contains (sub s : string) : bool :=
  match strip_prefix sub s with
  | Some _ => true
  | None =>
      match s with
      | EmptyString => false
      | String _ s' => contains sub s'
      end
  end.

(** [s.replace(old, new)] for a non-empty [old]: every occurrence,
    left to right, without overlap.  [skip] counts the characters of
    an occurrence already replaced that are still to be passed. *)
Fixpoint replace_from (old new s : string) (skip : nat) : string :=
  match s with
  | EmptyString => EmptyString
  | String c s' =>
      match skip with
      | S n => replace_from old new s' n
      | O =>
          match strip_prefix old s with
          | Some _ => new ++ replace_from old new s' (Nat.pred (length old))
          | None => String c (replace_from old new s' O)
          end
      end
  end.

Definition replace (old new s : string) : string :=
  replace_from old new s O.

(** [s.split(sep)] for a non-empty [sep]; [cur] is the part being
    read, reversed. *)
Fixpoint split_from (sep s : string) (skip : nat) (cur : string)
  : list string :=
  match s with
  | EmptyString => [rev cur]
  | String c s' =>
      match skip with
      | S n => split_from sep s' n cur
      | O =>
          match strip_prefix sep s with
          | Some _ =>
              rev cur :: split_from sep s' (Nat.pred (length sep)) EmptyString
          | None => split_from sep s' O (String c cur)
          end
      end
  end.

Definition split (sep s : string) : list string :=
  split_from sep s O EmptyString.

Fixpoint lstrip (s : string) : string :=
  match s with
  | String c s' => if is_space c then lstrip s' else s
  | EmptyString => EmptyString
  end.

(** [s.strip()]. *)
Definition strip (s : string) : string := rev (lstrip (rev (lstrip s))).

(** [" " * n]. *)
Fixpoint spaces (n : nat) : string :=
  match n with
  | O => EmptyString
  | S n' => String " " (spaces n')
  end.

(** [int(s)] on a string of decimal digits. *)
Fixpoint int_acc (s : string) (acc : Z) : Z :=
  match s with
  | EmptyString => acc
  | String c s' => int_acc s' (10 * acc + (code c - 48))
  end.

Definition int (s : string) : Z := int_acc s 0.

(** [str(n)] for an integer [n]. *)
Fixpoint digits_of (fuel : nat) (n : Z) (acc : string) : string :=
  match fuel with
  | O => acc
  | S fuel' =>
      let acc' := String (chr (48 + n mod 10)) acc in
      if n / 10 =? 0 then acc' else digits_of fuel' (n / 10) acc'
  end.

Definition of_Z (n : Z) : string :=
  if n <? 0
  then String "-" (digits_of (S (Z.to_nat (Z.log2 (- n)))) (- n) EmptyString)
  else digits_of (S (Z.to_nat (Z.log2 n))) n EmptyString.

Definition nl : string := String (chr 10) EmptyString.
Definition cr : string := String (chr 13) EmptyString.

End Str.

(* ================================================================== *)
(** ** The fragment of Python's [re] the two programs use

  A backtracking matcher: alternatives are tried left to right, a
  greedy repetition tries the longest run first and a lazy one the
  shortest, and the first way of matching that lets the rest of the
  pattern match is the one taken, as in [re].  Every repetition in the
  source patterns has a single character class as its body. *)

Module Re.

Inductive regex : Type :=
| Eps
| Cls (p : ascii -> bool)
| Cat (r1 r2 : regex)
| Alt (r1 r2 : regex)
| Rep (greedy : bool) (lo : nat) (p : ascii -> bool)
| Grp (n : nat) (r : regex)
| Eos
| Ahead (r : regex).

Definition caps := list (nat * string).

Fixpoint group (n : nat) (c : caps) : option string :=
  match c with
  | [] => None
  | (m, s) :: c' => if Nat.eqb n m then Some s else group n c'
  end.

(** [$] without [re.MULTILINE]: the end of the text, or just before a
    newline that ends the text. *)
Definition at_end (s : string) : bool :=
  match s with
  | EmptyString => true
  | String c EmptyString => Str.code c =? 10
  | _ => false
  end.

Section Matcher.
Context {A : Type}.

Fixpoint star (greedy : bool) (p : ascii -> bool) (s : string)
         (k : string -> option A) : option A :=
  match s with
  | EmptyString => k s
  | String c s' =>
      if p c then
        if greedy then
          match star greedy p s' k with
          | Some x => Some x
          | None => k s
          end
        else
          match k s with
          | Some x => Some x
          | None => star greedy p s' k
          end
      else k s
  end.

Fixpoint rep (greedy : bool) (lo : nat) (p : ascii -> bool)
         (s : string) (k : string -> option A) : option A :=
  match lo with
  | O => star greedy p s k
  | S lo' =>
      match s with
      | String c s' => if p c then rep greedy lo' p s' k else None
      | EmptyString => None
      end
  end.
End Matcher.

(** What [s] lost to become its suffix [s']. *)
Definition consumed (s s' : string) : string :=
  Str.take (length s - length s') s.

Fixpoint run {A : Type} (r : regex) (s : string) (c : caps)
         (k : string -> caps -> option A) {struct r} : option A :=
  match r with
  | Eps => k s c
  | Cls p =>
      match s with
      | String a s' => if p a then k s' c else None
      | EmptyString => None
      end
  | Cat r1 r2 => run r1 s c (fun s' c' => run r2 s' c' k)
  | Alt r1 r2 =>
      match run r1 s c k with
      | Some x => Some x
      | None => run r2 s c k
      end
  | Rep g lo p => rep g lo p s (fun s' => k s' c)
  | Grp n r1 => run r1 s c (fun s' c' => k s' ((n, consumed s s') :: c'))
  | Eos => if at_end s then k s c else None
  | Ahead r1 =>
      match run r1 s c (fun _ c' => Some c') with
      | Some c' => k s c'
      | None => None
      end
  end.

(** [pattern.match(s)]: the text matched at the start of [s], what
    follows it, and the groups. *)
Definition match_at (r : regex) (s : string)
  : option (string * string * caps) :=
  run r s [] (fun s' c => Some (consumed s s', s', c)).

(** [re.search]: the leftmost position at which the pattern matches. *)
Fixpoint search (r : regex) (s : string) : option (string * string * caps) :=
  match match_at r s with
  | Some m => Some m
  | None =>
      match s with
      | EmptyString => None
      | String _ s' => search r s'
      end
  end.

(** [re.sub(r, f, s)] for a pattern that never matches the empty
    string: matches are found left to right without overlap and each
    is replaced by [f] of its groups. *)
Fixpoint sub_from (r : regex) (f : caps -> string) (s : string)
         (skip : nat) : string :=
  match s with
  | EmptyString => EmptyString
  | String a s' =>
      match skip with
      | S n => sub_from r f s' n
      | O =>
          match match_at r s with
          | Some (String _ m, _, c) => f c ++ sub_from r f s' (length m)
          | _ => String a (sub_from r f s' O)
          end
      end
  end.

Definition sub (r : regex) (f : caps -> string) (s : string) : string :=
  sub_from r f s O.

(** [re.findall(r, s)] for a pattern with one group that never matches
    the empty string: the group of each match, left to right. *)
Fixpoint findall_from (r : regex) (s : string) (skip : nat) : list string :=
  match s with
  | EmptyString => []
  | String _ s' =>
      match skip with
      | S n => findall_from r s' n
      | O =>
          match match_at r s with
          | Some (String _ m, _, c) =>
              match group 1 c with
              | Some g => g :: findall_from r s' (length m)
              | None => findall_from r s' (length m)
              end
          | _ => findall_from r s' O
          end
      end
  end.

Definition findall (r : regex) (s : string) : list string :=
  findall_from r s O.

(** [re.split(r"(?=r)", s)]: the text is cut in front of every
    position at which [r] matches; a match at the very start leaves an
    empty first piece. *)
Fixpoint split_ahead_from (r : regex) (s : string) (cur : string)
  : list string :=
  match s with
  | EmptyString => [Str.rev cur]
  | String a s' =>
      match match_at (Ahead r) s with
      | Some _ => Str.rev cur :: split_ahead_from r s' (String a EmptyString)
      | None => split_ahead_from r s' (String a cur)
      end
  end.

Definition split_ahead (r : regex) (s : string) : list string :=
  split_ahead_from r s EmptyString.

(** *** Pattern combinators *)

Definition any : ascii -> bool := fun _ => true.
Definition not_nl (c : ascii) : bool := negb (Str.code c =? 10).

(** One literal character, under [re.IGNORECASE] when [ci]. *)
Definition chr_class (ci : bool) (a : ascii) : ascii -> bool :=
  fun c =>
    if ci then Ascii.eqb (Str.lower_char a) (Str.lower_char c)
    else Ascii.eqb a c.

(** A literal text, as [re.escape] of it matches. *)
Fixpoint lit (ci : bool) (s : string) : regex :=
  match s with
  | EmptyString => Eps
  | String a s' => Cat (Cls (chr_class ci a)) (lit ci s')
  end.

Fixpoint seq (rs : list regex) : regex :=
  match rs with
  | [] => Eps
  | [r] => r
  | r :: rs' => Cat r (seq rs')
  end.

Fixpoint alts (rs : list regex) : regex :=
  match rs with
  | [] => Cls (fun _ => false)
  | [r] => r
  | r :: rs' => Alt r (alts rs')
  end.

Definition digit : regex := Cls Str.is_digit.
Definition digits1 : regex := Rep true 1 Str.is_digit.   (* \d+ *)
Definition spaces0 : regex := Rep true 0 Str.is_space.   (* \s* *)
Definition spaces1 : regex := Rep true 1 Str.is_space.   (* \s+ *)

End Re.

(* ================================================================== *)
(** ** Naive datetimes *)

Module DT.

Definition datetime : Type := Z.
Definition timedelta : Type := Z.

Definition us_per_second : Z := 1000000.
Definition us_per_minute : Z := 60000000.
Definition us_per_hour : Z := 3600000000.
Definition us_per_day : Z := 86400000000.

Definition minutes (n : Z) : timedelta := n * us_per_minute.
Definition hours (n : Z) : timedelta := n * us_per_hour.
Definition days (n : Z) : timedelta := n * us_per_day.

(** The calendar of [datetime.py]. *)
Definition is_leap (y : Z) : bool :=
  (y mod 4 =? 0) && (negb (y mod 100 =? 0) || (y mod 400 =? 0)).

Definition days_before_year (year : Z) : Z :=
  let y := year - 1 in y * 365 + y / 4 - y / 100 + y / 400.

Definition days_in_month (y m : Z) : Z :=
  if m =? 2 then (if is_leap y then 29 else 28)
  else if (m =? 4) || (m =? 6) || (m =? 9) || (m =? 11) then 30
  else 31.

Definition days_before_month_tbl (m : Z) : Z :=
  nth (Z.to_nat m) [0; 0; 31; 59; 90; 120; 151; 181; 212; 243; 273; 304; 334] 0.

Definition days_before_month (y m : Z) : Z :=
  days_before_month_tbl m + (if (2 <? m) && is_leap y then 1 else 0).

Definition ymd2ord (y m d : Z) : Z :=
  days_before_year y + days_before_month y m + d.

Definition DI400Y : Z := 146097.
Definition DI100Y : Z := 36524.
Definition DI4Y : Z := 1461.

Definition ord2ymd (ordinal : Z) : Z * Z * Z :=
  let n := ordinal - 1 in
  let n400 := n / DI400Y in
  let n := n mod DI400Y in
  let n100 := n / DI100Y in
  let n := n mod DI100Y in
  let n4 := n / DI4Y in
  let n := n mod DI4Y in
  let n1 := n / 365 in
  let n := n mod 365 in
  let year := n400 * 400 + 1 + n100 * 100 + n4 * 4 + n1 in
  if (n1 =? 4) || (n100 =? 4) then (year - 1, 12, 31)
  else
    let leapyear := (n1 =? 3) && (negb (n4 =? 24) || (n100 =? 3)) in
    let month := Z.shiftr (n + 50) 5 in
    let preceding :=
      days_before_month_tbl month
      + (if (2 <? month) && leapyear then 1 else 0) in
    if n <? preceding then
      let month' := month - 1 in
      let preceding' :=
        preceding
        - (nth (Z.to_nat month')
             [0; 31; 28; 31; 30; 31; 30; 31; 31; 30; 31; 30; 31] 0
           + (if (month' =? 2) && leapyear then 1 else 0)) in
      (year, month', n - preceding' + 1)
    else (year, month, n - preceding + 1).

(** [dt.date()] as the number of whole days since 0001-01-01, and
    [dt.time()] as the microseconds since midnight. *)
Definition date_of (dt : datetime) : Z := dt / us_per_day.
Definition time_of (dt : datetime) : Z := dt mod us_per_day.

(** [datetime.combine(date, time)]. *)
Definition combine (date time : Z) : datetime := date * us_per_day + time.

Definition year (dt : datetime) : Z := fst (fst (ord2ymd (date_of dt + 1))).
Definition month (dt : datetime) : Z := snd (fst (ord2ymd (date_of dt + 1))).
Definition day (dt : datetime) : Z := snd (ord2ymd (date_of dt + 1)).
Definition hour (dt : datetime) : Z := time_of dt / us_per_hour.
Definition minute (dt : datetime) : Z := (time_of dt mod us_per_hour) / us_per_minute.

Definition clock (H M : Z) : Z := H * us_per_hour + M * us_per_minute.

(** [datetime(y, m, d, H, M)] for a valid calendar date. *)
Definition make (y m d H M : Z) : datetime :=
  combine (ymd2ord y m d - 1) (clock H M).

(** The constructor's check: [ValueError] unless the date exists. *)
Definition make_checked (y m d H M : Z) : option datetime :=
  if (1 <=? y) && (y <=? 9999) && (1 <=? m) && (m <=? 12)
     && (1 <=? d) && (d <=? days_in_month y m)
     && (0 <=? H) && (H <=? 23) && (0 <=? M) && (M <=? 59)
  then Some (make y m d H M) else None.

(** [now.replace(hour=0, minute=0, second=0, microsecond=0)]. *)
Definition midnight (dt : datetime) : datetime := combine (date_of dt) 0.

End DT.

(* ================================================================== *)
(** ** [datetime.strptime] for the directives of the format lists

  The format is turned into a pattern as [_strptime.TimeRE.pattern]
  does (C locale): a directive becomes its group, a run of white space
  becomes [\s+], any other character stands for itself; the pattern is
  matched ignoring case and has to consume the whole text. *)

Module Strptime.
Import Re.

Definition g_b : nat := 1.
Definition g_d : nat := 2.
Definition g_Y : nat := 3.
Definition g_I : nat := 4.
Definition g_M : nat := 5.
Definition g_p : nat := 6.

Definition a_month : list string :=
  ["jan"; "feb"; "mar"; "apr"; "may"; "jun";
   "jul"; "aug"; "sep"; "oct"; "nov"; "dec"].

Definition one (c : string) : regex := lit true c.
Definition rng (lo hi : Z) : regex := Cls (Str.between lo hi).

Definition directive (c : ascii) : option regex :=
  if Ascii.eqb c "b" then
    Some (Grp g_b (alts (List.map (lit true) a_month)))
  else if Ascii.eqb c "d" then
    (* 3[0-1]|[1-2]\d|0[1-9]|[1-9]| [1-9] *)
    Some (Grp g_d (alts [Cat (one "3") (rng 48 49);
                         Cat (rng 49 50) digit;
                         Cat (one "0") (rng 49 57);
                         rng 49 57;
                         Cat (one " ") (rng 49 57)]))
  else if Ascii.eqb c "Y" then
    Some (Grp g_Y (seq [digit; digit; digit; digit]))
  else if Ascii.eqb c "I" then
    (* 1[0-2]|0[1-9]|[1-9] *)
    Some (Grp g_I (alts [Cat (one "1") (rng 48 50);
                         Cat (one "0") (rng 49 57);
                         rng 49 57]))
  else if Ascii.eqb c "M" then
    (* [0-5]\d|\d *)
    Some (Grp g_M (alts [Cat (rng 48 53) digit; digit]))
  else if Ascii.eqb c "p" then
    Some (Grp g_p (alts [lit true "am"; lit true "pm"]))
  else None.

(** [in_ws] is set while a run of white space of the format is being
    passed. *)
Fixpoint pattern_from (fmt : string) (in_ws : bool) : option regex :=
  match fmt with
  | EmptyString => Some Eps
  | String c rest =>
      if Ascii.eqb c "%" then
        match rest with
        | String d rest' =>
            match directive d, pattern_from rest' false with
            | Some r, Some k => Some (Cat r k)
            | _, _ => None
            end
        | EmptyString => None
        end
      else if Str.is_space c then
        match pattern_from rest true with
        | Some k => Some (if in_ws then k else Cat spaces1 k)
        | None => None
        end
      else
        match pattern_from rest false with
        | Some k => Some (Cat (Cls (chr_class true c)) k)
        | None => None
        end
  end.

Definition pattern (fmt : string) : option regex := pattern_from fmt false.

Fixpoint index_of (x : string) (l : list string) (i : Z) : option Z :=
  match l with
  | [] => None
  | y :: l' => if String.eqb x y then Some i else index_of x l' (i + 1)
  end.

Definition group_int (n : nat) (c : caps) (default : Z) : Z :=
  match group n c with
  | Some g => Str.int (Str.strip g)
  | None => default
  end.

Definition hour_of (c : caps) : Z :=
  match group g_I c with
  | None => 0
  | Some g =>
      let hour := Str.int g in
      let ampm := match group g_p c with
                  | Some p => Str.lower p
                  | None => ""
                  end in
      if String.eqb ampm "" || String.eqb ampm "am"
      then (if hour =? 12 then 0 else hour)
      else if String.eqb ampm "pm"
           then (if hour =? 12 then hour else hour + 12)
           else hour
  end.

Definition month_of (c : caps) : Z :=
  match group g_b c with
  | None => 1
  | Some g =>
      match index_of (Str.lower g) a_month 1 with
      | Some m => m
      | None => 1
      end
  end.

(** [datetime.strptime(data, fmt)]; [None] stands for [ValueError]. *)
Definition strptime (data fmt : string) : option DT.datetime :=
  match pattern fmt with
  | None => None
  | Some r =>
      match match_at r data with
      | Some (_, EmptyString, c) =>
          DT.make_checked (group_int g_Y c 1900) (month_of c)
                          (group_int g_d c 1) (hour_of c)
                          (group_int g_M c 0)
      | _ => None
      end
  end.

End Strptime.

(* ================================================================== *)
(** ** monitor.py *)

Module Monitor.
Import Re.

(** *** Constants *)

Definition TIME_FORMATS : list string := ["%I:%M%p"; "%I%p"].

Definition DATE_FORMATS_NO_YEAR : list string :=
  ["%b %d at %I:%M%p"; "%b %d at %I%p"].

Definition DATE_FORMATS_WITH_YEAR : list string :=
  ["%b %d %Y at %I:%M%p"; "%b %d %Y at %I%p"].

(** *** Data classes *)

Record ParseResult : Type := mkParseResult {
  session_percent : option Z;
  session_reset_str : option string;
  session_reset_dt : option DT.datetime;
  week_percent : option Z;
  week_reset_str : option string;
  week_reset_dt : option DT.datetime;
  error : option string;
  warnings : list string
}.

(** *** Parse layer *)

Definition ESC : ascii := Str.chr 27.
Definition BEL : ascii := Str.chr 7.

(** [\x1B\[(\d+)C] *)
Definition re_cursor_right : regex :=
  seq [Cls (Ascii.eqb ESC); lit false "["; Grp 1 digits1; lit false "C"].

(** [\x1B(?:[@-Z\\-_]|\[[0-?]*[ -/]*[@-~])] *)
Definition re_escape_sequence : regex :=
  Cat (Cls (Ascii.eqb ESC))
      (Alt (Cls (fun c => Str.between 64 90 c || Str.between 92 95 c))
           (seq [lit false "[";
                 Rep true 0 (Str.between 48 63);
                 Rep true 0 (Str.between 32 47);
                 Cls (Str.between 64 126)])).

(** [\x1B\][^\x07]*(?:\x07|\x1B\\)] *)
Definition re_osc : regex :=
  seq [Cls (Ascii.eqb ESC); lit false "]";
       Rep true 0 (fun c => negb (Ascii.eqb BEL c));
       Alt (Cls (Ascii.eqb BEL)) (Cat (Cls (Ascii.eqb ESC)) (lit false "\"))].

(** [\][\d;]*[^\n]*] *)
Definition re_bracket_title : regex :=
  seq [lit false "]";
       Rep true 0 (fun c => Str.is_digit c || Ascii.eqb ";" c);
       Rep true 0 not_nl].

Definition group1 (c : caps) : string :=
  match group 1 c with
  | Some g => g
  | None => ""
  end.

Definition strip_ansi (text : string) : string :=
  let text := sub re_cursor_right
                  (fun m => Str.spaces (Z.to_nat (Str.int (group1 m)))) text in
  let text := sub re_escape_sequence (fun _ => "") text in
  let text := sub re_osc (fun _ => "") text in
  let text := sub re_bracket_title (fun _ => "") text in
  text.

(** [\s*\(.*?\)] *)
Definition re_parenthesised : regex :=
  seq [spaces0; lit false "("; Rep false 0 not_nl; lit false ")"].

(** [(?i)(am|pm)$] *)
Definition re_am_pm_end : regex :=
  Cat (Grp 1 (Alt (lit true "am") (lit true "pm"))) Eos.

Definition clean_time_string (text : string) : string :=
  let text := sub re_parenthesised (fun _ => "") text in
  let text := Str.replace "," "" text in
  let text := sub spaces1 (fun _ => " ") text in
  let text := Str.filter Str.is_printable text in
  let text := sub re_am_pm_end (fun m => Str.upper (group1 m)) text in
  Str.strip text.

Definition in_range (val : Z) : bool := (0 <=? val) && (val <=? 100).

(** [rf"{re.escape(section)}.*?(\d+)%\s*used"], DOTALL and IGNORECASE. *)
Definition re_section_percent_used (section : string) : regex :=
  seq [lit true section; Rep false 0 any; Grp 1 digits1;
       lit true "%"; spaces0; lit true "used"].

Definition extract_via_regex (text section : string) : option Z :=
  match search (re_section_percent_used section) text with
  | Some (_, _, m) => Some (Str.int (group1 m))
  | None => None
  end.

(** [(\d+)%] *)
Definition re_percent : regex := Cat (Grp 1 digits1) (lit false "%").

(** The loop over the lines of [extract_via_structure]; the result of
    one turn is to return a value, to leave the loop, or to go on with
    the flag [in_section]. *)
Fixpoint structure_loop (section : string) (lines : list string)
         (in_section : bool) : option Z :=
  match lines with
  | [] => None
  | line :: rest =>
      if Str.contains (Str.lower section) (Str.lower line) then
        structure_loop section rest true
      else if in_section then
        let found :=
          match search re_percent line with
          | Some (_, _, m) =>
              let val := Str.int (group1 m) in
              if in_range val then Some val else None
          | None => None
          end in
        match found with
        | Some val => Some val
        | None =>
            if Str.contains "current" (Str.lower line)
               && negb (Str.contains (Str.lower section) (Str.lower line))
            then None
            else structure_loop section rest in_section
        end
      else structure_loop section rest in_section
  end.

Definition extract_via_structure (text section : string) : option Z :=
  structure_loop section (Str.split Str.nl text) false.

Fixpoint first_in_range (matches : list string) : option Z :=
  match matches with
  | [] => None
  | m :: rest =>
      let val := Str.int m in
      if in_range val then Some val else first_in_range rest
  end.

Fixpoint numbers_loop (section : string) (parts : list string) : option Z :=
  match parts with
  | [] => None
  | part :: rest =>
      if Str.contains (Str.lower section) (Str.lower part) then
        match first_in_range (findall re_percent part) with
        | Some val => Some val
        | None => numbers_loop section rest
        end
      else numbers_loop section rest
  end.

(** Split at [(?=Current\s+)], IGNORECASE. *)
Definition extract_via_numbers (text section : string) : option Z :=
  numbers_loop section
    (split_ahead (Cat (lit true "Current") spaces1) text).

Definition strategies : list (string -> string -> option Z) :=
  [extract_via_regex; extract_via_structure; extract_via_numbers].

Fixpoint cascade (ss : list (string -> string -> option Z))
         (text section : string) : option Z :=
  match ss with
  | [] => None
  | strategy :: rest =>
      match strategy text section with
      | Some result =>
          if in_range result then Some result else cascade rest text section
      | None => cascade rest text section
      end
  end.

Definition extract_percentage (text section : string) : option Z :=
  cascade strategies text section.

(** [rf"{re.escape(section)}.*?Rese[ts]*\s+(.+?)(?:\s{2,}|\n|$)"],
    DOTALL and IGNORECASE. *)
Definition re_section_resets (section : string) : regex :=
  seq [lit true section; Rep false 0 any; lit true "Rese";
       Rep true 0 (fun c => chr_class true "t" c || chr_class true "s" c);
       spaces1; Grp 1 (Rep false 1 any);
       alts [Rep true 2 Str.is_space; Cls (fun c => negb (not_nl c)); Eos]].

Definition extract_reset_string (text section : string) : option string :=
  match search (re_section_resets section) text with
  | Some (_, _, m) => Some (Str.strip (group1 m))
  | None => None
  end.

(** *** Reset-time resolver *)

Definition dateutil_parser : Type :=
  string -> DT.datetime -> result DT.datetime.

(** The loop [for days in range(1, 8)] of the weekly branch. *)
Fixpoint weekly_loop (dt now : DT.datetime) (window_hours : Z)
         (range : list Z) : option DT.datetime :=
  match range with
  | [] => None
  | days :: rest =>
      let candidate := dt + DT.days days in
      if (now <? candidate) && (candidate - now <=? DT.hours window_hours)
      then Some candidate
      else weekly_loop dt now window_hours rest
  end.

Definition adjust_to_future (dt now : DT.datetime) (window_hours : Z)
  : option DT.datetime :=
  let dt := if DT.year dt =? 1900
            then DT.combine (DT.date_of now) (DT.time_of dt)
            else dt in
  if dt <? now - DT.minutes 15 then
    if window_hours <=? 24 then
      let candidate := dt + DT.days 1 in
      if candidate - now <=? DT.hours (window_hours + 1)
      then Some candidate
      else None
    else weekly_loop dt now window_hours [1; 2; 3; 4; 5; 6; 7]
  else Some dt.

(** A loop [for fmt in formats: try: ... return ... except ValueError:
    continue]: the first format that parses. *)
Fixpoint first_parse (parse : string -> option DT.datetime)
         (formats : list string) : option DT.datetime :=
  match formats with
  | [] => None
  | fmt :: rest =>
      match parse fmt with
      | Some dt => Some dt
      | None => first_parse parse rest
      end
  end.

(** Strategy 2 and the time-only formats: the candidate instant the
    explicit format lists read from the cleaned phrase. *)
Definition parse_with_formats (clean : string) (now : DT.datetime)
  : option DT.datetime :=
  let dated :=
    if Str.contains "at" (Str.lower clean) then
      match first_parse (fun fmt => Strptime.strptime clean fmt)
                        DATE_FORMATS_WITH_YEAR with
      | Some dt => Some dt
      | None =>
          first_parse
            (fun fmt =>
               Strptime.strptime (clean ++ " " ++ Str.of_Z (DT.year now))
                                 (fmt ++ " %Y"))
            DATE_FORMATS_NO_YEAR
      end
    else None in
  match dated with
  | Some dt => Some dt
  | None =>
      first_parse
        (fun fmt =>
           match Strptime.strptime clean fmt with
           | Some t => Some (DT.combine (DT.date_of now) (DT.time_of t))
           | None => None
           end)
        TIME_FORMATS
  end.

(** [dateutil] is [None] when the import failed
    ([DATEUTIL_AVAILABLE = False]); otherwise it is
    [dateutil.parser.parse(_, fuzzy=True, default=_)]. *)
Definition parse_reset_time (dateutil : option dateutil_parser)
           (time_str : option string) (window_hours : Z)
           (now : DT.datetime) : result (option DT.datetime) :=
  match time_str with
  | None => Ok None
  | Some "" => Ok None
  | Some time_str =>
      let clean := clean_time_string time_str in
      let fallback :=
        match parse_with_formats clean now with
        | Some dt => Ok (adjust_to_future dt now window_hours)
        | None => Ok None
        end in
      match dateutil with
      | Some parse =>
          match parse clean (DT.midnight now) with
          | Ok dt => Ok (adjust_to_future dt now window_hours)
          | Raise (ValueError _) => fallback
          | Raise (ParserError _) => fallback
          | Raise e => Raise e
          end
      | None => fallback
      end
  end.

(** *** parse_usage *)

Definition parse_usage (dateutil : option dateutil_parser)
           (content : string) (now : DT.datetime) : result ParseResult :=
  let content :=
    Str.replace Str.cr Str.nl (Str.replace (Str.cr ++ Str.nl) Str.nl content) in
  let clean_text := strip_ansi content in
  let session_section :=
    if Str.contains "Current week" clean_text
    then hd "" (Str.split "Current week" clean_text)
    else clean_text in
  let session_percent := extract_percentage session_section "Current session" in
  let session_reset_str := extract_reset_string session_section "Current session" in
  session_reset_dt <- parse_reset_time dateutil session_reset_str 5 now ;;
  let week_percent := extract_percentage clean_text "Current week (all models)" in
  let week_reset_str := extract_reset_string clean_text "Current week (all models)" in
  week_reset_dt <- parse_reset_time dateutil week_reset_str 168 now ;;
  let error :=
    match session_percent, week_percent with
    | None, _ => Some "Failed to extract session percentage"
    | Some _, None => Some "Failed to extract week percentage"
    | Some _, Some _ => None
    end in
  Ok {| session_percent := session_percent;
        session_reset_str := session_reset_str;
        session_reset_dt := session_reset_dt;
        week_percent := week_percent;
        week_reset_str := week_reset_str;
        week_reset_dt := week_reset_dt;
        error := error;
        warnings := [] |}.

(** *** Validation layer *)

(** The reason of a rejection.  The source returns a text; the
    constructor stands for the text given next to it, with the value
    it interpolates as argument. *)
Inductive reason : Type :=
| PipelineError (msg : string)                 (* result.error itself *)
| SessionPercentMissing                        (* "Session percentage missing" *)
| WeekPercentMissing                           (* "Week percentage missing" *)
| SessionPercentOutOfRange (percent : Z)       (* "Session percent {} out of range" *)
| WeekPercentOutOfRange (percent : Z)          (* "Week percent {} out of range" *)
| SessionResetInPast (dt : DT.datetime)        (* "Session reset {} is in past" *)
| SessionResetExceedsWindow (away : DT.timedelta) (* "Session reset {:.1f}h away exceeds window" *)
| WeekResetInPast (dt : DT.datetime)           (* "Week reset {} is in past" *)
| WeekResetExceedsWindow (away : DT.timedelta).   (* "Week reset {:.1f}h away exceeds window" *)

Definition validate_result (result : ParseResult) (now : DT.datetime)
  : bool * option reason :=
  match error result with
  | Some (String c msg) => (false, Some (PipelineError (String c msg)))
  | _ =>
  match session_percent result with
  | None => (false, Some SessionPercentMissing)
  | Some session =>
  match week_percent result with
  | None => (false, Some WeekPercentMissing)
  | Some week =>
  if negb ((0 <=? session) && (session <=? 100)) then
    (false, Some (SessionPercentOutOfRange session))
  else if negb ((0 <=? week) && (week <=? 100)) then
    (false, Some (WeekPercentOutOfRange week))
  else
    let session_check :=
      match session_reset_dt result with
      | Some dt =>
          if dt <? now - DT.minutes 5 then Some (SessionResetInPast dt)
          else if DT.hours 6 <? dt - now
               then Some (SessionResetExceedsWindow (dt - now))
               else None
      | None => None
      end in
    match session_check with
    | Some why => (false, Some why)
    | None =>
        let week_check :=
          match week_reset_dt result with
          | Some dt =>
              if dt <? now - DT.minutes 5 then Some (WeekResetInPast dt)
              else if DT.hours 169 <? dt - now
                   then Some (WeekResetExceedsWindow (dt - now))
                   else None
          | None => None
          end in
        match week_check with
        | Some why => (false, Some why)
        | None => (true, None)
        end
    end
  end end end.

(** *** Capture layer

    The outside world of one run: which commands are installed, what
    the k-th run of the expect driver leaves in its log ([None] when
    the driver times out), what the clock shows at its k-th reading,
    and the date parser that was imported, if any.  A [trace] counts
    what the program has consumed of it and records the sleeps. *)

Record world : Type := mkWorld {
  installed : string -> bool;
  expect_log : nat -> option string;
  clock : nat -> DT.datetime;
  dateutil : option dateutil_parser
}.

Record trace : Type := mkTrace {
  expect_runs : nat;
  clock_reads : nat;
  slept : list Q
}.

Definition M (A : Type) : Type := trace -> result A * trace.

Definition find_claude_command (w : world) : result string :=
  if installed w "claude" then Ok "claude"
  else if installed w "cc" then Ok "cc"
  else Raise (CaptureError "Claude CLI not found. Install 'claude' or 'cc'.").

Definition run_expect_capture (w : world) (cmd : string) : M string :=
  fun t =>
    let t' := {| expect_runs := S (expect_runs t);
                 clock_reads := clock_reads t;
                 slept := slept t ++ [0.2%Q] |} in
    match expect_log w (expect_runs t) with
    | Some log => (Ok log, t')
    | None =>
        (Raise (CaptureError "Capture timed out after 20s"),
         {| expect_runs := S (expect_runs t);
            clock_reads := clock_reads t;
            slept := slept t |})
    end.

Definition sleep (seconds : Q) (t : trace) : trace :=
  {| expect_runs := expect_runs t;
     clock_reads := clock_reads t;
     slept := slept t ++ [seconds] |}.

Definition datetime_now (w : world) : M DT.datetime :=
  fun t =>
    (Ok (clock w (clock_reads t)),
     {| expect_runs := expect_runs t;
        clock_reads := S (clock_reads t);
        slept := slept t |}).

Definition validate_capture (output : string) : bool :=
  let clean := strip_ansi output in
  Str.contains "Current session" clean
  && Str.contains "Current week" clean
  && Str.contains "% used" clean.

Definition backoff (max_retries attempt : nat) (t : trace) : trace :=
  if (attempt <? max_retries - 1)%nat
  then sleep (0.5 * inject_Z (Z.of_nat attempt + 1))%Q t
  else t.

(** The loop [for attempt in range(max_retries)], with [todo] turns
    left. *)
Fixpoint capture_loop (w : world) (cmd : string) (max_retries todo : nat)
  : M string :=
  fun t =>
    match todo with
    | O =>
        (Raise (CaptureError ("Failed to capture output after "
                              ++ Str.of_Z (Z.of_nat max_retries)
                              ++ " attempts")), t)
    | S todo' =>
        let attempt := (max_retries - todo)%nat in
        match run_expect_capture w cmd t with
        | (Ok output, t1) =>
            if validate_capture output then (Ok output, t1)
            else capture_loop w cmd max_retries todo'
                              (backoff max_retries attempt t1)
        | (Raise (CaptureError _), t1) =>
            capture_loop w cmd max_retries todo'
                         (backoff max_retries attempt t1)
        | (Raise e, t1) => (Raise e, t1)
        end
    end.

Definition capture_usage_output (w : world) (max_retries : nat) : M string :=
  fun t =>
    match find_claude_command w with
    | Ok cmd => capture_loop w cmd max_retries max_retries t
    | Raise e => (Raise e, t)
    end.

End Monitor.

(* ================================================================== *)
(** ** self_heal.py *)

Module SelfHeal.
Import Re Monitor.

(** *** Constants *)

Definition MAX_ITERATIONS : nat := 3.
Definition VERIFY_ATTEMPTS : nat := 3.
Definition VERIFY_THRESHOLD : nat := 2.

Inductive FailureType : Type :=
| CAPTURE_TIMEOUT
| CAPTURE_INCOMPLETE
| PARSE_SECTION_MISSING
| PARSE_PERCENTAGE
| PARSE_DATE
| VALIDATION
| UNKNOWN.

(** A fix acts on the text of the parser's source file: [apply] and
    [rollback] read the file, rewrite the text and write it back. *)
Record Fix : Type := mkFix {
  name : string;
  description : string;
  apply : string -> string;
  rollback : string -> string
}.

(** *** Failure classification *)

(** [isinstance(error, CaptureError)] and [str(error)]. *)
Definition is_capture_error (e : exn) : bool :=
  match e with
  | CaptureError _ => true
  | _ => false
  end.

Definition exn_str (e : exn) : string :=
  match e with
  | ValueError msg | ParserError msg | CaptureError msg
  | ParseError msg | ValidationError msg | OtherError _ msg => msg
  end.

Definition classify_failure (error : exn) (output : string)
  : FailureType * Q :=
  let error_str := Str.lower (exn_str error) in
  let output_lower := Str.lower output in
  if is_capture_error error then
    if Str.contains "timeout" error_str
    then (CAPTURE_TIMEOUT, 0.95%Q)
    else (CAPTURE_INCOMPLETE, 0.85%Q)
  else if negb (Str.contains "current session" output_lower)
          || negb (Str.contains "current week" output_lower)
  then (PARSE_SECTION_MISSING, 0.90%Q)
  else if Str.contains "time data" error_str
          || Str.contains "does not match format" error_str
  then (PARSE_DATE, 0.95%Q)
  else if Str.contains "out of range" error_str
          || Str.contains "exceeds window" error_str
          || Str.contains "in past" error_str
  then (VALIDATION, 0.90%Q)
  else if negb (Str.contains "% used" output_lower)
  then (PARSE_PERCENTAGE, 0.85%Q)
  else if Str.contains "percentage" error_str
  then (PARSE_PERCENTAGE, 0.80%Q)
  else (UNKNOWN, 0.50%Q).

(** *** Inferring a date format *)

Definition letter : regex :=
  Cls (fun c => Str.between 97 122 (Str.lower_char c)).
Definition d12 : regex := Cat digit (Alt digit Eps).          (* \d{1,2} *)
Definition d2 : regex := Cat digit digit.                     (* \d{2}   *)
Definition d4 : regex := seq [digit; digit; digit; digit].    (* \d{4}   *)
Definition mon : regex := seq [letter; letter; letter].       (* [A-Z][a-z]{2} *)
Definition ampm : regex := Alt (lit true "am") (lit true "pm").
Definition at_ : regex := seq [spaces1; lit true "at"; spaces1].

Definition patterns : list (regex * string * string) :=
  [ (seq [Grp 1 mon; spaces1; Grp 2 d12; spaces1; Grp 3 d4; at_;
          Grp 4 d12; lit true ":"; Grp 5 d2; Grp 6 ampm; Eos],
     "%b %d %Y at %I:%M%p", "DATE_FORMATS_WITH_YEAR");
    (seq [Grp 1 mon; spaces1; Grp 2 d12; spaces1; Grp 3 d4; at_;
          Grp 4 d12; Grp 5 ampm; Eos],
     "%b %d %Y at %I%p", "DATE_FORMATS_WITH_YEAR");
    (seq [Grp 1 mon; spaces1; Grp 2 d12; at_;
          Grp 3 d12; lit true ":"; Grp 4 d2; Grp 5 ampm; Eos],
     "%b %d at %I:%M%p", "DATE_FORMATS_NO_YEAR");
    (seq [Grp 1 mon; spaces1; Grp 2 d12; at_; Grp 3 d12; Grp 4 ampm; Eos],
     "%b %d at %I%p", "DATE_FORMATS_NO_YEAR");
    (seq [Grp 1 d12; spaces1; Grp 2 mon; at_;
          Grp 3 d12; lit true ":"; Grp 4 d2; Grp 5 ampm; Eos],
     "%d %b at %I:%M%p", "DATE_FORMATS_NO_YEAR");
    (seq [Grp 1 d12; lit true ":"; Grp 2 d2; Grp 3 ampm; Eos],
     "%I:%M%p", "TIME_FORMATS");
    (seq [Grp 1 d12; Grp 2 ampm; Eos], "%I%p", "TIME_FORMATS") ].

Fixpoint first_pattern (ps : list (regex * string * string))
         (time_str : string) : option (string * string) :=
  match ps with
  | [] => None
  | (pattern, fmt, list_name) :: rest =>
      match match_at pattern time_str with
      | Some _ => Some (fmt, list_name)
      | None => first_pattern rest time_str
      end
  end.

Definition infer_date_format (time_str : string) : option (string * string) :=
  first_pattern patterns (Str.strip time_str).

(** *** Fix strategies *)

Definition get_strategies (failure_type : FailureType) : list string :=
  match failure_type with
  | CAPTURE_TIMEOUT => ["increment_timeout"; "add_retry_attempt"]
  | CAPTURE_INCOMPLETE => ["extend_wait_time"; "add_section_wait"]
  | PARSE_DATE => ["add_date_format"]
  | PARSE_SECTION_MISSING => ["relax_section_regex"]
  | PARSE_PERCENTAGE => ["broaden_percentage_regex"]
  | VALIDATION => ["increase_validation_buffer"]
  | UNKNOWN => []
  end.

(** A numeric constant [key<digits>] of the source: its current value
    (or [default]) and the rewriting of every occurrence to [value]. *)
Definition read_constant (key : string) (default : Z) (source : string) : Z :=
  match search (Cat (lit false key) (Grp 1 digits1)) source with
  | Some (_, _, m) => Str.int (group1 m)
  | None => default
  end.

Definition write_constant (key : string) (value : Z) (source : string)
  : string :=
  sub (Cat (lit false key) digits1) (fun _ => key ++ Str.of_Z value) source.

Definition _fix_increment_timeout (parser_source : string) : Fix :=
  let original_timeout := read_constant "timeout: int = " 20 parser_source in
  let new_timeout := original_timeout + 5 in
  {| name := "increment_timeout";
     description := "Increase timeout from " ++ Str.of_Z original_timeout
                    ++ "s to " ++ Str.of_Z new_timeout ++ "s";
     apply := write_constant "timeout: int = " new_timeout;
     rollback := write_constant "timeout: int = " original_timeout |}.

Definition _fix_add_retry (parser_source : string) : Fix :=
  let original_retries := read_constant "max_retries: int = " 3 parser_source in
  let new_retries := original_retries + 1 in
  {| name := "add_retry_attempt";
     description := "Increase retries from " ++ Str.of_Z original_retries
                    ++ " to " ++ Str.of_Z new_retries;
     apply := write_constant "max_retries: int = " new_retries;
     rollback := write_constant "max_retries: int = " original_retries |}.

Definition _fix_extend_wait : Fix :=
  {| name := "extend_wait_time";
     description := "Extend wait time from 0.5s to 1.0s";
     apply := Str.replace "sleep 0.5" "sleep 1.0";
     rollback := Str.replace "sleep 1.0" "sleep 0.5" |}.

Definition _fix_add_section_wait : Fix :=
  {| name := "add_section_wait";
     description := "Increase section wait from 2.0s to 3.0s";
     apply := Str.replace "sleep 2.0" "sleep 3.0";
     rollback := Str.replace "sleep 3.0" "sleep 2.0" |}.

Definition quote : string := String (Str.chr 34) EmptyString.

(** [Rese[ts]*\s+(.+?)(?:\s{2,}|\n|$)], IGNORECASE. *)
Definition re_resets : regex :=
  seq [lit true "Rese";
       Rep true 0 (fun c => chr_class true "t" c || chr_class true "s" c);
       spaces1; Grp 1 (Rep false 1 not_nl);
       alts [Rep true 2 Str.is_space; Cls (fun c => negb (not_nl c)); Eos]].

Definition _fix_add_date_format (output : string) : option Fix :=
  let clean_output := strip_ansi output in
  match findall re_resets clean_output with
  | [] => None
  | first :: _ =>
      let time_str := Str.strip first in
      match infer_date_format time_str with
      | None => None
      | Some (format_str, list_name) =>
          let added :=
            Str.nl ++ "    " ++ quote ++ format_str ++ quote
            ++ ",  # Added by self-heal:" in
          let head :=
            if String.eqb list_name "TIME_FORMATS" then "TIME_FORMATS = ["
            else if String.eqb list_name "DATE_FORMATS_NO_YEAR"
                 then "DATE_FORMATS_NO_YEAR = ["
                 else "DATE_FORMATS_WITH_YEAR = [" in
          Some {| name := "add_date_format";
                  description := "Add format '" ++ format_str ++ "' for '"
                                 ++ time_str ++ "'";
                  apply := sub (lit false head)
                               (fun _ => head ++ added ++ " " ++ time_str);
                  rollback := sub (Cat (lit false added) (Rep true 0 not_nl))
                                  (fun _ => "") |}
      end
  end.

Definition _fix_relax_section_regex : Fix :=
  {| name := "relax_section_regex";
     description := "Relax section regex to handle more corruption";
     apply := Str.replace "Rese[ts]*" "Rese[tst]*";
     rollback := Str.replace "Rese[tst]*" "Rese[ts]*" |}.

Definition _fix_broaden_percentage_regex : Fix :=
  {| name := "broaden_percentage_regex";
     description := "Allow whitespace before percentage sign";
     apply := Str.replace "(\d+)%\s*used" "(\d+)\s*%\s*used";
     rollback := Str.replace "(\d+)\s*%\s*used" "(\d+)%\s*used" |}.

Definition _fix_increase_validation_buffer : Fix :=
  {| name := "increase_validation_buffer";
     description := "Increase validation time buffers";
     apply := fun source =>
       Str.replace "hours > 169:" "hours > 170:"
                   (Str.replace "hours > 6:" "hours > 7:" source);
     rollback := fun source =>
       Str.replace "hours > 170:" "hours > 169:"
                   (Str.replace "hours > 7:" "hours > 6:" source) |}.

(** [create_fix]; [parser_source] is the text of the parser's file at
    the time the fix is created. *)
Definition create_fix (strategy_name output : string) (error : exn)
           (parser_source : string) : option Fix :=
  if String.eqb strategy_name "increment_timeout"
  then Some (_fix_increment_timeout parser_source)
  else if String.eqb strategy_name "add_retry_attempt"
  then Some (_fix_add_retry parser_source)
  else if String.eqb strategy_name "extend_wait_time"
  then Some _fix_extend_wait
  else if String.eqb strategy_name "add_section_wait"
  then Some _fix_add_section_wait
  else if String.eqb strategy_name "add_date_format"
  then _fix_add_date_format output
  else if String.eqb strategy_name "relax_section_regex"
  then Some _fix_relax_section_regex
  else if String.eqb strategy_name "broaden_percentage_regex"
  then Some _fix_broaden_percentage_regex
  else if String.eqb strategy_name "increase_validation_buffer"
  then Some _fix_increase_validation_buffer
  else None.

(** *** Verification *)

(** The body of the [try] of one verification attempt: capture, parse,
    validate.  Each of [parse_usage] and [validate_result] reads the
    clock for its own [now]. *)
Definition check_once (w : world) : M bool :=
  fun t =>
    match capture_usage_output w 3 t with
    | (Raise e, t1) => (Raise e, t1)
    | (Ok output, t1) =>
        match datetime_now w t1 with
        | (Raise e, t2) => (Raise e, t2)
        | (Ok now1, t2) =>
            match parse_usage (dateutil w) output now1 with
            | Raise e => (Raise e, t2)
            | Ok result =>
                match datetime_now w t2 with
                | (Raise e, t3) => (Raise e, t3)
                | (Ok now2, t3) => (Ok (fst (validate_result result now2)), t3)
                end
            end
        end
    end.

(** Whether an attempt counts: it returned, and returned valid. *)
Definition succeeded (r : result bool) : bool :=
  match r with
  | Ok valid => valid
  | Raise _ => false
  end.

Definition pause (attempts i : nat) (t : trace) : trace :=
  if (i <? attempts - 1)%nat then sleep 1%Q t else t.

(** The loop [for i in range(attempts)], with [todo] turns left. *)
Fixpoint verify_loop (w : world) (attempts todo successes : nat) (t : trace)
  : nat * trace :=
  match todo with
  | O => (successes, t)
  | S todo' =>
      let i := (attempts - todo)%nat in
      let (r, t1) := check_once w t in
      let successes := if succeeded r then S successes else successes in
      verify_loop w attempts todo' successes (pause attempts i t1)
  end.

Definition verify_fix (w : world) (attempts threshold : nat) (t : trace)
  : bool * trace :=
  let (successes, t') := verify_loop w attempts attempts 0%nat t in
  ((threshold <=? successes)%nat, t').

(** The part of [heal] that handles one fix: apply it, verify, and
    keep it or roll it back.  The result is whether the fix was
    accepted and the text of the parser's file afterwards. *)
Definition apply_and_verify (w : world) (the_fix : Fix) (source : string)
           (t : trace) : bool * string * trace :=
  let applied := apply the_fix source in
  let (verified, t') := verify_fix w VERIFY_ATTEMPTS VERIFY_THRESHOLD t in
  if verified then (true, applied, t')
  else (false, rollback the_fix applied, t').

End SelfHeal.


(* ================================================================== *)
(** ** self_heal.py: the audit log *)

Module History.
Import SelfHeal.

(** [FailureType.value]. *)
Definition value (failure_type : FailureType) : string :=
  match failure_type with
  | CAPTURE_TIMEOUT => "capture_timeout"
  | CAPTURE_INCOMPLETE => "capture_incomplete"
  | PARSE_SECTION_MISSING => "section_missing"
  | PARSE_PERCENTAGE => "percentage_parse"
  | PARSE_DATE => "date_parse"
  | VALIDATION => "validation"
  | UNKNOWN => "unknown"
  end.

(** One entry of the log.  [timestamp] is the instant whose
    [isoformat()] the source stores. *)
Record HealingHistory : Type := mkEntry {
  timestamp : DT.datetime;
  success : bool;
  failure_type : string;
  fix_applied : option string;
  message : string
}.

(** The history file: missing, not decodable as JSON, or holding a list
    of entries. *)
Inductive history_file : Type :=
| Missing
| Undecodable
| Stored (entries : list HealingHistory).

(** [history[-n:]]. *)
Definition last_n {A : Type} (n : nat) (l : list A) : list A :=
  skipn (List.length l - n) l.

Definition record_history (now : DT.datetime) (ok : bool)
           (failure : FailureType) (fix_name : option string)
           (msg : string) (file : history_file) : history_file :=
  let history :=
    match file with
    | Stored entries => entries
    | Missing | Undecodable => []
    end in
  let entry := {| timestamp := now;
                  success := ok;
                  failure_type := value failure;
                  fix_applied := fix_name;
                  message := msg |} in
  let history := (history ++ [entry])%list in
  Stored (last_n 100 history).

End History.


(* ================================================================== *)
(** ** monitor.py: lock file, single run, entry point *)

Module Cli.
Import Monitor.

(** *** Lock management

    The lock file is [None] when it does not exist and [Some mtime]
    otherwise.  Times are the values of [time.time()] and [st_mtime],
    floats taken as the rationals they are; [time.time() - 300] is exact
    for every time stamp from 300 up to 2^55.  [now] is the time of the
    call: what [time.time()] returns and what [touch] stamps. *)

Definition lock_file : Type := option Q.

Definition Qlt_bool (a b : Q) : bool := negb (Qle_bool b a).

Definition acquire_lock (now : Q) (lock : lock_file) : bool * lock_file :=
  match lock with
  | None => (true, Some now)
  | Some st_mtime =>
      if Qlt_bool st_mtime (now - 300)%Q
      then (true, Some now)
      else (false, lock)
  end.

Definition release_lock (lock : lock_file) : lock_file := None.

(** *** What a run shows *)

Inductive event : Type :=
| Stdout (text : string)
| Stderr (text : string)
| DisplayUsage (result : ParseResult) (debug : bool).

(** The machine a run is on: the world of the capture layer, the text
    Python gives a datetime ([str(dt)]) and a number of hours
    ([f"{hours:.1f}"]), the outcome of the probe [expect -v], the
    version text, and what becomes of [run_loop], which only an
    interrupt or an exception ends. *)
Inductive probe : Type :=
| ProbeFound
| ProbeNotFound
| ProbeFailed.

Record host : Type := mkHost {
  os : world;
  str_datetime : DT.datetime -> string;
  hours_1f : DT.timedelta -> string;
  expect_probe : probe;
  version_text : string;
  run_loop : Z -> bool -> bool -> trace -> result unit * trace * list event
}.

(** The text [validate_result] gives as reason. *)
Definition reason_text (h : host) (why : reason) : string :=
  match why with
  | PipelineError msg => msg
  | SessionPercentMissing => "Session percentage missing"
  | WeekPercentMissing => "Week percentage missing"
  | SessionPercentOutOfRange p =>
      "Session percent " ++ Str.of_Z p ++ " out of range"
  | WeekPercentOutOfRange p =>
      "Week percent " ++ Str.of_Z p ++ " out of range"
  | SessionResetInPast dt =>
      "Session reset " ++ str_datetime h dt ++ " is in past"
  | SessionResetExceedsWindow away =>
      "Session reset " ++ hours_1f h away ++ "h away exceeds window"
  | WeekResetInPast dt =>
      "Week reset " ++ str_datetime h dt ++ " is in past"
  | WeekResetExceedsWindow away =>
      "Week reset " ++ hours_1f h away ++ "h away exceeds window"
  end.

(** [str(msg)] for the [msg] of [validate_result]. *)
Definition msg_text (h : host) (msg : option reason) : string :=
  match msg with
  | Some why => reason_text h why
  | None => "None"
  end.

(** *** Single run *)



(** *** Entry point *)




End Cli.


(* ================================================================== *)
(** ** monitor.py: display layer *)

Module Display.

Definition WIDTH : Z := 40.

(** The two characters of a bar, U+2588 and U+2591. *)
Inductive block : Type :=
| BLOCK_FULL
| BLOCK_EMPTY.

(** [float(n)], exact for an [int] of magnitude below 2^53; the
    quotient [a / b] of two such [int]s is then the IEEE quotient of
    the two floats. *)
Definition float_of_int (n : Z) : float :=
  if n <? 0 then PrimFloat.opp (PrimFloat.of_uint63 (Uint63.of_Z (- n)))
  else PrimFloat.of_uint63 (Uint63.of_Z n).

(** [int(x)]: truncation towards zero; [None] where Python raises (on
    an infinity or a NaN). *)
Definition int_of_float (x : float) : option Z :=
  match Prim2SF x with
  | S754_zero _ => Some 0
  | S754_finite s m e =>
      let magnitude :=
        if 0 <=? e then Z.pos m * 2 ^ e else Z.pos m / 2 ^ (- e) in
      Some (if s then - magnitude else magnitude)
  | S754_infinity _ => None
  | S754_nan => None
  end.

(** [b * n] for a one-character string [b]: empty when [n <= 0]. *)
Definition times (b : block) (n : Z) : list block := repeat b (Z.to_nat n).

Definition create_bar (percent : Z) : option (list block) :=
  let p := Z.max 0 (Z.min 100 percent) in
  match int_of_float
          (PrimFloat.mul (PrimFloat.div (float_of_int p) (float_of_int 100))
                         (float_of_int WIDTH)) with
  | Some fill => Some (times BLOCK_FULL fill ++ times BLOCK_EMPTY (WIDTH - fill))%list
  | None => None
  end.

(** The block "Time remaining" of [display_section]: the text shown
    after "Resets in" for the time [remain = reset_dt - now].  A
    [timedelta] is kept as whole days (possibly negative) and a
    non-negative rest of seconds. *)
Definition remain_days (remain : DT.timedelta) : Z := remain / DT.us_per_day.

Definition remain_seconds (remain : DT.timedelta) : Z :=
  (remain mod DT.us_per_day) / DT.us_per_second.

Definition remain_str (remain : DT.timedelta) : string :=
  let days := remain_days remain in
  let hours := remain_seconds remain / 3600 in
  let mins := (remain_seconds remain / 60) mod 60 in
  if 0 <? days
  then Str.of_Z days ++ "d " ++ Str.of_Z hours ++ "h"
  else Str.of_Z hours ++ "h " ++ Str.of_Z mins ++ "m".

End Display.


(* ================================================================== *)
(** ** self_heal.py: the healing loop *)

Module Healer.
Import Monitor SelfHeal.

Record HealResult : Type := mkHealResult {
  success : bool;
  message : string;
  fix_used : option Fix;       (* the field [fix] *)
  iterations : nat
}.

(** What [heal] reads and writes besides the terminal and the clock:
    the parser's file, the history file, the fixtures it saved and the
    descriptions it committed.  The file system is taken to work: the
    parser's file [PARSER_FILE] exists and is a text, and reading and
    writing it, the history file and the fixtures raise nothing. *)
Record machine : Type := mkMachine {
  parser_file : string;
  history : History.history_file;
  fixtures : list (string * ParseResult);
  commits : list string;
  tr : trace
}.

Definition with_trace (m : machine) (t : trace) : machine :=
  {| parser_file := parser_file m; history := history m;
     fixtures := fixtures m; commits := commits m; tr := t |}.

Definition with_parser_file (m : machine) (text : string) : machine :=
  {| parser_file := text; history := history m;
     fixtures := fixtures m; commits := commits m; tr := tr m |}.

(** The outcome of [output = capture_usage_output();
    result = parse_usage(output); valid, msg = validate_result(result)]. *)
Inductive checked : Type :=
| Valid (output : string) (result : ParseResult)
| Invalid (output : string) (result : ParseResult) (msg : option reason)
| CaptureRaised (e : exn)
| ParseRaised (output : string) (e : exn).

Definition check (h : Cli.host) (t : trace) : checked * trace :=
  match capture_usage_output (Cli.os h) 3 t with
  | (Raise e, t1) => (CaptureRaised e, t1)
  | (Ok output, t1) =>
      match datetime_now (Cli.os h) t1 with
      | (Raise e, t2) => (ParseRaised output e, t2)
      | (Ok now1, t2) =>
          match parse_usage (dateutil (Cli.os h)) output now1 with
          | Raise e => (ParseRaised output e, t2)
          | Ok result =>
              match datetime_now (Cli.os h) t2 with
              | (Raise e, t3) => (ParseRaised output e, t3)
              | (Ok now2, t3) =>
                  match validate_result result now2 with
                  | (true, _) => (Valid output result, t3)
                  | (false, msg) => (Invalid output result msg, t3)
                  end
              end
          end
      end
  end.

(** [check_status]. *)
Definition check_status (h : Cli.host) (t : trace) : bool * trace :=
  match check h t with
  | (Valid _ _, t') => (true, t')
  | (_, t') => (false, t')
  end.

(** The local variables of [heal] that describe the failure at hand.
    [output] is [None] while the variable is unbound. *)
Record diagnosis : Type := mkDiagnosis {
  failure_type : FailureType;
  last_error : exn;
  output : option string
}.

(** [output if 'output' in dir() else ""]. *)
Definition output_or_empty (output : option string) : string :=
  match output with
  | Some text => text
  | None => ""
  end.

(** The first check of [heal]: [inl] when the parser works. *)
Definition first_check (h : Cli.host) (t : trace)
  : (HealResult + diagnosis) * trace :=
  match check h t with
  | (Valid _ _, t') =>
      (inl {| success := true; message := "Parser working";
              fix_used := None; iterations := 0 |}, t')
  | (Invalid output _ msg, t') =>
      (inr {| failure_type := VALIDATION;
              last_error := ValidationError (Cli.msg_text h msg);
              output := Some output |}, t')
  | (CaptureRaised e, t') =>
      if is_capture_error e then
        (inr {| failure_type := fst (classify_failure e "");
                last_error := e; output := Some "" |}, t')
      else
        (inr {| failure_type := fst (classify_failure e "");
                last_error := e; output := None |}, t')
  | (ParseRaised output e, t') =>
      if is_capture_error e then
        (inr {| failure_type := fst (classify_failure e "");
                last_error := e; output := Some "" |}, t')
      else
        (inr {| failure_type := fst (classify_failure e output);
                last_error := e; output := Some output |}, t')
  end.

(** The re-check at the end of an iteration: [inl] when the parser
    works again. *)
Definition recheck (h : Cli.host) (d : diagnosis) (t : trace)
  : (HealResult + diagnosis) * trace :=
  match check h t with
  | (Valid _ _, t') =>
      (inl {| success := true; message := "Parser recovered";
              fix_used := None; iterations := 0 |}, t')
  | (Invalid output _ msg, t') =>
      let error :=
        match Cli.msg_text h msg, msg with
        | String _ _ as text, Some _ => ValidationError text
        | _, _ => last_error d
        end in
      (inr {| failure_type := fst (classify_failure error output);
              last_error := last_error d;
              output := Some output |}, t')
  | (CaptureRaised e, t') =>
      (inr {| failure_type :=
                fst (classify_failure e (output_or_empty (output d)));
              last_error := e; output := output d |}, t')
  | (ParseRaised output e, t') =>
      (inr {| failure_type := fst (classify_failure e output);
              last_error := e; output := Some output |}, t')
  end.

(** After a verified fix: capture a fixture (any failure is passed
    over), commit in automatic mode, record the success. *)
Definition keep_fix (h : Cli.host) (auto : bool) (d : diagnosis)
           (the_fix : Fix) (m : machine) : machine :=
  let '(saved, t1) :=
    match capture_usage_output (Cli.os h) 3 (tr m) with
    | (Raise _, t1) => (fixtures m, t1)
    | (Ok test_output, t1) =>
        match datetime_now (Cli.os h) t1 with
        | (Raise _, t2) => (fixtures m, t2)
        | (Ok now1, t2) =>
            match parse_usage (dateutil (Cli.os h)) test_output now1 with
            | Raise _ => (fixtures m, t2)
            | Ok test_result =>
                ((fixtures m ++ [(test_output, test_result)])%list,
                 {| expect_runs := expect_runs t2;
                    clock_reads := S (S (clock_reads t2));
                    slept := slept t2 |})
            end
        end
    end in
  let committed :=
    if auto then (commits m ++ [description the_fix])%list else commits m in
  {| parser_file := parser_file m;
     history :=
       History.record_history (clock (Cli.os h) (clock_reads t1)) true
         (failure_type d) (Some (name the_fix)) "Fix applied and verified"
         (history m);
     fixtures := saved;
     commits := committed;
     tr := {| expect_runs := expect_runs t1;
              clock_reads := S (clock_reads t1);
              slept := slept t1 |} |}.

(** The loop [for strategy_name in strategies]: [Ok (Some r)] when
    [heal] returns [r] from inside it, [Ok None] when it runs out. *)
Fixpoint try_strategies (h : Cli.host) (auto : bool) (d : diagnosis)
         (iteration : nat) (strategies : list string) (m : machine)
  : result (option HealResult) * machine :=
  match strategies with
  | [] => (Ok None, m)
  | strategy_name :: rest =>
      match output d with
      | None =>
          (Raise (OtherError "UnboundLocalError"
                    "local variable 'output' referenced before assignment"),
           m)
      | Some text =>
          match create_fix strategy_name text (last_error d) (parser_file m) with
          | None => try_strategies h auto d iteration rest m
          | Some the_fix =>
              let m1 := with_parser_file m (apply the_fix (parser_file m)) in
              let (verified, t1) :=
                verify_fix (Cli.os h) VERIFY_ATTEMPTS VERIFY_THRESHOLD (tr m1) in
              let m2 := with_trace m1 t1 in
              if verified then
                (Ok (Some {| success := true;
                             message := "Fixed with " ++ strategy_name;
                             fix_used := Some the_fix;
                             iterations := iteration + 1 |}),
                 keep_fix h auto d the_fix m2)
              else
                try_strategies h auto d iteration rest
                  (with_parser_file m2 (rollback the_fix (parser_file m2)))
          end
      end
  end.

(** The loop [for iteration in range(max_iterations)], with [todo]
    turns left. *)
Fixpoint heal_loop (h : Cli.host) (auto : bool) (max_iterations todo : nat)
         (d : diagnosis) (m : machine) : result HealResult * machine :=
  match todo with
  | O =>
      let m' :=
        {| parser_file := parser_file m;
           history :=
             History.record_history
               (clock (Cli.os h) (clock_reads (tr m))) false
               (failure_type d) None "All strategies exhausted" (history m);
           fixtures := fixtures m;
           commits := commits m;
           tr := {| expect_runs := expect_runs (tr m);
                    clock_reads := S (clock_reads (tr m));
                    slept := slept (tr m) |} |} in
      (Ok {| success := false; message := "All strategies exhausted";
             fix_used := None; iterations := max_iterations |}, m')
  | S todo' =>
      let iteration := (max_iterations - todo)%nat in
      match get_strategies (failure_type d) with
      | [] => heal_loop h auto max_iterations todo' d m
      | strategies =>
          match try_strategies h auto d iteration strategies m with
          | (Raise e, m1) => (Raise e, m1)
          | (Ok (Some r), m1) => (Ok r, m1)
          | (Ok None, m1) =>
              match recheck h d (tr m1) with
              | (inl r, t') => (Ok r, with_trace m1 t')
              | (inr d', t') =>
                  heal_loop h auto max_iterations todo' d' (with_trace m1 t')
              end
          end
      end
  end.

Definition heal (h : Cli.host) (max_iterations : nat) (auto : bool)
           (m : machine) : result HealResult * machine :=
  match first_check h (tr m) with
  | (inl r, t') => (Ok r, with_trace m t')
  | (inr d, t') => heal_loop h auto max_iterations max_iterations d (with_trace m t')
  end.

End Healer.


(* ================================================================== *)
(** * Properties *)

Import Monitor SelfHeal.

(** ** Vocabulary of the statements *)



(** The result carries a pipeline error: [result.error] is a non-empty
    text (the test [if result.error]). *)
Definition carries_error (r : ParseResult) : Prop :=
  exists c msg, error r = Some (String c msg).

(** A resolved reset instant is unacceptable for a window of [window]
    hours: more than 5 minutes before now, or further from now than the
    window plus one hour. *)
Definition bad_instant (window : Z) (dt : option DT.datetime)
           (now : DT.datetime) : Prop :=
  exists i, dt = Some i
            /\ (i < now - DT.minutes 5 \/ DT.hours (window + 1) < i - now).

Definition bad_percent (p : option Z) : Prop :=
  p = None \/ exists v, p = Some v /\ ~ (0 <= v <= 100).

(** The conditions under which the validator is to reject. *)
Definition rejectable (r : ParseResult) (now : DT.datetime) : Prop :=
  carries_error r
  \/ bad_percent (session_percent r)
  \/ bad_percent (week_percent r)
  \/ bad_instant 5 (session_reset_dt r) now
  \/ bad_instant 168 (week_reset_dt r) now.

(** An outcome of the expect driver that the capture loop does not
    return: a timeout, or a log that fails [validate_capture]. *)
Definition discarded (o : option string) : Prop :=
  match o with
  | Some output => validate_capture output = false
  | None => True
  end.

Fixpoint count_true (l : list bool) : nat :=
  match l with
  | [] => O
  | b :: l' => if b then S (count_true l') else count_true l'
  end.


(** The date parser, when there is one, reads the clock time [H:M] from
    [phrase]: the date comes from the default it is given. *)
Definition reads_clock_time (du : option dateutil_parser) (phrase : string)
           (H M : Z) : Prop :=
  forall parse now,
    du = Some parse ->
    parse phrase (DT.midnight now)
    = Ok (DT.combine (DT.date_of now) (DT.clock H M)).

(** The candidate instant a phrase is read as, before projection: what
    [parse_reset_time] hands to [adjust_to_future]. *)
Definition candidate (du : option dateutil_parser) (time_str : option string)
           (now : DT.datetime) : result (option DT.datetime) :=
  match time_str with
  | None => Ok None
  | Some "" => Ok None
  | Some time_str =>
      let clean := clean_time_string time_str in
      match du with
      | Some parse =>
          match parse clean (DT.midnight now) with
          | Ok dt => Ok (Some dt)
          | Raise (ValueError _) => Ok (parse_with_formats clean now)
          | Raise (ParserError _) => Ok (parse_with_formats clean now)
          | Raise e => Raise e
          end
      | None => Ok (parse_with_formats clean now)
      end
  end.

(** A time-only candidate (year 1900) is placed on today's date. *)
Definition anchored (dt now : DT.datetime) : DT.datetime :=
  if DT.year dt =? 1900
  then DT.combine (DT.date_of now) (DT.time_of dt)
  else dt.

(** Whether rolling the candidate [c] forward by [k] days gives an
    instant of the week window: after now, at most [w] hours away. *)
Definition in_week_window (c now : DT.datetime) (w k : Z) : Prop :=
  now < c + DT.days k /\ c + DT.days k - now <= DT.hours w.

(** ** Concrete inputs *)

(** The expect driver's waits as they stand in the parser's file once
    an earlier healing run has kept the fix [extend_wait_time]. *)
Definition waits_after_kept_fix : string :=
  "        sleep 0.3" ++ Str.nl ++
  "        sleep 1.0" ++ Str.nl ++
  "        sleep 2.0" ++ Str.nl.

(** A usage pane whose all-models section shows no percentage, followed
    by the header line of the next section with that section's own. *)
Definition pane_without_week_percent : string :=
  "Current week (all models)" ++ Str.nl ++
  "Resets Jan 29 at 6:59pm" ++ Str.nl ++
  "Current week (Sonnet only)   30% used".

(** The pane of the specification's first scenario. *)
Definition session_pane : string :=
  "Current session" ++ Str.nl ++ "42% used" ++ Str.nl ++ "Resets 6:59pm".

(** The result of the validator's acceptance test. *)
Definition accepted_result : ParseResult :=
  {| session_percent := Some 42;
     session_reset_str := Some "6:59pm";
     session_reset_dt := Some (DT.make 2026 1 28 18 59);
     week_percent := Some 23;
     week_reset_str := Some "Jan 29 at 6:59pm";
     week_reset_dt := Some (DT.make 2026 1 29 18 59);
     error := None;
     warnings := [] |}.

(** A machine on which neither [claude] nor [cc] is installed. *)
Definition bare_world : world :=
  {| installed := fun _ => false;
     expect_log := fun _ => None;
     clock := fun _ => DT.make 2026 1 28 14 0;
     dateutil := None |}.

Definition fresh_trace : trace :=
  {| expect_runs := 0; clock_reads := 0; slept := [] |}.

(** A host with the command installed whose terminal never answers. *)
Definition silent_host : Cli.host :=
  {| Cli.os := {| installed := fun _ => true;
                  expect_log := fun _ => None;
                  clock := fun _ => DT.make 2026 1 28 14 0;
                  dateutil := None |};
     Cli.str_datetime := fun _ => "2026-01-28 14:00:00";
     Cli.hours_1f := fun _ => "0.0";
     Cli.expect_probe := Cli.ProbeFound;
     Cli.version_text := "0.1.0";
     Cli.run_loop := fun _ _ _ t => (Ok tt, t, []) |}.


(** The percentages a bar is drawn for, after clamping: 0 to 100. *)
Definition clamped_percentages : list Z := List.map Z.of_nat (seq 0 101).

(** The number of full blocks [create_bar] computes in floating point
    for a clamped percentage, compared with the exact [p * 40 / 100]. *)
Definition fill_is_exact (p : Z) : bool :=
  match Display.int_of_float
          (PrimFloat.mul
             (PrimFloat.div (Display.float_of_int p) (Display.float_of_int 100))
             (Display.float_of_int Display.WIDTH)) with
  | Some fill => fill =? p * 40 / 100
  | None => false
  end.

(** Every character of [s] satisfies [p]. *)
Fixpoint every (p : ascii -> bool) (s : string) : bool :=
  match s with
  | EmptyString => true
  | String c s' => p c && every p s'
  end.

(** A character that starts no control sequence: neither ESC nor a
    closing bracket. *)
Definition plain_char (c : ascii) : bool :=
  negb (Ascii.eqb ESC c) && negb (Ascii.eqb "]" c).

(** [piece] occurs in [s]. *)
Definition occurs_in (piece s : string) : Prop :=
  exists p q, s = p ++ piece ++ q.

(** [s] without its longest prefix of characters satisfying [p]. *)
Fixpoint drop_while (p : ascii -> bool) (s : string) : string :=
  match s with
  | EmptyString => EmptyString
  | String c s' => if p c then drop_while p s' else s
  end.

Definition not_esc (c : ascii) : bool := negb (Ascii.eqb ESC c).

(** A character inside a line that is no ESC. *)
Definition line_char (c : ascii) : bool := not_esc c && Re.not_nl c.

(** The end of a line: the end of the text, or a newline and what
    follows. *)
Definition line_end (rest : string) : Prop :=
  rest = "" \/ exists c, rest = Str.nl ++ c.

(** A machine with an empty parser file and no history. *)
Definition blank_machine : Healer.machine :=
  {| Healer.parser_file := "";
     Healer.history := History.Missing;
     Healer.fixtures := [];
     Healer.commits := [];
     Healer.tr := fresh_trace |}.

(** A host whose terminal shows the pane of the validator's test at
    every capture, at 14:00 on 2026-01-28. *)
Definition healthy_pane : string :=
  "Current session" ++ Str.nl ++ "42% used" ++ Str.nl ++ "Resets 6:59pm"
  ++ Str.nl ++ "Current week (all models)" ++ Str.nl ++ "23% used"
  ++ Str.nl ++ "Resets Jan 29 at 6:59pm" ++ Str.nl.

Definition healthy_host : Cli.host :=
  {| Cli.os := {| installed := fun _ => true;
                  expect_log := fun _ => Some healthy_pane;
                  clock := fun _ => DT.make 2026 1 28 14 0;
                  dateutil := None |};
     Cli.str_datetime := fun _ => "2026-01-28 14:00:00";
     Cli.hours_1f := fun _ => "0.0";
     Cli.expect_probe := Cli.ProbeFound;
     Cli.version_text := "0.1.0";
     Cli.run_loop := fun _ _ _ t => (Ok tt, t, []) |}.

(** One iteration of [heal] on a capture failure, as it acts on the
    parser's file: each of the two wait fixes applied and rolled back. *)
Definition wait_fixes_round (source : string) : string :=
  rollback _fix_add_section_wait
    (apply _fix_add_section_wait
       (rollback _fix_extend_wait (apply _fix_extend_wait source))).

(** The terminal never yields an output the capture accepts. *)
Definition dead_terminal (w : world) : Prop :=
  forall k, discarded (expect_log w k).


(** The 12-hour clock phrases: "6:59pm", "6pm", with the meridiem in
    either case; and the hour of the day they name. *)
Definition two_digits (m : Z) : string :=
  if m <? 10 then "0" ++ Str.of_Z m else Str.of_Z m.

Definition meridiem (pm upper : bool) : string :=
  match pm, upper with
  | false, false => "am"
  | true, false => "pm"
  | false, true => "AM"
  | true, true => "PM"
  end.

Definition clock_phrase (h m : Z) (pm upper : bool) : string :=
  Str.of_Z h ++ ":" ++ two_digits m ++ meridiem pm upper.

Definition hour_phrase (h : Z) (pm upper : bool) : string :=
  Str.of_Z h ++ meridiem pm upper.

Definition hour24 (h : Z) (pm : bool) : Z :=
  h mod 12 + (if pm then 12 else 0).

(** Whether the time-only formats read the clock time [H]:[M] from a
    phrase, the dated formats not being tried on it. *)
Definition reads_as (phrase : string) (H M : Z) : bool :=
  match phrase with
  | EmptyString => false
  | _ =>
      negb (Str.contains "at" (Str.lower (clean_time_string phrase)))
      && match first_parse
                 (fun fmt =>
                    match Strptime.strptime (clean_time_string phrase) fmt with
                    | Some t => Some (DT.time_of t)
                    | None => None
                    end)
                 TIME_FORMATS with
         | Some t => t =? DT.clock H M
         | None => false
         end
  end.

Definition both : list bool := [false; true].

Definition hours_1_12 : list Z := List.map Z.of_nat (seq 1 12).

Definition minutes_0_59 : list Z := List.map Z.of_nat (seq 0 60).

Definition clock_phrases_read : bool :=
  forallb (fun h =>
    forallb (fun pm =>
      forallb (fun upper =>
        reads_as (hour_phrase h pm upper) (hour24 h pm) 0
        && forallb (fun m =>
             reads_as (clock_phrase h m pm upper) (hour24 h pm) m)
             minutes_0_59)
        both)
      both)
    hours_1_12.

(** Lines put together with a separator between them. *)
Fixpoint joined (sep : string) (lines : list string) : string :=
  match lines with
  | [] => ""
  | l :: rest =>
      match rest with
      | [] => l
      | _ :: _ => l ++ sep ++ joined sep rest
      end
  end.

Definition not_cr (c : ascii) : bool := negb (Ascii.eqb (Str.chr 13) c).

Definition not_lf (c : ascii) : bool := negb (Ascii.eqb (Str.chr 10) c).

(** The text of one line: no carriage return, no line feed. *)
Definition is_line (l : string) : bool :=
  every (fun c => not_cr c && not_lf c) l.

(** ** Percentage cascade *)




(** ** Validator *)

Lemma error_cases (r : ParseResult) :
  carries_error r \/ (error r = None \/ error r = Some "").
Proof.
  unfold carries_error.
  destruct (error r) as [[|c msg]|]; eauto.
Qed.

Lemma bad_percent_dec (p : option Z) :
  bad_percent p \/ exists v, p = Some v /\ 0 <= v <= 100.
Proof.
  unfold bad_percent. destruct p as [v|]; [|left; left; reflexivity].
  destruct (Z_le_dec 0 v); destruct (Z_le_dec v 100);
    try (right; exists v; split; [reflexivity | lia]);
    left; right; exists v; split; try reflexivity; lia.
Qed.

Lemma bad_instant_dec (window : Z) (dt : option DT.datetime)
      (now : DT.datetime) :
  bad_instant window dt now
  \/ (dt = None
      \/ exists i, dt = Some i /\ now - DT.minutes 5 <= i
                   /\ i - now <= DT.hours (window + 1)).
Proof.
  unfold bad_instant. destruct dt as [i|]; [|right; left; reflexivity].
  destruct (Z_lt_dec i (now - DT.minutes 5)).
  { left. exists i. auto. }
  destruct (Z_lt_dec (DT.hours (window + 1)) (i - now)).
  { left. exists i. auto. }
  right. right. exists i. repeat split; lia.
Qed.

(** What [validate_result] answers, case by case. *)
Lemma validate_result_cases (r : ParseResult) (now : DT.datetime) :
  (rejectable r now /\ exists why, validate_result r now = (false, Some why))
  \/ (~ rejectable r now /\ validate_result r now = (true, None)).
Proof.
  unfold rejectable, validate_result.
  destruct (error_cases r) as [(c & msg & He) | Herr].
  { left. split; [left; exists c, msg; exact He|]. rewrite He. eauto. }
  assert (Hne : ~ carries_error r).
  { intros (c & msg & He). destruct Herr as [H|H]; rewrite H in He; discriminate. }
  assert (Hskip : forall (A : Type) (x : string -> A) (y : A),
             match error r with
             | Some (String c msg) => x (String c msg)
             | _ => y
             end = y).
  { intros. destruct Herr as [H|H]; rewrite H; reflexivity. }
  rewrite (Hskip _ (fun m => (false, Some (PipelineError m)))). clear Hskip.
  destruct (bad_percent_dec (session_percent r)) as [Hs | (s & Hs & Hsr)].
  { left. split; [tauto|].
    destruct Hs as [Hs | (v & Hs & Hv)]; rewrite Hs; [eauto|].
    destruct (week_percent r); [|eauto].
    destruct (Z.leb_spec 0 v); destruct (Z.leb_spec v 100); simpl; eauto; lia. }
  destruct (bad_percent_dec (week_percent r)) as [Hw | (k & Hw & Hwr)].
  { left. split; [tauto|]. rewrite Hs.
    destruct Hw as [Hw | (v & Hw & Hv)]; rewrite Hw; [eauto|].
    destruct (Z.leb_spec 0 s); destruct (Z.leb_spec s 100); simpl; eauto.
    destruct (Z.leb_spec 0 v); destruct (Z.leb_spec v 100); simpl; eauto; lia. }
  assert (Hnp : ~ bad_percent (session_percent r) /\ ~ bad_percent (week_percent r)).
  { unfold bad_percent, not. rewrite Hs, Hw.
    split; (intros [H | H]; [discriminate|]);
      destruct H as (v & Hv & H); injection Hv as <-; lia. }
  rewrite Hs, Hw.
  replace (0 <=? s) with true by (symmetry; apply Z.leb_le; lia).
  replace (s <=? 100) with true by (symmetry; apply Z.leb_le; lia).
  replace (0 <=? k) with true by (symmetry; apply Z.leb_le; lia).
  replace (k <=? 100) with true by (symmetry; apply Z.leb_le; lia).
  cbn [andb negb].
  destruct (bad_instant_dec 5 (session_reset_dt r) now) as [Hsd | Hsd].
  { left. split; [tauto|].
    destruct Hsd as (i & Hi & Hbad). rewrite Hi.
    destruct (Z.ltb_spec i (now - DT.minutes 5)); [eauto|].
    destruct (Z.ltb_spec (DT.hours 6) (i - now)); [eauto|].
    change (DT.hours (5 + 1)) with (DT.hours 6) in Hbad. lia. }
  assert (Hsok : match session_reset_dt r with
                 | Some dt =>
                     if dt <? now - DT.minutes 5 then Some (SessionResetInPast dt)
                     else if DT.hours 6 <? dt - now
                          then Some (SessionResetExceedsWindow (dt - now))
                          else None
                 | None => None
                 end = None).
  { destruct Hsd as [Hn | (i & Hi & Hlo & Hhi)]; [rewrite Hn; reflexivity|].
    rewrite Hi. change (DT.hours (5 + 1)) with (DT.hours 6) in Hhi.
    destruct (Z.ltb_spec i (now - DT.minutes 5)); [lia|].
    destruct (Z.ltb_spec (DT.hours 6) (i - now)); [lia|reflexivity]. }
  rewrite Hsok.
  assert (Hns : ~ bad_instant 5 (session_reset_dt r) now).
  { intros (i & Hi & Hbad).
    destruct Hsd as [Hn | (i' & Hi' & Hlo & Hhi)]; rewrite Hi in *;
      [discriminate|]. injection Hi' as <-. lia. }
  destruct (bad_instant_dec 168 (week_reset_dt r) now) as [Hwd | Hwd].
  { left. split; [tauto|].
    destruct Hwd as (i & Hi & Hbad). rewrite Hi.
    destruct (Z.ltb_spec i (now - DT.minutes 5)); [eauto|].
    destruct (Z.ltb_spec (DT.hours 169) (i - now)); [eauto|].
    change (DT.hours (168 + 1)) with (DT.hours 169) in Hbad. lia. }
  right. split.
  { rewrite Hs, Hw in Hnp.
    intros Hrej. destruct Hrej as [H | [H | [H | [H | H]]]]; try tauto.
    destruct H as (i & Hi & Hbad).
    destruct Hwd as [Hn | (i' & Hi' & Hlo & Hhi)]; rewrite Hi in *;
      [discriminate|]. injection Hi' as <-. lia. }
  destruct Hwd as [Hn | (i & Hi & Hlo & Hhi)]; [rewrite Hn; reflexivity|].
  rewrite Hi. change (DT.hours (168 + 1)) with (DT.hours 169) in Hhi.
  destruct (Z.ltb_spec i (now - DT.minutes 5)); [lia|].
  destruct (Z.ltb_spec (DT.hours 169) (i - now)); [lia|reflexivity].
Qed.

(** C5. For every [ParseResult] and every [now] the validator rejects,
    with a reason, exactly when the result carries a pipeline error, a
    required percentage is absent or outside [0,100], a resolved reset
    instant is more than 5 minutes before [now], or a resolved instant
    lies further from [now] than its window (5h session, 168h week) plus
    one hour; otherwise it returns ok with no reason.  A pipeline error
    is rejected first, with the error itself as reason, whatever the
    other fields hold. *)
Theorem validate_result_rejects_exactly (r : ParseResult) (now : DT.datetime) :
  (rejectable r now <-> exists why, validate_result r now = (false, Some why))
  /\ (~ rejectable r now <-> validate_result r now = (true, None))
  /\ (forall c msg,
        error r = Some (String c msg) ->
        validate_result r now = (false, Some (PipelineError (String c msg)))).
Proof.
  destruct (validate_result_cases r now) as [(Hr & why & Hv) | (Hr & Hv)].
  - split; [|split].
    + split; [intros _; exists why; exact Hv | intros _; exact Hr].
    + split; [intros Hn; contradiction | intros Ht; rewrite Hv in Ht; discriminate].
    + intros c msg He. unfold validate_result. rewrite He. reflexivity.
  - split; [|split].
    + split; [intros H; contradiction
             | intros (why & Hw); rewrite Hv in Hw; discriminate].
    + split; [intros _; exact Hv | intros _; exact Hr].
    + intros c msg He. unfold validate_result. rewrite He. reflexivity.
Qed.

(** ** Failure classifier *)

Lemma classify_section_missing (error : exn) (output : string) :
  is_capture_error error = false ->
  Str.contains "current session" (Str.lower output) = false
  \/ Str.contains "current week" (Str.lower output) = false ->
  classify_failure error output = (PARSE_SECTION_MISSING, 0.90%Q).
Proof.
  intros Hc Hmiss. unfold classify_failure. rewrite Hc.
  destruct Hmiss as [H | H]; rewrite H; simpl;
    [|rewrite orb_true_r]; reflexivity.
Qed.

(** C9, as the code has it.  For every exception that is not a
    [CaptureError] and every captured text in which neither "Current
    session" nor "Current week" occurs, in any letter case, the
    classifier returns section-missing with confidence 0.90, whatever
    the text of the exception. *)
Theorem classify_failure_section_missing (error : exn) (output : string) :
  is_capture_error error = false ->
  Str.contains "current session" (Str.lower output) = false ->
  Str.contains "current week" (Str.lower output) = false ->
  classify_failure error output = (PARSE_SECTION_MISSING, 0.90%Q).
Proof.
  intros Hc Hs _. apply classify_section_missing; auto.
Qed.

Lemma classify_failure_section_missing_witness :
  classify_failure (ParseError "Failed to extract session percentage")
                   "Welcome back"
  = (PARSE_SECTION_MISSING, 0.90%Q).
Proof.
  apply (classify_failure_section_missing
           (ParseError "Failed to extract session percentage") "Welcome back");
    reflexivity.
Defined.

(** C9 as stated fails: a [CaptureError] is classified before the text
    is looked at.  With the empty text (what [heal] passes when capture
    failed) neither marker occurs, and the answer is capture-incomplete
    with confidence 0.85. *)
Lemma classify_failure_capture_error_first :
  Str.contains "current session" (Str.lower "") = false
  /\ Str.contains "current week" (Str.lower "") = false
  /\ classify_failure (CaptureError "Failed to capture output after 3 attempts") ""
     = (CAPTURE_INCOMPLETE, 0.85%Q)
  /\ classify_failure (CaptureError "Failed to capture output after 3 attempts") ""
     <> (PARSE_SECTION_MISSING, 0.90%Q).
Proof.
  repeat split; try reflexivity. vm_compute. discriminate.
Qed.

(** ** Fix catalog *)

(** C3 fails on [extend_wait_time] when the file already holds a wait of
    1.0s: applying the fix changes nothing, and rolling it back lowers
    the wait that was there before. *)
Theorem extend_wait_rollback_not_inverse :
  create_fix "extend_wait_time" "" (CaptureError "Failed to capture output after 3 attempts")
             waits_after_kept_fix
  = Some _fix_extend_wait
  /\ apply _fix_extend_wait waits_after_kept_fix = waits_after_kept_fix
  /\ rollback _fix_extend_wait (apply _fix_extend_wait waits_after_kept_fix)
     = "        sleep 0.3" ++ Str.nl ++
       "        sleep 0.5" ++ Str.nl ++
       "        sleep 2.0" ++ Str.nl
  /\ rollback _fix_extend_wait (apply _fix_extend_wait waits_after_kept_fix)
     <> waits_after_kept_fix.
Proof.
  repeat split; try reflexivity. vm_compute. discriminate.
Qed.

(** ** Structural scan *)

(** C6 fails on a header line that carries a percentage: the line is
    searched for a percentage before it is tested for being another
    section's header, so the scan for the all-models section returns the
    30 of the Sonnet-only header. *)
Theorem extract_via_structure_reads_next_header :
  extract_via_structure pane_without_week_percent "Current week (all models)"
  = Some 30
  /\ Str.contains "current" (Str.lower "Current week (Sonnet only)   30% used")
     = true
  /\ Str.contains (Str.lower "Current week (all models)")
                  (Str.lower "Current week (Sonnet only)   30% used")
     = false.
Proof.
  repeat split; vm_compute; reflexivity.
Qed.

(** ** Majority verification *)

Lemma verify_fix_three (w : world) (t : trace) :
  fst (verify_fix w 3 2 t)
  = let '(r1, t1) := check_once w t in
    let '(r2, t2) := check_once w (sleep 1%Q t1) in
    let '(r3, _) := check_once w (sleep 1%Q t2) in
    (2 <=? count_true [succeeded r1; succeeded r2; succeeded r3])%nat.
Proof.
  unfold verify_fix. cbn [verify_loop Nat.sub].
  unfold pause. cbn [Nat.ltb Nat.leb Nat.sub].
  destruct (check_once w t) as [r1 t1].
  destruct (check_once w (sleep 1%Q t1)) as [r2 t2].
  destruct (check_once w (sleep 1%Q t2)) as [r3 t3].
  destruct (succeeded r1), (succeeded r2), (succeeded r3); reflexivity.
Qed.

(** C4. Verification runs 3 attempts, an odd number, each a capture,
    parse and validation; it accepts the fix exactly when a strict
    majority of them succeed.  With exactly 2 successes the fix is
    accepted and stays applied; with exactly 1 it is rejected and rolled
    back. *)
Theorem verify_fix_strict_majority (w : world) (t : trace) :
  let '(r1, t1) := check_once w t in
  let '(r2, t2) := check_once w (sleep 1%Q t1) in
  let '(r3, _) := check_once w (sleep 1%Q t2) in
  let successes := count_true [succeeded r1; succeeded r2; succeeded r3] in
  let accepts := fst (verify_fix w VERIFY_ATTEMPTS VERIFY_THRESHOLD t) in
  VERIFY_ATTEMPTS = 3%nat
  /\ Nat.odd VERIFY_ATTEMPTS = true
  /\ (accepts = true <-> (VERIFY_ATTEMPTS < 2 * successes)%nat)
  /\ (successes = 2%nat -> accepts = true)
  /\ (successes = 1%nat -> accepts = false)
  /\ (forall the_fix source,
        fst (apply_and_verify w the_fix source t)
        = if accepts then (true, apply the_fix source)
          else (false, rollback the_fix (apply the_fix source))).
Proof.
  pose proof (verify_fix_three w t) as E.
  change (verify_fix w 3 2 t)
    with (verify_fix w VERIFY_ATTEMPTS VERIFY_THRESHOLD t) in E.
  destruct (check_once w t) as [r1 t1].
  destruct (check_once w (sleep 1%Q t1)) as [r2 t2].
  destruct (check_once w (sleep 1%Q t2)) as [r3 t3].
  cbv zeta. rewrite E.
  split; [reflexivity|]. split; [reflexivity|].
  split; [|split; [|split]].
  - unfold VERIFY_ATTEMPTS.
    destruct (succeeded r1), (succeeded r2), (succeeded r3); cbn;
      split; intros H; try reflexivity; try discriminate; lia.
  - intros ->. reflexivity.
  - intros ->. reflexivity.
  - intros the_fix source. unfold apply_and_verify.
    destruct (verify_fix w VERIFY_ATTEMPTS VERIFY_THRESHOLD t) as [ok t'].
    cbn [fst] in E. subst ok.
    match goal with
    | |- context [if ?b then (true, _, _) else _] => destruct b
    end; reflexivity.
Qed.

(** ** Capture retry loop *)

Lemma validate_capture_markers (output : string) :
  validate_capture output = true ->
  Str.contains "Current session" (strip_ansi output) = true
  /\ Str.contains "Current week" (strip_ansi output) = true
  /\ Str.contains "% used" (strip_ansi output) = true.
Proof.
  unfold validate_capture. intros H.
  apply andb_true_iff in H. destruct H as [H H3].
  apply andb_true_iff in H. destruct H as [H1 H2]. auto.
Qed.

Lemma expect_runs_backoff (m a : nat) (t : trace) :
  expect_runs (backoff m a t) = expect_runs t.
Proof.
  unfold backoff. destruct (a <? m - 1)%nat; reflexivity.
Qed.

Lemma capture_loop_spec (w : world) (cmd : string) (m : nat) :
  forall (todo : nat) (t : trace),
    match fst (capture_loop w cmd m todo t) with
    | Ok output =>
        validate_capture output = true
        /\ exists i, (i < todo)%nat
             /\ expect_log w (expect_runs t + i) = Some output
             /\ forall j, (j < i)%nat ->
                          discarded (expect_log w (expect_runs t + j))
    | Raise e =>
        e = CaptureError ("Failed to capture output after "
                          ++ Str.of_Z (Z.of_nat m) ++ " attempts")
        /\ forall j, (j < todo)%nat ->
                     discarded (expect_log w (expect_runs t + j))
    end.
Proof.
  induction todo as [|todo IH]; intros t.
  - simpl. split; [reflexivity | intros j Hj; lia].
  - cbn [capture_loop]. unfold run_expect_capture.
    assert (Hnext :
      forall t1, expect_runs t1 = S (expect_runs t) ->
        discarded (expect_log w (expect_runs t)) ->
        match fst (capture_loop w cmd m todo (backoff m (m - S todo) t1)) with
        | Ok output =>
            validate_capture output = true
            /\ exists i, (i < S todo)%nat
                 /\ expect_log w (expect_runs t + i) = Some output
                 /\ forall j, (j < i)%nat ->
                              discarded (expect_log w (expect_runs t + j))
        | Raise e =>
            e = CaptureError ("Failed to capture output after "
                              ++ Str.of_Z (Z.of_nat m) ++ " attempts")
            /\ forall j, (j < S todo)%nat ->
                         discarded (expect_log w (expect_runs t + j))
        end).
    { intros t1 Ht1 Hd.
      specialize (IH (backoff m (m - S todo) t1)).
      rewrite expect_runs_backoff, Ht1 in IH.
      assert (Hshift : forall j (P : option string -> Prop),
                 (forall k, (k < j)%nat -> P (expect_log w (S (expect_runs t) + k))) ->
                 P (expect_log w (expect_runs t)) ->
                 forall k, (k < S j)%nat -> P (expect_log w (expect_runs t + k))).
      { intros j P Hall H0 [|k] Hk.
        - rewrite Nat.add_0_r. exact H0.
        - replace (expect_runs t + S k)%nat with (S (expect_runs t) + k)%nat by lia.
          apply Hall. lia. }
      destruct (fst (capture_loop w cmd m todo (backoff m (m - S todo) t1)))
        as [output | e].
      - destruct IH as (Hv & i & Hi & Hlog & Hprev).
        split; [exact Hv|]. exists (S i). split; [lia|]. split.
        + replace (expect_runs t + S i)%nat with (S (expect_runs t) + i)%nat by lia.
          exact Hlog.
        + apply Hshift; assumption.
      - destruct IH as (He & Hall). split; [exact He|].
        apply Hshift; assumption. }
    destruct (expect_log w (expect_runs t)) as [log|] eqn:Hlog.
    + destruct (validate_capture log) eqn:Hv.
      * cbn [fst]. split; [exact Hv|]. exists 0%nat.
        split; [lia|]. split; [rewrite Nat.add_0_r; exact Hlog|].
        intros j Hj. lia.
      * apply Hnext; [reflexivity | exact Hv].
    + apply Hnext; [reflexivity | exact I].
Qed.

(** C8. [capture_usage_output] returns only an output that passes the
    structural predicate: stripped of control sequences it contains
    "Current session", "Current week" and "% used".  What it returns is
    the log of one of the first 3 runs of the driver, every run before
    it having timed out or failed the predicate; when no run of the 3
    is accepted, or no command is found, it fails with [CaptureError]. *)
Theorem capture_returns_only_validated_output (w : world) (t : trace) :
  match fst (capture_usage_output w 3 t) with
  | Ok output =>
      (validate_capture output = true
       /\ Str.contains "Current session" (strip_ansi output) = true
       /\ Str.contains "Current week" (strip_ansi output) = true
       /\ Str.contains "% used" (strip_ansi output) = true)
      /\ exists i, (i < 3)%nat
           /\ expect_log w (expect_runs t + i) = Some output
           /\ forall j, (j < i)%nat ->
                        discarded (expect_log w (expect_runs t + j))
  | Raise e =>
      (exists msg, e = CaptureError msg)
      /\ (find_claude_command w = Raise e
          \/ (e = CaptureError "Failed to capture output after 3 attempts"
              /\ forall j, (j < 3)%nat ->
                           discarded (expect_log w (expect_runs t + j))))
  end.
Proof.
  unfold capture_usage_output.
  destruct (find_claude_command w) as [cmd | e] eqn:Hcmd.
  - pose proof (capture_loop_spec w cmd 3 3 t) as H.
    destruct (fst (capture_loop w cmd 3 3 t)) as [output | e].
    + destruct H as (Hv & Hrest). split; [|exact Hrest].
      split; [exact Hv | apply validate_capture_markers; exact Hv].
    + destruct H as (He & Hall). split; [eexists; exact He|].
      right. split; [exact He | exact Hall].
  - cbn [fst]. split; [|left; reflexivity].
    unfold find_claude_command in Hcmd.
    destruct (installed w "claude"); [discriminate|].
    destruct (installed w "cc"); [discriminate|].
    injection Hcmd as <-. eexists; reflexivity.
Qed.

(** ** Reset-time resolver *)

(** *** Calendar arithmetic *)

Lemma date_time_of (dt : DT.datetime) :
  dt = DT.combine (DT.date_of dt) (DT.time_of dt)
  /\ 0 <= DT.time_of dt < DT.us_per_day.
Proof.
  unfold DT.combine, DT.date_of, DT.time_of, DT.us_per_day. split.
  - rewrite Z.mul_comm. apply Z.div_mod. lia.
  - apply Z.mod_pos_bound. lia.
Qed.

Lemma date_of_combine (d t : Z) :
  0 <= t < DT.us_per_day -> DT.date_of (DT.combine d t) = d.
Proof.
  unfold DT.combine, DT.date_of, DT.us_per_day. intros H.
  rewrite Z.add_comm, Z.div_add by lia. rewrite Z.div_small by lia. lia.
Qed.

Lemma time_of_combine (d t : Z) :
  0 <= t < DT.us_per_day -> DT.time_of (DT.combine d t) = t.
Proof.
  unfold DT.combine, DT.time_of, DT.us_per_day. intros H.
  rewrite Z.add_comm, Z.mod_add by lia. apply Z.mod_small. lia.
Qed.

(** Anchoring an instant of today on today's date changes nothing. *)
Lemma anchored_today (now : DT.datetime) (t : Z) :
  0 <= t < DT.us_per_day ->
  anchored (DT.combine (DT.date_of now) t) now = DT.combine (DT.date_of now) t.
Proof.
  intros H. unfold anchored.
  destruct (DT.year _ =? 1900); [|reflexivity].
  rewrite time_of_combine by exact H. reflexivity.
Qed.

(** *** The projection *)

Lemma weekly_loop_found (c now : DT.datetime) (w : Z) (range : list Z)
      (r : DT.datetime) :
  weekly_loop c now w range = Some r ->
  exists k, In k range /\ r = c + DT.days k /\ in_week_window c now w k.
Proof.
  induction range as [|k range IH]; simpl; [discriminate|].
  destruct (Z.ltb_spec now (c + DT.days k)) as [Hlt | Hge]; simpl.
  - destruct (Z.leb_spec (c + DT.days k - now) (DT.hours w)) as [Hle | Hgt].
    + intros [= <-]. exists k. unfold in_week_window. auto.
    + intros H. destruct (IH H) as (k' & Hin & Hr & Hw). eauto.
  - intros H. destruct (IH H) as (k' & Hin & Hr & Hw). eauto.
Qed.

Lemma weekly_loop_none (c now : DT.datetime) (w : Z) (range : list Z) :
  weekly_loop c now w range = None ->
  forall k, In k range -> ~ in_week_window c now w k.
Proof.
  unfold in_week_window.
  induction range as [|k0 range IH]; simpl; [intros _ k []|].
  destruct (Z.ltb_spec now (c + DT.days k0)) as [Hlt | Hge]; simpl.
  - destruct (Z.leb_spec (c + DT.days k0 - now) (DT.hours w)) as [Hle | Hgt];
      [discriminate|].
    intros H k [<- | Hin]; [lia | apply IH; assumption].
  - intros H k [<- | Hin]; [lia | apply IH; assumption].
Qed.

Lemma in_one_to_seven (k : Z) : In k [1; 2; 3; 4; 5; 6; 7] <-> 1 <= k <= 7.
Proof.
  simpl. lia.
Qed.

(** What [adjust_to_future] does with a candidate, in terms of the
    anchored candidate [c]. *)
Lemma adjust_to_future_spec (dt now : DT.datetime) (w : Z) :
  let c := anchored dt now in
  match adjust_to_future dt now w with
  | Some r =>
      (now - DT.minutes 15 <= c /\ r = c)
      \/ (c < now - DT.minutes 15 /\ w <= 24
          /\ r = c + DT.days 1 /\ r - now <= DT.hours (w + 1))
      \/ (c < now - DT.minutes 15 /\ 24 < w
          /\ exists k, 1 <= k <= 7 /\ r = c + DT.days k
                       /\ in_week_window c now w k)
  | None =>
      c < now - DT.minutes 15
      /\ (w <= 24 -> DT.hours (w + 1) < c + DT.days 1 - now)
      /\ (24 < w -> forall k, 1 <= k <= 7 -> ~ in_week_window c now w k)
  end.
Proof.
  unfold adjust_to_future. fold (anchored dt now).
  set (c := anchored dt now). cbv zeta.
  destruct (Z.ltb_spec c (now - DT.minutes 15)) as [Hstale | Hfresh].
  - destruct (Z.leb_spec w 24) as [Hs | Hl].
    + destruct (Z.leb_spec (c + DT.days 1 - now) (DT.hours (w + 1))) as [Hin | Hout].
      * right. left. auto.
      * split; [exact Hstale|]. split; [intros _; exact Hout | intros; lia].
    + destruct (weekly_loop c now w [1; 2; 3; 4; 5; 6; 7]) as [r|] eqn:Hloop.
      * right. right. split; [exact Hstale|]. split; [exact Hl|].
        destruct (weekly_loop_found _ _ _ _ _ Hloop) as (k & Hk & Hr & Hw).
        exists k. rewrite <- in_one_to_seven. auto.
      * split; [exact Hstale|]. split; [intros; lia|].
        intros _ k Hk. apply (weekly_loop_none _ _ _ _ Hloop).
        apply in_one_to_seven. exact Hk.
  - left. auto.
Qed.

(** [parse_reset_time] is the projection of the candidate instant. *)
Lemma parse_reset_time_candidate (du : option dateutil_parser)
      (time_str : option string) (window_hours : Z) (now : DT.datetime) :
  parse_reset_time du time_str window_hours now
  = (c <- candidate du time_str now ;;
     Ok (match c with
         | Some dt => adjust_to_future dt now window_hours
         | None => None
         end)).
Proof.
  unfold parse_reset_time, candidate.
  destruct time_str as [[|a s]|]; try reflexivity.
  destruct du as [parse|].
  - destruct (parse (clean_time_string (String a s)) (DT.midnight now))
      as [dt | []]; try reflexivity;
      simpl; destruct (parse_with_formats _ now); reflexivity.
  - simpl. destruct (parse_with_formats _ now); reflexivity.
Qed.





(** *** The 6:59pm scenario *)

Lemma clean_six_fifty_nine : clean_time_string "6:59pm" = "6:59PM".
Proof. vm_compute. reflexivity. Qed.

Lemma clock_in_day : 0 <= DT.clock 18 59 < DT.us_per_day.
Proof. vm_compute. split; [discriminate | reflexivity]. Qed.

Lemma formats_read_six_fifty_nine (now : DT.datetime) :
  parse_with_formats "6:59PM" now
  = Some (DT.combine (DT.date_of now) (DT.clock 18 59)).
Proof.
  unfold parse_with_formats.
  replace (Str.contains "at" (Str.lower "6:59PM")) with false
    by (vm_compute; reflexivity).
  unfold TIME_FORMATS. cbn [first_parse].
  replace (Strptime.strptime "6:59PM" "%I:%M%p")
    with (Some (DT.combine 693595 (DT.clock 18 59)))
    by (vm_compute; reflexivity).
  rewrite time_of_combine by exact clock_in_day. reflexivity.
Qed.

Lemma candidate_six_fifty_nine (du : option dateutil_parser)
      (now : DT.datetime) :
  reads_clock_time du "6:59PM" 18 59 ->
  candidate du (Some "6:59pm") now
  = Ok (Some (DT.combine (DT.date_of now) (DT.clock 18 59))).
Proof.
  intros Hdu. unfold candidate. cbv beta iota. rewrite clean_six_fifty_nine.
  destruct du as [parse|].
  - rewrite (Hdu parse now eq_refl). reflexivity.
  - rewrite formats_read_six_fifty_nine. reflexivity.
Qed.

(** C2. At 8pm the phrase "6:59pm" resolves to absent for the 5-hour
    window: rolled forward one day it is 22h59 away, beyond the window.
    For a 24-hour window the same phrase resolves to 18:59 of the
    following day.  (The date parser, when one was imported, is taken to
    read "6:59PM" as 18:59 on the default date.) *)
Theorem stale_session_phrase_absent_day_phrase_tomorrow
        (du : option dateutil_parser) (now : DT.datetime) :
  DT.time_of now = DT.clock 20 0 ->
  reads_clock_time du "6:59PM" 18 59 ->
  parse_reset_time du (Some "6:59pm") 5 now = Ok None
  /\ parse_reset_time du (Some "6:59pm") 24 now
     = Ok (Some (DT.combine (DT.date_of now + 1) (DT.clock 18 59))).
Proof.
  intros Hnow Hdu.
  rewrite !parse_reset_time_candidate, candidate_six_fifty_nine by exact Hdu.
  cbn [bind].
  destruct (date_time_of now) as [Hsplit _]. rewrite Hnow in Hsplit.
  set (c := DT.combine (DT.date_of now) (DT.clock 18 59)).
  assert (Hc : anchored c now = c) by (apply anchored_today, clock_in_day).
  assert (Hstale : c < now - DT.minutes 15).
  { subst c. revert Hsplit.
    unfold DT.combine, DT.clock, DT.minutes,
      DT.us_per_day, DT.us_per_minute, DT.us_per_hour. lia. }
  split.
  - pose proof (adjust_to_future_spec c now 5) as H. cbv zeta in H.
    rewrite Hc in H.
    destruct (adjust_to_future c now 5) as [r|]; [|reflexivity].
    exfalso. subst c. revert H Hstale Hsplit.
    unfold DT.combine, DT.clock, DT.minutes, DT.hours, DT.days,
      DT.us_per_day, DT.us_per_minute, DT.us_per_hour. lia.
  - pose proof (adjust_to_future_spec c now 24) as H. cbv zeta in H.
    rewrite Hc in H.
    destruct (adjust_to_future c now 24) as [r|].
    + do 2 f_equal. subst c. revert H Hstale Hsplit.
      unfold DT.combine, DT.clock, DT.minutes, DT.hours, DT.days,
        DT.us_per_day, DT.us_per_minute, DT.us_per_hour. lia.
    + exfalso. subst c. revert H Hstale Hsplit.
      unfold DT.combine, DT.clock, DT.minutes, DT.hours, DT.days,
        DT.us_per_day, DT.us_per_minute, DT.us_per_hour. lia.
Qed.

Lemma stale_session_phrase_absent_day_phrase_tomorrow_witness :
  parse_reset_time None (Some "6:59pm") 5 (DT.make 2026 1 28 20 0) = Ok None
  /\ parse_reset_time None (Some "6:59pm") 24 (DT.make 2026 1 28 20 0)
     = Ok (Some (DT.combine (DT.date_of (DT.make 2026 1 28 20 0) + 1)
                            (DT.clock 18 59))).
Proof.
  apply (stale_session_phrase_absent_day_phrase_tomorrow
           None (DT.make 2026 1 28 20 0)).
  - vm_compute. reflexivity.
  - intros parse now H. discriminate H.
Defined.

(** ** parse_usage *)



(** ** Further properties *)

Lemma session_pane_extracts :
  strip_ansi (Str.replace Str.cr Str.nl
                (Str.replace (Str.cr ++ Str.nl) Str.nl session_pane))
  = session_pane
  /\ Str.contains "Current week" session_pane = false
  /\ extract_percentage session_pane "Current session" = Some 42
  /\ extract_reset_string session_pane "Current session" = Some "6:59pm"
  /\ extract_percentage session_pane "Current week (all models)" = None
  /\ extract_reset_string session_pane "Current week (all models)" = None.
Proof.
  repeat split; vm_compute; reflexivity.
Qed.

(** X1. The first scenario of the specification: at 2pm the pane
    "Current session / 42% used / Resets 6:59pm" parses to a session
    percentage of 42 and a session reset at 18:59 of the same day. *)
Theorem session_pane_at_two_pm (du : option dateutil_parser)
        (now : DT.datetime) :
  DT.time_of now = DT.clock 14 0 ->
  reads_clock_time du "6:59PM" 18 59 ->
  exists r,
    parse_usage du session_pane now = Ok r
    /\ session_percent r = Some 42
    /\ session_reset_str r = Some "6:59pm"
    /\ session_reset_dt r
       = Some (DT.combine (DT.date_of now) (DT.clock 18 59)).
Proof.
  intros Hnow Hdu.
  destruct session_pane_extracts as (E1 & E2 & E3 & E4 & E5 & E6).
  unfold parse_usage. cbv zeta. rewrite E1, E2, E3, E4, E5, E6.
  rewrite parse_reset_time_candidate, candidate_six_fifty_nine by exact Hdu.
  cbn [bind].
  set (c := DT.combine (DT.date_of now) (DT.clock 18 59)).
  assert (Hc : anchored c now = c) by (apply anchored_today, clock_in_day).
  destruct (date_time_of now) as [Hsplit _]. rewrite Hnow in Hsplit.
  pose proof (adjust_to_future_spec c now 5) as H. cbv zeta in H.
  rewrite Hc in H.
  assert (Hr : adjust_to_future c now 5 = Some c).
  { destruct (adjust_to_future c now 5) as [r|].
    - f_equal. subst c. revert H Hsplit.
      unfold DT.combine, DT.clock, DT.minutes, DT.hours, DT.days,
        DT.us_per_day, DT.us_per_minute, DT.us_per_hour. lia.
    - exfalso. subst c. revert H Hsplit.
      unfold DT.combine, DT.clock, DT.minutes, DT.hours, DT.days,
        DT.us_per_day, DT.us_per_minute, DT.us_per_hour. lia. }
  rewrite Hr. cbn. eexists. split; [reflexivity|].
  repeat split; reflexivity.
Qed.

Lemma session_pane_at_two_pm_witness :
  exists r,
    parse_usage None session_pane (DT.make 2026 1 28 14 0) = Ok r
    /\ session_percent r = Some 42
    /\ session_reset_str r = Some "6:59pm"
    /\ session_reset_dt r
       = Some (DT.combine (DT.date_of (DT.make 2026 1 28 14 0))
                          (DT.clock 18 59)).
Proof.
  apply (session_pane_at_two_pm None (DT.make 2026 1 28 14 0)).
  - vm_compute. reflexivity.
  - intros parse now H. discriminate H.
Defined.

(** X2. For a window longer than 24 hours the resolver never returns an
    instant earlier than [now] - 15min: a candidate it keeps is not
    older than that, and a rolled one lies after [now]. *)
Theorem week_window_result_not_in_past (du : option dateutil_parser)
        (phrase : option string) (window_hours : Z) (now r : DT.datetime) :
  24 < window_hours ->
  parse_reset_time du phrase window_hours now = Ok (Some r) ->
  now - DT.minutes 15 <= r.
Proof.
  intros Hw. rewrite parse_reset_time_candidate.
  destruct (candidate du phrase now) as [[dt|] | e]; cbn [bind];
    try discriminate.
  intros [= Hr].
  pose proof (adjust_to_future_spec dt now window_hours) as H. cbv zeta in H.
  rewrite Hr in H. unfold in_week_window in H.
  destruct H as [(H & ->) | [(_ & H & _) | (_ & _ & k & _ & -> & H & _)]].
  - exact H.
  - lia.
  - unfold DT.minutes, DT.us_per_minute. lia.
Qed.

Lemma week_window_result_not_in_past_witness :
  DT.make 2026 1 28 14 0 - DT.minutes 15 <= DT.make 2026 1 29 18 59.
Proof.
  apply (week_window_result_not_in_past
           None (Some "Jan 29 at 6:59pm") 168
           (DT.make 2026 1 28 14 0) (DT.make 2026 1 29 18 59)).
  - reflexivity.
  - vm_compute. reflexivity.
Defined.

(** X3. A result the validator accepts has both percentages in [0,100] and
    every resolved reset instant between [now] - 5min and [now] plus the
    window plus one hour. *)
Theorem accepted_result_within_windows (r : ParseResult) (now : DT.datetime) :
  validate_result r now = (true, None) ->
  (exists s, session_percent r = Some s /\ 0 <= s <= 100)
  /\ (exists k, week_percent r = Some k /\ 0 <= k <= 100)
  /\ (forall dt, session_reset_dt r = Some dt ->
                 now - DT.minutes 5 <= dt <= now + DT.hours 6)
  /\ (forall dt, week_reset_dt r = Some dt ->
                 now - DT.minutes 5 <= dt <= now + DT.hours 169).
Proof.
  intros Hv.
  destruct (validate_result_cases r now) as [(_ & why & Hw) | (Hr & _)].
  { rewrite Hv in Hw. discriminate. }
  unfold rejectable in Hr.
  destruct (bad_percent_dec (session_percent r)) as [H | Hs]; [tauto|].
  destruct (bad_percent_dec (week_percent r)) as [H | Hk]; [tauto|].
  split; [exact Hs|]. split; [exact Hk|]. split.
  - intros dt Hdt.
    destruct (bad_instant_dec 5 (session_reset_dt r) now)
      as [H | [H | (i & Hi & Hlo & Hhi)]]; [tauto | congruence |].
    rewrite Hdt in Hi. injection Hi as <-.
    change (DT.hours (5 + 1)) with (DT.hours 6) in Hhi. lia.
  - intros dt Hdt.
    destruct (bad_instant_dec 168 (week_reset_dt r) now)
      as [H | [H | (i & Hi & Hlo & Hhi)]]; [tauto | congruence |].
    rewrite Hdt in Hi. injection Hi as <-.
    change (DT.hours (168 + 1)) with (DT.hours 169) in Hhi. lia.
Qed.

Lemma accepted_result_within_windows_witness :
  (exists s, session_percent accepted_result = Some s /\ 0 <= s <= 100)
  /\ (exists k, week_percent accepted_result = Some k /\ 0 <= k <= 100)
  /\ (forall dt, session_reset_dt accepted_result = Some dt ->
                 DT.make 2026 1 28 14 0 - DT.minutes 5 <= dt
                 <= DT.make 2026 1 28 14 0 + DT.hours 6)
  /\ (forall dt, week_reset_dt accepted_result = Some dt ->
                 DT.make 2026 1 28 14 0 - DT.minutes 5 <= dt
                 <= DT.make 2026 1 28 14 0 + DT.hours 169).
Proof.
  apply (accepted_result_within_windows accepted_result (DT.make 2026 1 28 14 0)).
  vm_compute. reflexivity.
Defined.

(** ** Capture errors and the classifier *)

(** X4. Whatever [capture_usage_output] raises after its 3 attempts is
    classified as capture-incomplete with confidence 0.85, whatever the
    text: neither of its messages contains "timeout".  The driver's own
    "Capture timed out after 20s" is classified the same way, so the
    capture-timeout category is never reached from a capture. *)
Theorem capture_failure_never_classified_timeout (w : world) (t : trace)
        (e : exn) (output : string) :
  fst (capture_usage_output w 3 t) = Raise e ->
  classify_failure e output = (CAPTURE_INCOMPLETE, 0.85%Q)
  /\ classify_failure (CaptureError "Capture timed out after 20s") output
     = (CAPTURE_INCOMPLETE, 0.85%Q).
Proof.
  intros H. split; [|reflexivity].
  unfold capture_usage_output in H.
  destruct (find_claude_command w) as [cmd | e0] eqn:Hcmd.
  - pose proof (capture_loop_spec w cmd 3 3 t) as Hspec.
    rewrite H in Hspec. destruct Hspec as [-> _]. reflexivity.
  - cbn [fst] in H. injection H as <-.
    unfold find_claude_command in Hcmd.
    destruct (installed w "claude"); [discriminate|].
    destruct (installed w "cc"); [discriminate|].
    injection Hcmd as <-. reflexivity.
Qed.

Lemma capture_failure_never_classified_timeout_witness :
  classify_failure
    (CaptureError "Claude CLI not found. Install 'claude' or 'cc'.") ""
  = (CAPTURE_INCOMPLETE, 0.85%Q)
  /\ classify_failure (CaptureError "Capture timed out after 20s") ""
     = (CAPTURE_INCOMPLETE, 0.85%Q).
Proof.
  apply (capture_failure_never_classified_timeout bare_world fresh_trace).
  reflexivity.
Defined.

(** X5. The classifier keeps the layers apart and its confidence in
    range: a [CaptureError] is always given one of the two capture
    categories, any other exception never is, and the confidence lies
    between 0.50 and 0.95, the lowest being that of the unknown
    category alone. *)
Theorem classify_failure_layers_and_confidence (error : exn) (output : string) :
  let '(category, confidence) := classify_failure error output in
  (is_capture_error error = true <->
   category = CAPTURE_TIMEOUT \/ category = CAPTURE_INCOMPLETE)
  /\ (0.50 <= confidence)%Q /\ (confidence <= 0.95)%Q
  /\ (category = UNKNOWN <-> confidence = 0.50%Q).
Proof.
  unfold classify_failure.
  destruct (is_capture_error error);
    repeat match goal with
           | |- context [if ?b then _ else _] => destruct b
           end;
    (split; [split; [intros H; try discriminate H; auto
                    | intros [H | H]; try discriminate H; reflexivity]|]);
    (split; [vm_compute; discriminate|]);
    (split; [vm_compute; discriminate|]);
    split; intros H; try discriminate H; reflexivity.
Qed.

(** ** Resolver and validator together *)

(** X6. A week reset that the resolver obtains by rolling a stale
    candidate forward passes the validator's time checks at the same
    [now]: it is not in the past and not further than 169 hours away.
    For the session window a rolled instant is never rejected as
    exceeding the window. *)
Theorem rolled_instant_passes_window_check (du : option dateutil_parser)
        (phrase : option string) (now dt r : DT.datetime) :
  candidate du phrase now = Ok (Some dt) ->
  anchored dt now < now - DT.minutes 15 ->
  (parse_reset_time du phrase 168 now = Ok (Some r) ->
   ~ bad_instant 168 (Some r) now)
  /\ (parse_reset_time du phrase 5 now = Ok (Some r) ->
      r - now <= DT.hours 6).
Proof.
  intros Hc Hstale. rewrite !parse_reset_time_candidate, Hc. cbn [bind].
  split; intros [= Hr].
  - pose proof (adjust_to_future_spec dt now 168) as H. cbv zeta in H.
    rewrite Hr in H. unfold in_week_window in H.
    intros (i & [= <-] & Hbad).
    destruct H as [(H & _) | [(_ & H & _) | (_ & _ & k & _ & -> & H1 & H2)]];
      try lia.
    revert Hbad H1 H2.
    unfold DT.minutes, DT.hours, DT.us_per_minute, DT.us_per_hour. lia.
  - pose proof (adjust_to_future_spec dt now 5) as H. cbv zeta in H.
    rewrite Hr in H.
    destruct H as [(H & _) | [(_ & _ & _ & H) | (_ & H & _)]]; try lia.
    exact H.
Qed.

Lemma rolled_instant_passes_window_check_witness :
  (parse_reset_time None (Some "Jan 27 at 6:59pm") 168 (DT.make 2026 1 28 14 0)
   = Ok (Some (DT.make 2026 1 28 18 59)) ->
   ~ bad_instant 168 (Some (DT.make 2026 1 28 18 59)) (DT.make 2026 1 28 14 0))
  /\ (parse_reset_time None (Some "Jan 27 at 6:59pm") 5 (DT.make 2026 1 28 14 0)
      = Ok (Some (DT.make 2026 1 28 18 59)) ->
      DT.make 2026 1 28 18 59 - DT.make 2026 1 28 14 0 <= DT.hours 6).
Proof.
  apply (rolled_instant_passes_window_check
           None (Some "Jan 27 at 6:59pm") (DT.make 2026 1 28 14 0)
           (DT.make 2026 1 27 18 59) (DT.make 2026 1 28 18 59)).
  - vm_compute. reflexivity.
  - vm_compute. reflexivity.
Defined.

(** ** The audit log *)

(** X7. [record_history] caps the log at 100 entries: whatever the
    history file held, it afterwards holds the previous entries followed
    by the new one, less the oldest ones beyond 100.  A missing or
    undecodable file counts as empty. *)
Theorem record_history_keeps_newest_hundred
        (now : DT.datetime) (ok : bool) (failure : FailureType)
        (fix_name : option string) (msg : string)
        (file : History.history_file) :
  let old := match file with
             | History.Stored entries => entries
             | _ => []
             end in
  let entry := History.mkEntry now ok (History.value failure) fix_name msg in
  exists dropped kept,
    History.record_history now ok failure fix_name msg file
    = History.Stored (kept ++ [entry])%list
    /\ old = (dropped ++ kept)%list
    /\ List.length (kept ++ [entry])%list
       = Nat.min 100 (S (List.length old))
    /\ (List.length old < 100 -> dropped = [])%nat.
Proof.
  intros old entry. unfold History.record_history.
  fold old. fold entry. cbv zeta. unfold History.last_n.
  set (n := (List.length (old ++ [entry])%list - 100)%nat).
  assert (Hn : (n <= List.length old)%nat).
  { subst n. rewrite length_app. cbn [List.length]. lia. }
  exists (firstn n old), (skipn n old).
  split; [|split; [|split]].
  - rewrite skipn_app.
    replace (n - List.length old)%nat with 0%nat by lia. reflexivity.
  - symmetry. apply firstn_skipn.
  - rewrite length_app, length_skipn. subst n. rewrite length_app.
    cbn [List.length]. lia.
  - intros Hlt. subst n. rewrite length_app. cbn [List.length].
    replace (List.length old + 1 - 100)%nat with 0%nat by lia. reflexivity.
Qed.

(** ** The fix catalog *)

Lemma first_pattern_in (ps : list (Re.regex * string * string))
      (time_str fmt list_name : string) :
  first_pattern ps time_str = Some (fmt, list_name) ->
  exists r, In (r, fmt, list_name) ps.
Proof.
  induction ps as [|[[r f] n] ps IH]; simpl; [discriminate|].
  destruct (Re.match_at r time_str).
  - intros [= <- <-]. eauto.
  - intros H. destruct (IH H) as (r' & Hin). eauto.
Qed.

(** X8. The format [infer_date_format] learns from a phrase is, with
    one exception, a format the parser already has in the list it is
    added to; only the day-first format "%d %b at %I:%M%p" is new. *)
Theorem infer_date_format_known_formats (time_str fmt list_name : string) :
  infer_date_format time_str = Some (fmt, list_name) ->
  (list_name = "TIME_FORMATS" /\ In fmt TIME_FORMATS)
  \/ (list_name = "DATE_FORMATS_WITH_YEAR" /\ In fmt DATE_FORMATS_WITH_YEAR)
  \/ (list_name = "DATE_FORMATS_NO_YEAR"
      /\ (In fmt DATE_FORMATS_NO_YEAR \/ fmt = "%d %b at %I:%M%p")).
Proof.
  unfold infer_date_format. intros H.
  destruct (first_pattern_in _ _ _ _ H) as (r & Hin).
  unfold patterns in Hin. simpl in Hin.
  repeat (destruct Hin as [Hin | Hin];
          [injection Hin as _ <- <-; simpl; tauto|]).
  contradiction.
Qed.

Lemma infer_date_format_known_formats_witness :
  ("DATE_FORMATS_NO_YEAR" = "TIME_FORMATS" /\ In "%d %b at %I:%M%p" TIME_FORMATS)
  \/ ("DATE_FORMATS_NO_YEAR" = "DATE_FORMATS_WITH_YEAR"
      /\ In "%d %b at %I:%M%p" DATE_FORMATS_WITH_YEAR)
  \/ ("DATE_FORMATS_NO_YEAR" = "DATE_FORMATS_NO_YEAR"
      /\ (In "%d %b at %I:%M%p" DATE_FORMATS_NO_YEAR
          \/ "%d %b at %I:%M%p" = "%d %b at %I:%M%p")).
Proof.
  apply (infer_date_format_known_formats "29 Jan at 6:59pm").
  vm_compute. reflexivity.
Defined.

(** X9. The two tables of the catalog agree: every strategy listed for
    a failure type is known to [create_fix], the fix it creates carries
    the strategy's name, and only "add_date_format" may produce no
    fix. *)
Theorem listed_strategy_creates_named_fix (failure_type : FailureType)
        (strategy_name output : string) (error : exn)
        (parser_source : string) :
  In strategy_name (get_strategies failure_type) ->
  match create_fix strategy_name output error parser_source with
  | Some the_fix => name the_fix = strategy_name
  | None => strategy_name = "add_date_format"
  end.
Proof.
  destruct failure_type; simpl; intros H;
    repeat (destruct H as [<- | H]; [|]); try contradiction;
    cbv beta iota delta [create_fix String.eqb Ascii.eqb Bool.eqb];
    try reflexivity.
  unfold _fix_add_date_format.
  destruct (Re.findall re_resets (strip_ansi output)); [reflexivity|].
  destruct (infer_date_format (Str.strip s)) as [[f n]|]; reflexivity.
Qed.

Lemma listed_strategy_creates_named_fix_witness :
  match create_fix "extend_wait_time" "" (CaptureError "x") "" with
  | Some the_fix => name the_fix = "extend_wait_time"
  | None => "extend_wait_time" = "add_date_format"
  end.
Proof.
  apply (listed_strategy_creates_named_fix CAPTURE_INCOMPLETE).
  simpl. auto.
Defined.

(** ** Lock file *)

Lemma Qlt_bool_iff (a b : Q) : Cli.Qlt_bool a b = true <-> (a < b)%Q.
Proof.
  unfold Cli.Qlt_bool. rewrite negb_true_iff.
  split.
  - intros H. apply Qnot_le_lt. intros Hle.
    apply Qle_bool_iff in Hle. congruence.
  - intros H. destruct (Qle_bool b a) eqn:E; [|reflexivity].
    apply Qle_bool_iff in E. exfalso. exact (Qlt_not_le _ _ H E).
Qed.

(** X10. A lock taken at [now1] is respected by every [acquire_lock]
    up to 300 seconds later, which leaves the file as it is.  After 300
    seconds another instance takes it over although the first never
    released it; the first instance's [release_lock] then removes the
    second's lock, and a third instance acquires at once. *)
Theorem lock_respected_then_taken_over (now1 now2 now3 : Q)
        (lock : Cli.lock_file) :
  fst (Cli.acquire_lock now1 lock) = true ->
  let held := snd (Cli.acquire_lock now1 lock) in
  held = Some now1
  /\ ((now2 - 300 <= now1)%Q ->
      Cli.acquire_lock now2 held = (false, held))
  /\ ((now1 < now2 - 300)%Q ->
      Cli.acquire_lock now2 held = (true, Some now2)
      /\ Cli.acquire_lock now3 (Cli.release_lock (Some now2))
         = (true, Some now3)).
Proof.
  intros Hacq held.
  assert (Hheld : held = Some now1).
  { subst held. unfold Cli.acquire_lock in *.
    destruct lock as [m|]; [|reflexivity].
    destruct (Cli.Qlt_bool m (now1 - 300)); [reflexivity | discriminate]. }
  split; [exact Hheld|]. rewrite Hheld. split.
  - intros Hfresh. unfold Cli.acquire_lock.
    destruct (Cli.Qlt_bool now1 (now2 - 300)) eqn:E; [|reflexivity].
    apply Qlt_bool_iff in E. exfalso. exact (Qlt_not_le _ _ E Hfresh).
  - intros Hstale. split; [|reflexivity]. unfold Cli.acquire_lock.
    apply Qlt_bool_iff in Hstale. rewrite Hstale. reflexivity.
Qed.

Lemma lock_respected_then_taken_over_witness :
  snd (Cli.acquire_lock 1000 None) = Some 1000%Q
  /\ ((1200 - 300 <= 1000)%Q ->
      Cli.acquire_lock 1200 (snd (Cli.acquire_lock 1000 None))
      = (false, snd (Cli.acquire_lock 1000 None)))
  /\ ((1000 < 1200 - 300)%Q ->
      Cli.acquire_lock 1200 (snd (Cli.acquire_lock 1000 None))
      = (true, Some 1200%Q)
      /\ Cli.acquire_lock 1201 (Cli.release_lock (Some 1200%Q))
         = (true, Some 1201%Q)).
Proof.
  apply (lock_respected_then_taken_over 1000 1200 1201 None).
  reflexivity.
Defined.

(** ** Single run and entry point *)

Lemma capture_raises_capture_error (w : world) (t : trace) (e : exn) :
  fst (capture_usage_output w 3 t) = Raise e ->
  exists msg, e = CaptureError msg.
Proof.
  unfold capture_usage_output.
  destruct (find_claude_command w) as [cmd | e0] eqn:Hcmd.
  - pose proof (capture_loop_spec w cmd 3 3 t) as Hspec.
    intros H. rewrite H in Hspec. destruct Hspec as [-> _]. eauto.
  - cbn [fst]. intros [= <-]. unfold find_claude_command in Hcmd.
    destruct (installed w "claude"); [discriminate|].
    destruct (installed w "cc"); [discriminate|].
    injection Hcmd as <-. eauto.
Qed.







(** ** Display layer *)

Lemma fill_table : forallb fill_is_exact clamped_percentages = true.
Proof. vm_compute. reflexivity. Qed.

Lemma fill_exact (p : Z) :
  0 <= p <= 100 ->
  Display.int_of_float
    (PrimFloat.mul
       (PrimFloat.div (Display.float_of_int p) (Display.float_of_int 100))
       (Display.float_of_int Display.WIDTH))
  = Some (p * 40 / 100).
Proof.
  intros Hp.
  assert (Hin : In p clamped_percentages).
  { unfold clamped_percentages. rewrite <- (Z2Nat.id p) by lia.
    apply in_map, in_seq. lia. }
  pose proof (proj1 (forallb_forall _ _) fill_table p Hin) as H.
  unfold fill_is_exact in H.
  destruct (Display.int_of_float _) as [fill|]; [|discriminate].
  apply Z.eqb_eq in H. congruence.
Qed.

(** X13. [create_bar] never fails and always draws 40 blocks: for
    every percentage, full blocks first, their number the exact
    [40 * p / 100] rounded down for [p] the percentage clamped to
    [0,100], then empty blocks; the floating-point computation of the
    fill never falls one short. *)
Theorem create_bar_forty_blocks (percent : Z) :
  let p := Z.max 0 (Z.min 100 percent) in
  let fill := Z.to_nat (p * 40 / 100) in
  Display.create_bar percent
  = Some (repeat Display.BLOCK_FULL fill
          ++ repeat Display.BLOCK_EMPTY (40 - fill))%list
  /\ (fill <= 40)%nat
  /\ (percent <= 0 -> fill = 0%nat)
  /\ (100 <= percent -> fill = 40%nat).
Proof.
  intros p fill. unfold Display.create_bar. fold p.
  assert (Hp : 0 <= p <= 100) by (subst p; lia).
  rewrite (fill_exact p Hp). fold fill.
  assert (Hq : 0 <= p * 40 / 100 <= 40).
  { split; [apply Z.div_pos; lia|].
    apply Z.div_le_upper_bound; lia. }
  split; [|split; [|split]].
  - unfold Display.times, Display.WIDTH. do 3 f_equal.
    subst fill. rewrite Z2Nat.inj_sub by lia. reflexivity.
  - subst fill. lia.
  - intros H. subst fill.
    replace p with 0 by (subst p; lia). reflexivity.
  - intros H. subst fill.
    replace p with 100 by (subst p; lia). reflexivity.
Qed.

(** X14. The time shown after "Resets in": with less than a day to go
    it is the hours and minutes of the remaining time, rounded down to
    the minute; from one day on it is the days and hours; and for a
    reset up to 5 minutes in the past, which the validator still
    accepts, it is "23h" with 55 to 59 minutes. *)
Theorem remain_str_cases (remain : DT.timedelta) :
  (0 <= remain < DT.us_per_day ->
   exists H M,
     Display.remain_str remain = Str.of_Z H ++ "h " ++ Str.of_Z M ++ "m"
     /\ 0 <= H < 24 /\ 0 <= M < 60
     /\ DT.hours H + DT.minutes M <= remain
        < DT.hours H + DT.minutes M + DT.minutes 1)
  /\ (DT.us_per_day <= remain ->
      exists D H,
        Display.remain_str remain = Str.of_Z D ++ "d " ++ Str.of_Z H ++ "h"
        /\ 1 <= D /\ 0 <= H < 24
        /\ DT.days D + DT.hours H <= remain < DT.days D + DT.hours H + DT.hours 1)
  /\ (- DT.minutes 5 <= remain < 0 ->
      exists M,
        Display.remain_str remain = "23h " ++ Str.of_Z M ++ "m"
        /\ 55 <= M <= 59).
Proof.
  unfold Display.remain_str, Display.remain_days, Display.remain_seconds,
    DT.hours, DT.minutes, DT.days,
    DT.us_per_day, DT.us_per_hour, DT.us_per_minute, DT.us_per_second.
  split; [|split]; intros Hr.
  - exists (remain mod 86400000000 / 1000000 / 3600),
           ((remain mod 86400000000 / 1000000 / 60) mod 60).
    replace (0 <? remain / 86400000000) with false
      by (symmetry; apply Z.ltb_ge; rewrite Z.div_small; lia).
    split; [reflexivity|].
    rewrite (Z.mod_small remain 86400000000) by lia.
    split; [|split]; Z.div_mod_to_equations; lia.
  - exists (remain / 86400000000),
           (remain mod 86400000000 / 1000000 / 3600).
    replace (0 <? remain / 86400000000) with true
      by (symmetry; apply Z.ltb_lt; Z.div_mod_to_equations; lia).
    split; [reflexivity|].
    split; [|split]; Z.div_mod_to_equations; lia.
  - exists ((remain mod 86400000000 / 1000000 / 60) mod 60).
    replace (0 <? remain / 86400000000) with false
      by (symmetry; apply Z.ltb_ge; Z.div_mod_to_equations; lia).
    replace (remain mod 86400000000 / 1000000 / 3600) with 23
      by (Z.div_mod_to_equations; lia).
    split; [reflexivity|].
    Z.div_mod_to_equations; lia.
Qed.

(** ** Strings: occurrences and pieces *)

Lemma append_nil_r (s : string) : s ++ "" = s.
Proof. induction s; simpl; congruence. Qed.

Lemma append_assoc (a b c : string) : (a ++ b) ++ c = a ++ (b ++ c).
Proof. induction a; simpl; congruence. Qed.

Lemma lower_app (a b : string) :
  Str.lower (a ++ b) = Str.lower a ++ Str.lower b.
Proof. unfold Str.lower. induction a; simpl; congruence. Qed.

Lemma rev_onto_app (s acc : string) :
  Str.rev_onto s acc = Str.rev_onto s "" ++ acc.
Proof.
  revert acc. induction s as [|c s IH]; intros acc; simpl; [reflexivity|].
  rewrite IH, (IH (String c "")), append_assoc. reflexivity.
Qed.

Lemma rev_cons (c : ascii) (s : string) :
  Str.rev (String c s) = Str.rev s ++ String c "".
Proof. unfold Str.rev. simpl. apply rev_onto_app. Qed.

Lemma strip_prefix_app (x q : string) : Str.strip_prefix x (x ++ q) = Some q.
Proof.
  induction x as [|a x IH]; simpl; [reflexivity|].
  rewrite Ascii.eqb_refl. exact IH.
Qed.

Lemma strip_prefix_some (x s r : string) :
  Str.strip_prefix x s = Some r -> s = x ++ r.
Proof.
  revert s. induction x as [|a x IH]; intros s; simpl.
  - intros [= <-]. reflexivity.
  - destruct s as [|b s]; [discriminate|].
    destruct (Ascii.eqb a b) eqn:E; [|discriminate].
    apply Ascii.eqb_eq in E. subst b. intros H. f_equal. auto.
Qed.

Lemma contains_unfold (x s : string) :
  Str.contains x s
  = match Str.strip_prefix x s with
    | Some _ => true
    | None =>
        match s with
        | EmptyString => false
        | String _ s' => Str.contains x s'
        end
    end.
Proof. destruct s; reflexivity. Qed.

Lemma contains_occurs (x s : string) :
  Str.contains x s = true <-> occurs_in x s.
Proof.
  unfold occurs_in. split.
  - induction s as [|c s IH]; simpl.
    + destruct (Str.strip_prefix x "") as [r|] eqn:E; [|discriminate].
      intros _. exists "", r. simpl. apply strip_prefix_some. exact E.
    + destruct (Str.strip_prefix x (String c s)) as [r|] eqn:E.
      * intros _. exists "", r. simpl. apply strip_prefix_some. exact E.
      * intros H. destruct (IH H) as (p & q & ->).
        exists (String c p), q. reflexivity.
  - intros (p & q & ->). induction p as [|c p IH].
    + cbn [append]. rewrite contains_unfold, strip_prefix_app. reflexivity.
    + rewrite contains_unfold. cbn [append].
      destruct (Str.strip_prefix x (String c (p ++ x ++ q))); [reflexivity|].
      exact IH.
Qed.

Lemma occurs_in_trans (a b c : string) :
  occurs_in a b -> occurs_in b c -> occurs_in a c.
Proof.
  intros (p & q & ->) (p' & q' & ->).
  exists (p' ++ p), (q ++ q'). rewrite !append_assoc. reflexivity.
Qed.

Lemma occurs_in_cons (piece s : string) (c : ascii) :
  occurs_in piece s -> occurs_in piece (String c s).
Proof. intros (p & q & ->). exists (String c p), q. reflexivity. Qed.

Lemma occurs_in_prefix (x q : string) : occurs_in x (x ++ q).
Proof. exists "", q. reflexivity. Qed.

Lemma occurs_in_lower (piece s : string) :
  occurs_in piece s -> occurs_in (Str.lower piece) (Str.lower s).
Proof.
  intros (p & q & ->). exists (Str.lower p), (Str.lower q).
  rewrite !lower_app. reflexivity.
Qed.

(** A text that does not contain [x] has no piece that does. *)
Lemma absent_in_piece (x piece s : string) :
  Str.contains (Str.lower x) (Str.lower s) = false ->
  occurs_in piece s ->
  Str.contains (Str.lower x) (Str.lower piece) = false.
Proof.
  intros Habs Hocc.
  destruct (Str.contains (Str.lower x) (Str.lower piece)) eqn:E; [|reflexivity].
  apply contains_occurs in E.
  assert (H : occurs_in (Str.lower x) (Str.lower s))
    by (eapply occurs_in_trans; [exact E | apply occurs_in_lower; exact Hocc]).
  apply contains_occurs in H. congruence.
Qed.

(** The pieces [str.split] returns occur in the text. *)
Lemma split_from_pieces (sep : string) :
  forall s,
    (forall cur piece,
        In piece (Str.split_from sep s 0 cur) ->
        (exists x q, piece = Str.rev cur ++ x /\ s = x ++ q)
        \/ occurs_in piece s)
    /\ (forall skip piece,
           In piece (Str.split_from sep s skip "") -> occurs_in piece s).
Proof.
  induction s as [|c s [IHA IHB]].
  - split.
    + intros cur piece [<- | []]. left. exists "", "".
      rewrite append_nil_r. auto.
    + intros skip piece H.
      assert (Hp : piece = "") by (destruct skip; destruct H as [<- | []]; reflexivity).
      subst piece. exists "", "". reflexivity.
  - assert (HA : forall cur piece,
               In piece (Str.split_from sep (String c s) 0 cur) ->
               (exists x q, piece = Str.rev cur ++ x /\ String c s = x ++ q)
               \/ occurs_in piece (String c s)).
    { intros cur piece. cbn [Str.split_from].
      destruct (Str.strip_prefix sep (String c s)).
      - intros [<- | Hin].
        + left. exists "", (String c s). rewrite append_nil_r. auto.
        + right. apply occurs_in_cons. eapply IHB. exact Hin.
      - intros Hin. destruct (IHA _ _ Hin) as [(x & q & -> & ->) | Hocc].
        + left. exists (String c x), q. rewrite rev_cons, append_assoc. auto.
        + right. apply occurs_in_cons. exact Hocc. }
    split; [exact HA|].
    intros [|skip] piece Hin.
    + destruct (HA _ _ Hin) as [(x & q & -> & ->) | Hocc]; [|exact Hocc].
      apply occurs_in_prefix.
    + cbn [Str.split_from] in Hin. apply occurs_in_cons. eapply IHB. exact Hin.
Qed.

Lemma split_pieces (sep s piece : string) :
  In piece (Str.split sep s) -> occurs_in piece s.
Proof. intros H. eapply (proj2 (split_from_pieces sep s)). exact H. Qed.

(** So do the pieces of a split at a lookahead. *)
Lemma split_ahead_from_pieces (r : Re.regex) :
  forall s cur piece,
    In piece (Re.split_ahead_from r s cur) ->
    (exists x q, piece = Str.rev cur ++ x /\ s = x ++ q)
    \/ occurs_in piece s.
Proof.
  induction s as [|a s IH]; intros cur piece.
  - intros [<- | []]. left. exists "", "". rewrite append_nil_r. auto.
  - cbn [Re.split_ahead_from].
    destruct (Re.match_at (Re.Ahead r) (String a s)).
    + intros [<- | Hin].
      * left. exists "", (String a s). rewrite append_nil_r. auto.
      * right. destruct (IH _ _ Hin) as [(x & q & -> & ->) | Hocc].
        -- exists "", q. reflexivity.
        -- apply occurs_in_cons. exact Hocc.
    + intros Hin. destruct (IH _ _ Hin) as [(x & q & -> & ->) | Hocc].
      * left. exists (String a x), q. rewrite rev_cons, append_assoc. auto.
      * right. apply occurs_in_cons. exact Hocc.
Qed.

Lemma split_ahead_pieces (r : Re.regex) (s piece : string) :
  In piece (Re.split_ahead r s) -> occurs_in piece s.
Proof.
  intros H. destruct (split_ahead_from_pieces r s "" piece H)
    as [(x & q & -> & ->) | Hocc]; [apply occurs_in_prefix | exact Hocc].
Qed.

(** ** Extraction from a text without the section *)

Lemma run_lit_prefix (A : Type) (x : string) :
  forall (s : string) (c : Re.caps) (k : string -> Re.caps -> option A)
         (r : A),
    Re.run (Re.lit true x) s c k = Some r ->
    exists s1 s2, s = s1 ++ s2 /\ Str.lower s1 = Str.lower x
                  /\ k s2 c = Some r.
Proof.
  induction x as [|a x IH]; intros s c k r; cbn [Re.lit Re.run].
  - intros H. exists "", s. auto.
  - destruct s as [|b s]; [discriminate|].
    unfold Re.chr_class.
    destruct (Ascii.eqb (Str.lower_char a) (Str.lower_char b)) eqn:E;
      [|discriminate].
    apply Ascii.eqb_eq in E. intros H.
    destruct (IH _ _ _ _ H) as (s1 & s2 & -> & Hl & Hk).
    exists (String b s1), s2. split; [reflexivity|]. split; [|exact Hk].
    unfold Str.lower in *. simpl. congruence.
Qed.

Lemma match_lit_absent (x s : string) (rest : Re.regex) :
  Str.strip_prefix (Str.lower x) (Str.lower s) = None ->
  Re.match_at (Re.Cat (Re.lit true x) rest) s = None.
Proof.
  intros Habs. unfold Re.match_at. cbn [Re.run].
  match goal with |- ?m = None => destruct m as [r|] eqn:E end;
    [|reflexivity].
  destruct (run_lit_prefix _ _ _ _ _ _ E) as (s1 & s2 & -> & Hl & _).
  rewrite lower_app, Hl, strip_prefix_app in Habs. discriminate.
Qed.

Lemma search_lit_absent (x : string) (rest : Re.regex) :
  forall s,
    Str.contains (Str.lower x) (Str.lower s) = false ->
    Re.search (Re.Cat (Re.lit true x) rest) s = None.
Proof.
  induction s as [|a s IH]; intros Habs; rewrite contains_unfold in Habs;
    destruct (Str.strip_prefix (Str.lower x) (Str.lower _)) eqn:E;
    try discriminate; cbn [Re.search]; rewrite (match_lit_absent _ _ _ E).
  - reflexivity.
  - apply IH. exact Habs.
Qed.

Lemma structure_loop_absent (section : string) (lines : list string) :
  (forall line, In line lines ->
                Str.contains (Str.lower section) (Str.lower line) = false) ->
  structure_loop section lines false = None.
Proof.
  induction lines as [|line lines IH]; intros H; cbn [structure_loop];
    [reflexivity|].
  rewrite (H line (or_introl eq_refl)). apply IH.
  intros l Hl. apply H. right. exact Hl.
Qed.

Lemma numbers_loop_absent (section : string) (parts : list string) :
  (forall part, In part parts ->
                Str.contains (Str.lower section) (Str.lower part) = false) ->
  numbers_loop section parts = None.
Proof.
  induction parts as [|part parts IH]; intros H; cbn [numbers_loop];
    [reflexivity|].
  rewrite (H part (or_introl eq_refl)). apply IH.
  intros l Hl. apply H. right. exact Hl.
Qed.

Lemma extraction_absent (text section : string) :
  Str.contains (Str.lower section) (Str.lower text) = false ->
  extract_percentage text section = None
  /\ extract_reset_string text section = None.
Proof.
  intros Habs. split.
  - unfold extract_percentage, strategies. cbn [cascade].
    assert (H1 : extract_via_regex text section = None).
    { unfold extract_via_regex, re_section_percent_used. cbn [Re.seq].
      rewrite search_lit_absent by exact Habs. reflexivity. }
    assert (H2 : extract_via_structure text section = None).
    { unfold extract_via_structure. apply structure_loop_absent.
      intros line Hl. eapply absent_in_piece; [exact Habs|].
      eapply split_pieces. exact Hl. }
    assert (H3 : extract_via_numbers text section = None).
    { unfold extract_via_numbers. apply numbers_loop_absent.
      intros part Hp. eapply absent_in_piece; [exact Habs|].
      eapply split_ahead_pieces. exact Hp. }
    rewrite H1, H2, H3. reflexivity.
  - unfold extract_reset_string, re_section_resets. cbn [Re.seq].
    rewrite search_lit_absent by exact Habs. reflexivity.
Qed.

(** X15. When the section label does not occur in the text, in any
    letter case, none of the three percentage strategies finds
    anything and no reset phrase is found: [extract_percentage] and
    [extract_reset_string] both return absent. *)
Theorem no_section_no_extraction (text section : string) :
  Str.contains (Str.lower section) (Str.lower text) = false ->
  extract_via_regex text section = None
  /\ extract_via_structure text section = None
  /\ extract_via_numbers text section = None
  /\ extract_percentage text section = None
  /\ extract_reset_string text section = None.
Proof.
  intros Habs.
  destruct (extraction_absent text section Habs) as [Hp Hr].
  repeat split; try assumption.
  - unfold extract_via_regex, re_section_percent_used. cbn [Re.seq].
    rewrite search_lit_absent by exact Habs. reflexivity.
  - unfold extract_via_structure. apply structure_loop_absent.
    intros line Hl. eapply absent_in_piece; [exact Habs|].
    eapply split_pieces. exact Hl.
  - unfold extract_via_numbers. apply numbers_loop_absent.
    intros part Hpart. eapply absent_in_piece; [exact Habs|].
    eapply split_ahead_pieces. exact Hpart.
Qed.

Lemma no_section_no_extraction_witness :
  extract_via_regex "Some other content" "Current session" = None
  /\ extract_via_structure "Some other content" "Current session" = None
  /\ extract_via_numbers "Some other content" "Current session" = None
  /\ extract_percentage "Some other content" "Current session" = None
  /\ extract_reset_string "Some other content" "Current session" = None.
Proof.
  apply (no_section_no_extraction "Some other content" "Current session").
  reflexivity.
Defined.




(** ** Text normaliser *)

(** A pattern that cannot match at any character of the text leaves
    the text as it is. *)
Lemma sub_no_match (r : Re.regex) (f : Re.caps -> string)
      (q : ascii -> bool) :
  (forall a s, q a = true -> Re.match_at r (String a s) = None) ->
  forall s, every q s = true -> Re.sub r f s = s.
Proof.
  intros Hr. unfold Re.sub.
  induction s as [|a s IH]; cbn [every Re.sub_from]; [reflexivity|].
  intros H. apply andb_true_iff in H. destruct H as [Ha Hs].
  rewrite (Hr a s Ha), (IH Hs). reflexivity.
Qed.

Lemma plain_char_not_esc (a : ascii) :
  plain_char a = true -> Ascii.eqb ESC a = false.
Proof.
  unfold plain_char. intros H. apply andb_true_iff in H.
  destruct H as [H _]. apply negb_true_iff in H. exact H.
Qed.

Lemma plain_char_not_bracket (a : ascii) :
  plain_char a = true -> Ascii.eqb "]" a = false.
Proof.
  unfold plain_char. intros H. apply andb_true_iff in H.
  destruct H as [_ H]. apply negb_true_iff in H. exact H.
Qed.

(** X17. [strip_ansi] leaves a text unchanged when it contains neither
    an ESC character nor a closing bracket "]". *)
Theorem strip_ansi_plain_text (text : string) :
  every plain_char text = true -> strip_ansi text = text.
Proof.
  intros H. unfold strip_ansi.
  assert (H1 : forall a s, plain_char a = true ->
                           Re.match_at re_cursor_right (String a s) = None).
  { intros a s Ha. unfold Re.match_at, re_cursor_right.
    cbn [Re.seq Re.run]. rewrite (plain_char_not_esc a Ha). reflexivity. }
  assert (H2 : forall a s, plain_char a = true ->
                           Re.match_at re_escape_sequence (String a s) = None).
  { intros a s Ha. unfold Re.match_at, re_escape_sequence.
    cbn [Re.run]. rewrite (plain_char_not_esc a Ha). reflexivity. }
  assert (H3 : forall a s, plain_char a = true ->
                           Re.match_at re_osc (String a s) = None).
  { intros a s Ha. unfold Re.match_at, re_osc.
    cbn [Re.seq Re.run]. rewrite (plain_char_not_esc a Ha). reflexivity. }
  assert (H4 : forall a s, plain_char a = true ->
                           Re.match_at re_bracket_title (String a s) = None).
  { intros a s Ha. unfold Re.match_at, re_bracket_title.
    cbn [Re.seq Re.lit Re.run]. unfold Re.chr_class.
    rewrite (plain_char_not_bracket a Ha). reflexivity. }
  rewrite (sub_no_match _ _ plain_char H1 _ H).
  rewrite (sub_no_match _ _ plain_char H2 _ H).
  rewrite (sub_no_match _ _ plain_char H3 _ H).
  rewrite (sub_no_match _ _ plain_char H4 _ H).
  reflexivity.
Qed.

Lemma strip_ansi_plain_text_witness :
  strip_ansi "Normal text with no codes" = "Normal text with no codes".
Proof.
  apply (strip_ansi_plain_text "Normal text with no codes").
  reflexivity.
Defined.

Lemma every_app (p : ascii -> bool) (a b : string) :
  every p (a ++ b) = every p a && every p b.
Proof.
  induction a as [|c a IH]; simpl; [reflexivity|].
  rewrite IH, andb_assoc. reflexivity.
Qed.

Lemma every_weaken (p q : ascii -> bool) (s : string) :
  (forall c, p c = true -> q c = true) ->
  every p s = true -> every q s = true.
Proof.
  intros Hpq. induction s as [|c s IH]; simpl; [reflexivity|].
  intros H. apply andb_true_iff in H. destruct H as [Hc Hs].
  rewrite (Hpq c Hc), (IH Hs). reflexivity.
Qed.

Lemma length_append (a b : string) :
  String.length (a ++ b) = (String.length a + String.length b)%nat.
Proof. induction a; simpl; congruence. Qed.

Lemma take_app (a b : string) : Str.take (String.length a) (a ++ b) = a.
Proof. induction a; simpl; [destruct b; reflexivity | congruence]. Qed.

Lemma consumed_app (a b : string) : Re.consumed (a ++ b) b = a.
Proof.
  unfold Re.consumed. rewrite length_append.
  replace (String.length a + String.length b - String.length b)%nat
    with (String.length a) by lia.
  apply take_app.
Qed.

(** A greedy repetition in front of a continuation that always
    succeeds takes the longest run. *)
Lemma star_greedy_longest (A : Type) (p : ascii -> bool)
      (k : string -> option A) :
  (forall s, k s <> None) ->
  forall s, Re.star true p s k = k (drop_while p s).
Proof.
  intros Hk. induction s as [|c s IH]; cbn [Re.star drop_while];
    [reflexivity|].
  destruct (p c); [|reflexivity].
  rewrite IH. destruct (k (drop_while p s)) eqn:E; [reflexivity|].
  exfalso. exact (Hk _ E).
Qed.

Lemma drop_while_twice (p q : ascii -> bool) (s : string) :
  (forall c, p c = true -> q c = true) ->
  drop_while q (drop_while p s) = drop_while q s.
Proof.
  intros Hpq. induction s as [|c s IH]; cbn [drop_while]; [reflexivity|].
  destruct (p c) eqn:E.
  - rewrite (Hpq c E). exact IH.
  - reflexivity.
Qed.

Lemma drop_while_line (b rest : string) :
  every Re.not_nl b = true -> line_end rest ->
  drop_while Re.not_nl (b ++ rest) = rest.
Proof.
  intros Hb Hrest. induction b as [|c b IH]; cbn [append].
  - destruct Hrest as [-> | (c & ->)]; reflexivity.
  - cbn [every] in Hb. apply andb_true_iff in Hb. destruct Hb as [Hc Hb].
    cbn [drop_while]. rewrite Hc. apply IH. exact Hb.
Qed.

Lemma title_char_not_nl (c : ascii) :
  Str.is_digit c || Ascii.eqb ";" c = true -> Re.not_nl c = true.
Proof.
  destruct c as [[] [] [] [] [] [] [] []]; vm_compute; intros H;
    first [reflexivity | discriminate H].
Qed.

(** The bracket pattern, at a "]", takes the rest of the line. *)
Lemma match_bracket_title (b rest : string) :
  every Re.not_nl b = true -> line_end rest ->
  Re.match_at re_bracket_title (String "]" (b ++ rest))
  = Some (String "]" b, rest, []).
Proof.
  intros Hb Hrest. unfold Re.match_at, re_bracket_title.
  cbn [Re.seq Re.lit Re.run Re.chr_class Re.rep]. rewrite Ascii.eqb_refl.
  rewrite star_greedy_longest.
  2:{ intros s. rewrite star_greedy_longest; discriminate. }
  rewrite star_greedy_longest by discriminate.
  rewrite (drop_while_twice _ _ _ title_char_not_nl).
  rewrite (drop_while_line b rest Hb Hrest).
  change (String "]" (b ++ rest)) with (String "]" b ++ rest).
  rewrite consumed_app. reflexivity.
Qed.

Lemma sub_from_skip (r : Re.regex) (f : Re.caps -> string) (b rest : string) :
  Re.sub_from r f (b ++ rest) (String.length b) = Re.sub_from r f rest 0.
Proof.
  induction b as [|c b IH]; cbn [append String.length]; [reflexivity|].
  cbn [Re.sub_from]. exact IH.
Qed.

Lemma sub_from_plain_prefix (r : Re.regex) (f : Re.caps -> string)
      (q : ascii -> bool) (a s : string) :
  (forall c s', q c = true -> Re.match_at r (String c s') = None) ->
  every q a = true ->
  Re.sub_from r f (a ++ s) 0 = a ++ Re.sub_from r f s 0.
Proof.
  intros Hr. induction a as [|c a IH]; cbn [append every]; [reflexivity|].
  intros H. apply andb_true_iff in H. destruct H as [Hc Ha].
  cbn [Re.sub_from]. rewrite (Hr c _ Hc), (IH Ha). reflexivity.
Qed.

(** X18. [strip_ansi] deletes everything from a closing bracket "]"
    to the end of its line: in a text without ESC whose first "]" is
    followed on its line by [b], the bracket and [b] are removed and
    nothing else is. *)
Theorem strip_ansi_deletes_after_bracket (a b rest : string) :
  every plain_char a = true ->
  every line_char b = true ->
  every plain_char rest = true ->
  line_end rest ->
  strip_ansi (a ++ "]" ++ b ++ rest) = a ++ rest.
Proof.
  intros Ha Hb Hrest Hend. unfold strip_ansi.
  assert (Hesc : every not_esc (a ++ "]" ++ b ++ rest) = true).
  { rewrite !every_app.
    rewrite (every_weaken plain_char not_esc a), (every_weaken line_char not_esc b),
      (every_weaken plain_char not_esc rest); try assumption; try reflexivity.
    - intros c H. apply andb_true_iff in H. tauto.
    - intros c H. apply andb_true_iff in H. tauto.
    - intros c H. apply andb_true_iff in H. tauto. }
  assert (H1 : forall c s, not_esc c = true ->
                           Re.match_at re_cursor_right (String c s) = None).
  { intros c s Hc. apply negb_true_iff in Hc.
    unfold Re.match_at, re_cursor_right. cbn [Re.seq Re.run].
    rewrite Hc. reflexivity. }
  assert (H2 : forall c s, not_esc c = true ->
                           Re.match_at re_escape_sequence (String c s) = None).
  { intros c s Hc. apply negb_true_iff in Hc.
    unfold Re.match_at, re_escape_sequence. cbn [Re.run].
    rewrite Hc. reflexivity. }
  assert (H3 : forall c s, not_esc c = true ->
                           Re.match_at re_osc (String c s) = None).
  { intros c s Hc. apply negb_true_iff in Hc.
    unfold Re.match_at, re_osc. cbn [Re.seq Re.run].
    rewrite Hc. reflexivity. }
  assert (H4 : forall c s, plain_char c = true ->
                           Re.match_at re_bracket_title (String c s) = None).
  { intros c s Hc. unfold Re.match_at, re_bracket_title.
    cbn [Re.seq Re.lit Re.run]. unfold Re.chr_class.
    rewrite (plain_char_not_bracket c Hc). reflexivity. }
  rewrite (sub_no_match _ _ not_esc H1 _ Hesc).
  rewrite (sub_no_match _ _ not_esc H2 _ Hesc).
  rewrite (sub_no_match _ _ not_esc H3 _ Hesc).
  unfold Re.sub.
  rewrite (sub_from_plain_prefix _ _ plain_char a _ H4 Ha).
  f_equal. cbn [append Re.sub_from].
  rewrite match_bracket_title.
  - cbn [append]. rewrite sub_from_skip.
    apply (sub_no_match _ _ plain_char H4 _ Hrest).
  - eapply every_weaken; [|exact Hb].
    intros c H. apply andb_true_iff in H. tauto.
  - exact Hend.
Qed.

Lemma strip_ansi_deletes_after_bracket_witness :
  strip_ansi ("Current session [bar" ++ "]" ++ " 42% used]" ++ (Str.nl ++ "Resets 6:59pm"))
  = "Current session [bar" ++ (Str.nl ++ "Resets 6:59pm").
Proof.
  apply (strip_ansi_deletes_after_bracket
           "Current session [bar" " 42% used]" (Str.nl ++ "Resets 6:59pm")).
  - reflexivity.
  - reflexivity.
  - reflexivity.
  - right. exists "Resets 6:59pm". reflexivity.
Defined.

(** ** Healing loop *)

(** X19. When [check_status] finds the parser working, [heal] run from
    the same state returns success with "Parser working" after its
    first check: no fix, no iteration, and the parser's file, the
    history, the fixtures and the commits are as they were. *)
Theorem heal_leaves_working_parser_alone (h : Cli.host)
        (max_iterations : nat) (auto : bool) (m : Healer.machine) :
  fst (Healer.check_status h (Healer.tr m)) = true ->
  exists t',
    Healer.heal h max_iterations auto m
    = (Ok {| Healer.success := true;
             Healer.message := "Parser working";
             Healer.fix_used := None;
             Healer.iterations := 0 |},
       {| Healer.parser_file := Healer.parser_file m;
          Healer.history := Healer.history m;
          Healer.fixtures := Healer.fixtures m;
          Healer.commits := Healer.commits m;
          Healer.tr := t' |}).
Proof.
  unfold Healer.check_status, Healer.heal, Healer.first_check.
  destruct (Healer.check h (Healer.tr m)) as [[output r | output r msg | e | output e] t'];
    cbn [fst]; intros H; try discriminate H.
  exists t'. reflexivity.
Qed.

Lemma heal_leaves_working_parser_alone_witness :
  exists t',
    Healer.heal healthy_host 3 false blank_machine
    = (Ok {| Healer.success := true;
             Healer.message := "Parser working";
             Healer.fix_used := None;
             Healer.iterations := 0 |},
       {| Healer.parser_file := Healer.parser_file blank_machine;
          Healer.history := Healer.history blank_machine;
          Healer.fixtures := Healer.fixtures blank_machine;
          Healer.commits := Healer.commits blank_machine;
          Healer.tr := t' |}).
Proof.
  apply (heal_leaves_working_parser_alone healthy_host 3 false blank_machine).
  vm_compute. reflexivity.
Defined.


Lemma capture_error_incomplete (w : world) (t : trace) (e : exn)
      (text : string) :
  fst (capture_usage_output w 3 t) = Raise e ->
  classify_failure e text = (CAPTURE_INCOMPLETE, 0.85%Q).
Proof.
  intros H. unfold capture_usage_output in H.
  destruct (find_claude_command w) as [cmd | e0] eqn:Hcmd.
  - pose proof (capture_loop_spec w cmd 3 3 t) as Hspec.
    rewrite H in Hspec. destruct Hspec as [-> _]. reflexivity.
  - cbn [fst] in H. injection H as <-.
    unfold find_claude_command in Hcmd.
    destruct (installed w "claude"); [discriminate|].
    destruct (installed w "cc"); [discriminate|].
    injection Hcmd as <-. reflexivity.
Qed.











Lemma dead_capture (w : world) (t : trace) :
  dead_terminal w ->
  exists msg t',
    capture_usage_output w 3 t = (Raise (CaptureError msg), t')
    /\ forall text,
         classify_failure (CaptureError msg) text = (CAPTURE_INCOMPLETE, 0.85%Q).
Proof.
  intros Hdead.
  destruct (capture_usage_output w 3 t) as [[output | e] t'] eqn:Hc.
  - exfalso. unfold capture_usage_output in Hc.
    destruct (find_claude_command w) as [cmd | e0]; [|discriminate].
    pose proof (capture_loop_spec w cmd 3 3 t) as Hs.
    rewrite Hc in Hs. cbn [fst] in Hs.
    destruct Hs as (Hv & i & _ & Hlog & _).
    specialize (Hdead (expect_runs t + i)%nat).
    rewrite Hlog in Hdead. cbn in Hdead. congruence.
  - assert (He : fst (capture_usage_output w 3 t) = Raise e)
      by (rewrite Hc; reflexivity).
    destruct (capture_raises_capture_error w t e He) as (msg & ->).
    exists msg, t'. split; [reflexivity|].
    intros text. exact (capture_error_incomplete w t _ text He).
Qed.

Lemma dead_check_once (w : world) (t : trace) :
  dead_terminal w -> succeeded (fst (check_once w t)) = false.
Proof.
  intros Hdead. unfold check_once.
  destruct (dead_capture w t Hdead) as (msg & t' & -> & _). reflexivity.
Qed.

Lemma dead_verify_fix (w : world) (t : trace) :
  dead_terminal w ->
  fst (verify_fix w VERIFY_ATTEMPTS VERIFY_THRESHOLD t) = false.
Proof.
  intros Hdead.
  change (fst (verify_fix w 3 2 t) = false). rewrite verify_fix_three.
  pose proof (dead_check_once w t Hdead) as H1.
  destruct (check_once w t) as [r1 t1]. cbn [fst] in H1.
  pose proof (dead_check_once w (sleep 1%Q t1) Hdead) as H2.
  destruct (check_once w (sleep 1%Q t1)) as [r2 t2]. cbn [fst] in H2.
  pose proof (dead_check_once w (sleep 1%Q t2) Hdead) as H3.
  destruct (check_once w (sleep 1%Q t2)) as [r3 t3]. cbn [fst] in H3.
  rewrite H1, H2, H3. reflexivity.
Qed.

Lemma dead_try_strategies (h : Cli.host) (auto : bool) (d : Healer.diagnosis)
      (iteration : nat) (m : Healer.machine) :
  dead_terminal (Cli.os h) ->
  Healer.output d <> None ->
  let '(r, m') :=
    Healer.try_strategies h auto d iteration
      ["extend_wait_time"; "add_section_wait"] m in
  r = Ok None
  /\ Healer.parser_file m' = wait_fixes_round (Healer.parser_file m)
  /\ Healer.history m' = Healer.history m
  /\ Healer.fixtures m' = Healer.fixtures m
  /\ Healer.commits m' = Healer.commits m.
Proof.
  intros Hdead Hd.
  destruct (Healer.output d) as [text|] eqn:Hout; [|congruence].
  cbn [Healer.try_strategies]. rewrite Hout.
  change (create_fix "extend_wait_time" text (Healer.last_error d)
            (Healer.parser_file m))
    with (Some _fix_extend_wait).
  cbv beta iota zeta.
  match goal with
  | |- context [verify_fix ?w ?a ?b ?t] =>
      pose proof (dead_verify_fix w t Hdead) as Hv;
      destruct (verify_fix w a b t) as [v t1]
  end.
  cbn [fst] in Hv. subst v.
  match goal with
  | |- context [create_fix "add_section_wait" ?x ?y ?z] =>
      change (create_fix "add_section_wait" x y z)
        with (Some _fix_add_section_wait)
  end.
  cbv beta iota zeta.
  match goal with
  | |- context [verify_fix ?w ?a ?b ?t] =>
      pose proof (dead_verify_fix w t Hdead) as Hv;
      destruct (verify_fix w a b t) as [v t2]
  end.
  cbn [fst] in Hv. subst v.
  repeat split.
Qed.

Lemma dead_heal_loop (h : Cli.host) (auto : bool) (n : nat) :
  dead_terminal (Cli.os h) ->
  forall (todo : nat) (d : Healer.diagnosis) (m : Healer.machine),
    Healer.failure_type d = CAPTURE_INCOMPLETE ->
    Healer.output d <> None ->
    exists now m',
      Healer.heal_loop h auto n todo d m
      = (Ok {| Healer.success := false;
               Healer.message := "All strategies exhausted";
               Healer.fix_used := None;
               Healer.iterations := n |}, m')
      /\ Healer.parser_file m'
         = Nat.iter todo wait_fixes_round (Healer.parser_file m)
      /\ Healer.history m'
         = History.record_history now false CAPTURE_INCOMPLETE None
             "All strategies exhausted" (Healer.history m)
      /\ Healer.fixtures m' = Healer.fixtures m
      /\ Healer.commits m' = Healer.commits m.
Proof.
  intros Hdead.
  induction todo as [|todo IH]; intros d m Hft Hd; cbn [Healer.heal_loop].
  - eexists _, _. split; [reflexivity|]. cbn. rewrite Hft. repeat split.
  - rewrite Hft. cbn [get_strategies].
    pose proof (dead_try_strategies h auto d (n - S todo) m Hdead Hd) as Ht.
    destruct (Healer.try_strategies h auto d (n - S todo)
                ["extend_wait_time"; "add_section_wait"] m) as [r m1].
    destruct Ht as (-> & Hpf & Hh & Hfx & Hcm).
    unfold Healer.recheck, Healer.check.
    destruct (dead_capture (Cli.os h) (Healer.tr m1) Hdead)
      as (msg & t' & -> & Hcl).
    match goal with
    | |- context [Healer.heal_loop h auto n todo ?d' ?m'] =>
        destruct (IH d' m') as (now & m2 & -> & Hpf2 & Hh2 & Hfx2 & Hcm2)
    end.
    + cbn [Healer.failure_type]. rewrite Hcl. reflexivity.
    + exact Hd.
    + exists now, m2. split; [reflexivity|].
      cbn [Healer.with_trace Healer.parser_file Healer.history
           Healer.fixtures Healer.commits] in Hpf2, Hh2, Hfx2, Hcm2.
      rewrite Hpf2, Hh2, Hfx2, Hcm2, Hpf, Hh, Hfx, Hcm.
      rewrite Nat.iter_succ_r. repeat split.
Qed.

(** X22. When the terminal never yields an output the capture accepts,
    [heal] gives up after [max_iterations] iterations: it returns the
    failure "All strategies exhausted", keeps no fix, saves no fixture,
    makes no commit, and records one failure of type capture-incomplete.
    In each iteration it applied and rolled back the two wait fixes, so
    the parser's file ends as that many rounds of apply and rollback
    leave it. *)
Theorem heal_gives_up_on_dead_terminal (h : Cli.host) (max_iterations : nat)
        (auto : bool) (m : Healer.machine) :
  dead_terminal (Cli.os h) ->
  exists now m',
    Healer.heal h max_iterations auto m
    = (Ok {| Healer.success := false;
             Healer.message := "All strategies exhausted";
             Healer.fix_used := None;
             Healer.iterations := max_iterations |}, m')
    /\ Healer.parser_file m'
       = Nat.iter max_iterations wait_fixes_round (Healer.parser_file m)
    /\ Healer.history m'
       = History.record_history now false CAPTURE_INCOMPLETE None
           "All strategies exhausted" (Healer.history m)
    /\ Healer.fixtures m' = Healer.fixtures m
    /\ Healer.commits m' = Healer.commits m.
Proof.
  intros Hdead. unfold Healer.heal, Healer.first_check, Healer.check.
  destruct (dead_capture (Cli.os h) (Healer.tr m) Hdead)
    as (msg & t' & -> & Hcl).
  cbn [is_capture_error].
  match goal with
  | |- context [Healer.heal_loop h auto _ _ ?d' ?m'] =>
      destruct (dead_heal_loop h auto max_iterations Hdead max_iterations d' m')
        as (now & m2 & -> & Hpf & Hh & Hfx & Hcm)
  end.
  - cbn [Healer.failure_type]. rewrite Hcl. reflexivity.
  - discriminate.
  - exists now, m2. split; [reflexivity|]. repeat split; assumption.
Qed.

Lemma heal_gives_up_on_dead_terminal_witness :
  exists now m',
    Healer.heal silent_host 2 false blank_machine
    = (Ok {| Healer.success := false;
             Healer.message := "All strategies exhausted";
             Healer.fix_used := None;
             Healer.iterations := 2 |}, m')
    /\ Healer.parser_file m'
       = Nat.iter 2 wait_fixes_round (Healer.parser_file blank_machine)
    /\ Healer.history m'
       = History.record_history now false CAPTURE_INCOMPLETE None
           "All strategies exhausted" (Healer.history blank_machine)
    /\ Healer.fixtures m' = Healer.fixtures blank_machine
    /\ Healer.commits m' = Healer.commits blank_machine.
Proof.
  apply (heal_gives_up_on_dead_terminal silent_host 2 false blank_machine).
  intros k. exact I.
Defined.

(** ** Rollback of the replacing fixes *)

Lemma replace_from_skip (old new x s : string) :
  Str.replace_from old new (x ++ s) (String.length x)
  = Str.replace_from old new s 0.
Proof.
  induction x as [|c x IH]; [reflexivity|].
  cbn [append String.length Str.replace_from]. exact IH.
Qed.

Lemma replace_unfold (old new : string) (c : ascii) (s : string) :
  Str.replace old new (String c s)
  = match Str.strip_prefix old (String c s) with
    | Some _ => new ++ Str.replace_from old new s (Nat.pred (String.length old))
    | None => String c (Str.replace old new s)
    end.
Proof. reflexivity. Qed.

Lemma replace_prefix (old new s r : string) :
  old <> "" ->
  Str.strip_prefix old s = Some r ->
  Str.replace old new s = new ++ Str.replace old new r.
Proof.
  intros Hne H. pose proof (strip_prefix_some _ _ _ H) as Hs. subst s.
  destruct old as [|a old']; [congruence|].
  change (String a old' ++ r) with (String a (old' ++ r)) in *.
  rewrite replace_unfold, H. cbn [String.length Nat.pred].
  rewrite replace_from_skip. reflexivity.
Qed.

Lemma replace_copy (old new : string) (c : ascii) (s : string) :
  Str.strip_prefix old (String c s) = None ->
  Str.replace old new (String c s) = String c (Str.replace old new s).
Proof. intros H. rewrite replace_unfold, H. reflexivity. Qed.

Lemma contains_false_head (x s : string) :
  Str.contains x s = false -> Str.strip_prefix x s = None.
Proof.
  rewrite contains_unfold.
  destruct (Str.strip_prefix x s); [discriminate | reflexivity].
Qed.

Lemma contains_false_tail (x : string) (c : ascii) (s : string) :
  Str.contains x (String c s) = false -> Str.contains x s = false.
Proof.
  rewrite contains_unfold.
  destruct (Str.strip_prefix x (String c s)); [discriminate | auto].
Qed.

Lemma contains_false_suffix (x p s : string) :
  Str.contains x (p ++ s) = false -> Str.contains x s = false.
Proof.
  induction p as [|c p IH]; [auto|].
  intros H. apply IH. exact (contains_false_tail _ _ _ H).
Qed.

(** What follows a replaced text and holds no first character of
    [new] was copied from the original. *)
Lemma strip_prefix_replace_back (old : string) (h : ascii) (w' : string) :
  old <> "" ->
  forall (w s r : string),
    every (fun c => negb (Ascii.eqb h c)) w = true ->
    Str.strip_prefix w (Str.replace old (String h w') s) = Some r ->
    exists r', Str.strip_prefix w s = Some r'.
Proof.
  intros Hne. induction w as [|x w IH]; intros s r He H.
  - eexists. reflexivity.
  - cbn [every] in He. apply andb_true_iff in He. destruct He as [Hx He].
    destruct s as [|c s1]; [discriminate H|].
    destruct (Str.strip_prefix old (String c s1)) as [q|] eqn:Ha.
    + rewrite (replace_prefix old _ _ q Hne Ha) in H.
      cbn [append Str.strip_prefix] in H.
      rewrite Ascii.eqb_sym in Hx.
      destruct (Ascii.eqb x h); [discriminate Hx | discriminate H].
    + rewrite (replace_copy _ _ _ _ Ha) in H.
      cbn [Str.strip_prefix] in H |- *.
      destruct (Ascii.eqb x c); [|discriminate H].
      exact (IH s1 r He H).
Qed.

Lemma replace_round_trip (old : string) (h : ascii) (w : string) :
  old <> "" ->
  every (fun c => negb (Ascii.eqb h c)) w = true ->
  forall s,
    Str.contains (String h w) s = false ->
    Str.replace (String h w) old (Str.replace old (String h w) s) = s.
Proof.
  intros Hne Hw s.
  remember (String.length s) as n eqn:Hn. revert s Hn.
  induction n as [n IH] using lt_wf_ind. intros s Hn Hc.
  destruct s as [|c s1]; [reflexivity|].
  destruct (Str.strip_prefix old (String c s1)) as [r|] eqn:Ha.
  - rewrite (replace_prefix old _ _ r Hne Ha).
    rewrite (replace_prefix (String h w) old _ _ ltac:(discriminate)
               (strip_prefix_app _ _)).
    pose proof (strip_prefix_some _ _ _ Ha) as Hs.
    rewrite (IH (String.length r)); [symmetry; exact Hs | | reflexivity |].
    + rewrite Hn, Hs, length_append.
      destruct old; [congruence | cbn [String.length]; lia].
    + rewrite Hs in Hc. exact (contains_false_suffix _ _ _ Hc).
  - rewrite (replace_copy _ _ _ _ Ha).
    assert (Hb : Str.strip_prefix (String h w)
                   (String c (Str.replace old (String h w) s1)) = None).
    { destruct (Str.strip_prefix (String h w)
                  (String c (Str.replace old (String h w) s1))) as [q|] eqn:Hb;
        [exfalso | reflexivity].
      cbn [Str.strip_prefix] in Hb.
      destruct (Ascii.eqb h c) eqn:Ehc; [|discriminate Hb].
      destruct (strip_prefix_replace_back old h w Hne w s1 q Hw Hb) as (r' & Hr).
      apply contains_false_head in Hc.
      cbn [Str.strip_prefix] in Hc. rewrite Ehc, Hr in Hc. discriminate Hc. }
    rewrite (replace_copy _ _ _ _ Hb). f_equal.
    apply (IH (String.length s1)); [subst n; cbn; lia | reflexivity |].
    exact (contains_false_tail _ _ _ Hc).
Qed.

(** X23. Each of the four fixes that replace one text by another is
    undone by its rollback on a parser file that does not already
    contain the text the fix writes: there the rollback of the applied
    fix gives back the file, character for character. *)
Theorem replacing_fix_rollback_restores (source : string) :
  (Str.contains "sleep 1.0" source = false ->
   rollback _fix_extend_wait (apply _fix_extend_wait source) = source)
  /\ (Str.contains "sleep 3.0" source = false ->
      rollback _fix_add_section_wait (apply _fix_add_section_wait source)
      = source)
  /\ (Str.contains "Rese[tst]*" source = false ->
      rollback _fix_relax_section_regex
        (apply _fix_relax_section_regex source) = source)
  /\ (Str.contains "(\d+)\s*%\s*used" source = false ->
      rollback _fix_broaden_percentage_regex
        (apply _fix_broaden_percentage_regex source) = source).
Proof.
  repeat split; intros H; cbn [apply rollback _fix_extend_wait
    _fix_add_section_wait _fix_relax_section_regex
    _fix_broaden_percentage_regex].
  - apply (replace_round_trip "sleep 0.5" "s" "leep 1.0");
      [discriminate | reflexivity | exact H].
  - apply (replace_round_trip "sleep 2.0" "s" "leep 3.0");
      [discriminate | reflexivity | exact H].
  - apply (replace_round_trip "Rese[ts]*" "R" "ese[tst]*");
      [discriminate | reflexivity | exact H].
  - apply (replace_round_trip "(\d+)%\s*used" "(" "\d+)\s*%\s*used");
      [discriminate | reflexivity | exact H].
Qed.

Lemma replacing_fix_rollback_restores_witness :
  let source :=
    "sleep 0.5; sleep 2.0; Rese[ts]*\s+; (\d+)%\s*used" in
  rollback _fix_extend_wait (apply _fix_extend_wait source) = source
  /\ rollback _fix_add_section_wait (apply _fix_add_section_wait source)
     = source
  /\ rollback _fix_relax_section_regex
       (apply _fix_relax_section_regex source) = source
  /\ rollback _fix_broaden_percentage_regex
       (apply _fix_broaden_percentage_regex source) = source.
Proof.
  intros source.
  destruct (replacing_fix_rollback_restores source) as (H1 & H2 & H3 & H4).
  split; [apply H1; reflexivity|].
  split; [apply H2; reflexivity|].
  split; [apply H3; reflexivity | apply H4; reflexivity].
Defined.

Lemma wait_fixes_round_restores (source : string) :
  Str.contains "sleep 1.0" source = false ->
  Str.contains "sleep 3.0" source = false ->
  wait_fixes_round source = source.
Proof.
  intros H1 H3. unfold wait_fixes_round.
  cbn [apply rollback _fix_extend_wait _fix_add_section_wait].
  rewrite (replace_round_trip "sleep 0.5" "s" "leep 1.0");
    [| discriminate | reflexivity | exact H1].
  apply (replace_round_trip "sleep 2.0" "s" "leep 3.0");
    [discriminate | reflexivity | exact H3].
Qed.

Lemma iter_fixed {A : Type} (f : A -> A) (x : A) (n : nat) :
  f x = x -> Nat.iter n f x = x.
Proof.
  intros H. induction n as [|n IH]; [reflexivity|].
  rewrite Nat.iter_succ, IH. exact H.
Qed.

(** X24. A run of [heal] that fails on a terminal yielding nothing the
    capture accepts leaves the parser's file exactly as it found it,
    provided the file held neither "sleep 1.0" nor "sleep 3.0" (the
    texts the two wait fixes write): every fix it applied was rolled
    back in full. *)
Theorem failed_heal_restores_parser_file (h : Cli.host)
        (max_iterations : nat) (auto : bool) (m : Healer.machine) :
  dead_terminal (Cli.os h) ->
  Str.contains "sleep 1.0" (Healer.parser_file m) = false ->
  Str.contains "sleep 3.0" (Healer.parser_file m) = false ->
  exists m',
    Healer.heal h max_iterations auto m
    = (Ok {| Healer.success := false;
             Healer.message := "All strategies exhausted";
             Healer.fix_used := None;
             Healer.iterations := max_iterations |}, m')
    /\ Healer.parser_file m' = Healer.parser_file m.
Proof.
  intros Hdead H1 H3. unfold Healer.heal, Healer.first_check, Healer.check.
  destruct (dead_capture (Cli.os h) (Healer.tr m) Hdead)
    as (msg & t' & -> & Hcl).
  cbn [is_capture_error].
  match goal with
  | |- context [Healer.heal_loop h auto _ _ ?d' ?m'] =>
      destruct (dead_heal_loop h auto max_iterations Hdead max_iterations d' m')
        as (now & m2 & -> & Hpf & _)
  end.
  - cbn [Healer.failure_type]. rewrite Hcl. reflexivity.
  - discriminate.
  - exists m2. split; [reflexivity|]. rewrite Hpf.
    cbn [Healer.with_trace Healer.parser_file].
    apply iter_fixed. exact (wait_fixes_round_restores _ H1 H3).
Qed.

Lemma failed_heal_restores_parser_file_witness :
  let m := Healer.with_parser_file blank_machine
             ("        sleep 0.5" ++ Str.nl ++ "        sleep 2.0" ++ Str.nl) in
  exists m',
    Healer.heal silent_host 2 true m
    = (Ok {| Healer.success := false;
             Healer.message := "All strategies exhausted";
             Healer.fix_used := None;
             Healer.iterations := 2 |}, m')
    /\ Healer.parser_file m' = Healer.parser_file m.
Proof.
  intros m.
  apply (failed_heal_restores_parser_file silent_host 2 true m).
  - intros k. exact I.
  - reflexivity.
  - reflexivity.
Defined.

(** ** Clock phrases *)

Lemma reads_as_candidate (phrase : string) (H M : Z) (now : DT.datetime) :
  reads_as phrase H M = true ->
  candidate None (Some phrase) now
  = Ok (Some (DT.combine (DT.date_of now) (DT.clock H M))).
Proof.
  unfold reads_as, candidate.
  destruct phrase as [|a s]; [discriminate|].
  set (clean := clean_time_string (String a s)).
  intros Hr. apply andb_true_iff in Hr. destruct Hr as [Hat Hfp].
  apply negb_true_iff in Hat.
  unfold parse_with_formats. rewrite Hat.
  unfold TIME_FORMATS in *. cbn [first_parse] in *.
  destruct (Strptime.strptime clean "%I:%M%p") as [t1|].
  - apply Z.eqb_eq in Hfp. rewrite Hfp. reflexivity.
  - destruct (Strptime.strptime clean "%I%p") as [t2|]; [|discriminate].
    apply Z.eqb_eq in Hfp. rewrite Hfp. reflexivity.
Qed.

Lemma clock_phrases_table : clock_phrases_read = true.
Proof. vm_compute. reflexivity. Qed.

Lemma in_both (b : bool) : In b both.
Proof. destruct b; cbn; auto. Qed.

Lemma in_hours_1_12 (h : Z) : 1 <= h <= 12 -> In h hours_1_12.
Proof.
  intros Hh. unfold hours_1_12. apply in_map_iff.
  exists (Z.to_nat h). split; [lia | apply in_seq; lia].
Qed.

Lemma in_minutes_0_59 (m : Z) : 0 <= m <= 59 -> In m minutes_0_59.
Proof.
  intros Hm. unfold minutes_0_59. apply in_map_iff.
  exists (Z.to_nat m). split; [lia | apply in_seq; lia].
Qed.

(** X25. Without [dateutil], every 12-hour clock phrase is read back as
    the time it names: "H:MMam" / "H:MMpm" (hour 1 to 12, two-digit
    minute, meridiem in lower or upper case) and "Ham" / "Hpm" are
    placed on the date of [now] at hour [H mod 12], plus 12 for pm, and
    that instant is what [adjust_to_future] is given. *)
Theorem clock_phrase_read_back (h m : Z) (pm upper : bool)
        (window_hours : Z) (now : DT.datetime) :
  1 <= h <= 12 ->
  0 <= m <= 59 ->
  parse_reset_time None (Some (clock_phrase h m pm upper)) window_hours now
  = Ok (adjust_to_future
          (DT.combine (DT.date_of now) (DT.clock (hour24 h pm) m))
          now window_hours)
  /\ parse_reset_time None (Some (hour_phrase h pm upper)) window_hours now
     = Ok (adjust_to_future
             (DT.combine (DT.date_of now) (DT.clock (hour24 h pm) 0))
             now window_hours).
Proof.
  intros Hh Hm.
  pose proof clock_phrases_table as T. unfold clock_phrases_read in T.
  rewrite forallb_forall in T. specialize (T h (in_hours_1_12 h Hh)).
  rewrite forallb_forall in T. specialize (T pm (in_both pm)).
  rewrite forallb_forall in T. specialize (T upper (in_both upper)).
  apply andb_true_iff in T. destruct T as [Thour Tclock].
  rewrite forallb_forall in Tclock.
  specialize (Tclock m (in_minutes_0_59 m Hm)).
  rewrite !parse_reset_time_candidate.
  rewrite (reads_as_candidate _ _ _ now Tclock).
  rewrite (reads_as_candidate _ _ _ now Thour).
  split; reflexivity.
Qed.

Lemma clock_phrase_read_back_witness :
  parse_reset_time None (Some (clock_phrase 12 5 false false)) 5
    (DT.make 2026 1 28 14 0)
  = Ok (adjust_to_future
          (DT.combine (DT.date_of (DT.make 2026 1 28 14 0))
             (DT.clock (hour24 12 false) 5))
          (DT.make 2026 1 28 14 0) 5)
  /\ parse_reset_time None (Some (hour_phrase 12 false false)) 5
       (DT.make 2026 1 28 14 0)
     = Ok (adjust_to_future
             (DT.combine (DT.date_of (DT.make 2026 1 28 14 0))
                (DT.clock (hour24 12 false) 0))
             (DT.make 2026 1 28 14 0) 5).
Proof.
  apply (clock_phrase_read_back 12 5 false false 5 (DT.make 2026 1 28 14 0));
    lia.
Defined.

(** ** Line endings *)

Lemma replace_past_prefix (a : ascii) (old' new x s : string) :
  every (fun c => negb (Ascii.eqb a c)) x = true ->
  Str.replace (String a old') new (x ++ s)
  = x ++ Str.replace (String a old') new s.
Proof.
  induction x as [|c x IH]; [reflexivity|].
  cbn [every append]. intros He.
  apply andb_true_iff in He. destruct He as [Hc He].
  apply negb_true_iff in Hc.
  rewrite replace_copy; [rewrite (IH He); reflexivity|].
  cbn [Str.strip_prefix]. rewrite Hc. reflexivity.
Qed.

Lemma replace_absent_char (a : ascii) (old' new x : string) :
  every (fun c => negb (Ascii.eqb a c)) x = true ->
  Str.replace (String a old') new x = x.
Proof.
  intros He. pose proof (replace_past_prefix a old' new x "" He) as H.
  rewrite append_nil_r in H. rewrite H. apply append_nil_r.
Qed.

Lemma joined_cons (sep l l2 : string) (rest : list string) :
  joined sep (l :: l2 :: rest) = l ++ sep ++ joined sep (l2 :: rest).
Proof. reflexivity. Qed.

Lemma is_line_not_cr (l : string) :
  is_line l = true -> every not_cr l = true.
Proof.
  apply every_weaken. intros c H. apply andb_true_iff in H. tauto.
Qed.

Lemma is_line_not_lf (l : string) :
  is_line l = true -> every not_lf l = true.
Proof.
  apply every_weaken. intros c H. apply andb_true_iff in H. tauto.
Qed.

Lemma joined_nl_not_cr (lines : list string) :
  forallb is_line lines = true -> every not_cr (joined Str.nl lines) = true.
Proof.
  induction lines as [|l rest IH]; [reflexivity|].
  cbn [forallb]. intros H. apply andb_true_iff in H. destruct H as [Hl Hr].
  destruct rest as [|l2 rest]; [exact (is_line_not_cr l Hl)|].
  rewrite joined_cons, !every_app, (is_line_not_cr l Hl), (IH Hr).
  reflexivity.
Qed.

Lemma crlf_joined (lines : list string) :
  forallb is_line lines = true ->
  Str.replace (Str.cr ++ Str.nl) Str.nl (joined (Str.cr ++ Str.nl) lines)
  = joined Str.nl lines.
Proof.
  induction lines as [|l rest IH]; [reflexivity|].
  cbn [forallb]. intros H. apply andb_true_iff in H. destruct H as [Hl Hr].
  destruct rest as [|l2 rest].
  - exact (replace_absent_char _ _ _ l (is_line_not_cr l Hl)).
  - rewrite !joined_cons.
    change (Str.cr ++ Str.nl) with (String (Str.chr 13) Str.nl).
    rewrite (replace_past_prefix _ _ _ l _ (is_line_not_cr l Hl)).
    rewrite (replace_prefix (String (Str.chr 13) Str.nl) Str.nl _ _
               ltac:(discriminate) (strip_prefix_app _ _)).
    change (String (Str.chr 13) Str.nl) with (Str.cr ++ Str.nl).
    rewrite (IH Hr). reflexivity.
Qed.

Lemma joined_cr_head (lines : list string) :
  forallb is_line lines = true ->
  Str.strip_prefix Str.nl (joined Str.cr lines) = None.
Proof.
  destruct lines as [|l rest]; [reflexivity|].
  cbn [forallb]. intros H. apply andb_true_iff in H. destruct H as [Hl _].
  apply is_line_not_lf in Hl.
  destruct l as [|c l].
  - destruct rest as [|l2 rest]; reflexivity.
  - cbn [every] in Hl. apply andb_true_iff in Hl. destruct Hl as [Hc _].
    apply negb_true_iff in Hc.
    destruct rest as [|l2 rest];
      [cbn [joined] | rewrite joined_cons]; cbn [append];
      unfold Str.nl; cbn [Str.strip_prefix]; rewrite Hc; reflexivity.
Qed.

Lemma cr_joined_keeps (lines : list string) :
  forallb is_line lines = true ->
  Str.replace (Str.cr ++ Str.nl) Str.nl (joined Str.cr lines)
  = joined Str.cr lines.
Proof.
  induction lines as [|l rest IH]; [reflexivity|].
  intros H. pose proof H as H'.
  cbn [forallb] in H. apply andb_true_iff in H. destruct H as [Hl Hr].
  destruct rest as [|l2 rest].
  - exact (replace_absent_char _ _ _ l (is_line_not_cr l Hl)).
  - rewrite !joined_cons.
    change (Str.cr ++ Str.nl) with (String (Str.chr 13) Str.nl).
    rewrite (replace_past_prefix _ _ _ l _ (is_line_not_cr l Hl)).
    change (Str.cr ++ joined Str.cr (l2 :: rest))
      with (String (Str.chr 13) (joined Str.cr (l2 :: rest))).
    rewrite replace_copy.
    + change (String (Str.chr 13) Str.nl) with (Str.cr ++ Str.nl).
      rewrite (IH Hr). reflexivity.
    + cbn [Str.strip_prefix]. rewrite Ascii.eqb_refl.
      exact (joined_cr_head _ Hr).
Qed.

Lemma cr_joined (lines : list string) :
  forallb is_line lines = true ->
  Str.replace Str.cr Str.nl (joined Str.cr lines) = joined Str.nl lines.
Proof.
  induction lines as [|l rest IH]; [reflexivity|].
  cbn [forallb]. intros H. apply andb_true_iff in H. destruct H as [Hl Hr].
  destruct rest as [|l2 rest].
  - exact (replace_absent_char _ _ _ l (is_line_not_cr l Hl)).
  - rewrite !joined_cons.
    change Str.cr with (String (Str.chr 13) "") at 1.
    rewrite (replace_past_prefix _ _ _ l _ (is_line_not_cr l Hl)).
    rewrite (replace_prefix (String (Str.chr 13) "") Str.nl _ _
               ltac:(discriminate) (strip_prefix_app Str.cr _)).
    change (String (Str.chr 13) "") with Str.cr.
    rewrite (IH Hr). reflexivity.
Qed.

Lemma parse_usage_same_lines (du : option dateutil_parser)
      (a b : string) (now : DT.datetime) :
  Str.replace Str.cr Str.nl (Str.replace (Str.cr ++ Str.nl) Str.nl a)
  = Str.replace Str.cr Str.nl (Str.replace (Str.cr ++ Str.nl) Str.nl b) ->
  parse_usage du a now = parse_usage du b now.
Proof. intros H. unfold parse_usage. rewrite H. reflexivity. Qed.

(** X26. The style of the line endings does not matter to
    [parse_usage]: lines joined with CR LF, or with CR alone, give the
    result the same lines give joined with LF. *)
Theorem line_endings_do_not_matter (du : option dateutil_parser)
        (lines : list string) (now : DT.datetime) :
  forallb is_line lines = true ->
  parse_usage du (joined (Str.cr ++ Str.nl) lines) now
  = parse_usage du (joined Str.nl lines) now
  /\ parse_usage du (joined Str.cr lines) now
     = parse_usage du (joined Str.nl lines) now.
Proof.
  intros H.
  assert (Hlf : Str.replace Str.cr Str.nl
                  (Str.replace (Str.cr ++ Str.nl) Str.nl (joined Str.nl lines))
                = joined Str.nl lines).
  { change (Str.cr ++ Str.nl) with (String (Str.chr 13) Str.nl).
    rewrite (replace_absent_char _ _ _ _ (joined_nl_not_cr lines H)).
    exact (replace_absent_char _ _ _ _ (joined_nl_not_cr lines H)). }
  split; apply parse_usage_same_lines; rewrite Hlf.
  - rewrite (crlf_joined lines H).
    exact (replace_absent_char _ _ _ _ (joined_nl_not_cr lines H)).
  - rewrite (cr_joined_keeps lines H). exact (cr_joined lines H).
Qed.

Lemma line_endings_do_not_matter_witness :
  let lines := ["Current session"; "42% used"; ""; "Resets 6:59pm"] in
  let now := DT.make 2026 1 28 14 0 in
  parse_usage None (joined (Str.cr ++ Str.nl) lines) now
  = parse_usage None (joined Str.nl lines) now
  /\ parse_usage None (joined Str.cr lines) now
     = parse_usage None (joined Str.nl lines) now.
Proof.
  intros lines now.
  apply (line_endings_do_not_matter None lines now). reflexivity.
Defined.

(** ** Rollback of the validation-buffer fix *)

Lemma replace_past_word (a : ascii) (old' new : string) (c : ascii)
      (w x : string) :
  (forall y, Str.strip_prefix (String a old') (String c (w ++ y)) = None) ->
  every (fun d => negb (Ascii.eqb a d)) w = true ->
  Str.replace (String a old') new (String c w ++ x)
  = String c w ++ Str.replace (String a old') new x.
Proof.
  intros Hhead Hw. cbn [append].
  rewrite (replace_copy _ _ _ _ (Hhead x)).
  rewrite (replace_past_prefix a old' new w x Hw). reflexivity.
Qed.

Lemma strip_prefix_head_back (old : string) (h : ascii) (w' w : string)
      (c : ascii) (s q : string) :
  old <> "" ->
  every (fun d => negb (Ascii.eqb h d)) w = true ->
  Str.strip_prefix (String h w)
    (String c (Str.replace old (String h w') s)) = Some q ->
  exists r, Str.strip_prefix (String h w) (String c s) = Some r.
Proof.
  intros Hne Hw. cbn [Str.strip_prefix].
  destruct (Ascii.eqb h c); [|discriminate].
  exact (strip_prefix_replace_back old h w' Hne w s q Hw).
Qed.

Lemma buffer_fix_first_step (s : string) :
  Str.contains "hours > 7:" s = false ->
  Str.replace "hours > 7:" "hours > 6:"
    (Str.replace "hours > 169:" "hours > 170:"
       (Str.replace "hours > 6:" "hours > 7:" s))
  = Str.replace "hours > 169:" "hours > 170:" s.
Proof.
  remember (String.length s) as n eqn:Hn. revert s Hn.
  induction n as [n IH] using lt_wf_ind. intros s Hn Hc.
  destruct s as [|c s1]; [reflexivity|].
  destruct (Str.strip_prefix "hours > 6:" (String c s1)) as [r|] eqn:E6.
  - pose proof (strip_prefix_some _ _ _ E6) as Hs.
    assert (Hr : Str.contains "hours > 7:" r = false)
      by (rewrite Hs in Hc; exact (contains_false_suffix _ _ _ Hc)).
    assert (Hlen : (String.length r < n)%nat)
      by (rewrite Hn, Hs, length_append; cbn [String.length]; lia).
    rewrite (replace_prefix "hours > 6:" _ _ r ltac:(discriminate) E6), Hs.
    rewrite (replace_past_word "h" "ours > 169:" "hours > 170:" "h" "ours > 7:");
      [| intros y; reflexivity | reflexivity].
    rewrite (replace_prefix "hours > 7:" "hours > 6:" _ _ ltac:(discriminate)
               (strip_prefix_app _ _)).
    rewrite (IH _ Hlen r eq_refl Hr).
    rewrite (replace_past_word "h" "ours > 169:" "hours > 170:" "h" "ours > 6:");
      [| intros y; reflexivity | reflexivity].
    reflexivity.
  - destruct (Str.strip_prefix "hours > 169:" (String c s1)) as [r|] eqn:E169.
    + pose proof (strip_prefix_some _ _ _ E169) as Hs.
      assert (Hr : Str.contains "hours > 7:" r = false)
        by (rewrite Hs in Hc; exact (contains_false_suffix _ _ _ Hc)).
      assert (Hlen : (String.length r < n)%nat)
        by (rewrite Hn, Hs, length_append; cbn [String.length]; lia).
      rewrite (replace_prefix "hours > 169:" "hours > 170:" _ r
                 ltac:(discriminate) E169).
      rewrite Hs.
      rewrite (replace_past_word "h" "ours > 6:" "hours > 7:" "h" "ours > 169:");
        [| intros y; reflexivity | reflexivity].
      rewrite (replace_prefix "hours > 169:" "hours > 170:" _ _
                 ltac:(discriminate) (strip_prefix_app _ _)).
      rewrite (replace_past_word "h" "ours > 7:" "hours > 6:" "h" "ours > 170:");
        [| intros y; reflexivity | reflexivity].
      rewrite (IH _ Hlen r eq_refl Hr). reflexivity.
    + rewrite (replace_copy _ _ _ _ E6).
      assert (H169 : Str.strip_prefix "hours > 169:"
                       (String c (Str.replace "hours > 6:" "hours > 7:" s1))
                     = None).
      { destruct (Str.strip_prefix "hours > 169:"
                    (String c (Str.replace "hours > 6:" "hours > 7:" s1)))
          as [q|] eqn:E; [exfalso | reflexivity].
        destruct (strip_prefix_head_back "hours > 6:" "h" "ours > 7:"
                    "ours > 169:" c s1 q ltac:(discriminate) eq_refl E)
          as (r & Hr).
        rewrite Hr in E169. discriminate E169. }
      rewrite (replace_copy _ _ _ _ H169).
      assert (H7 : Str.strip_prefix "hours > 7:"
                     (String c (Str.replace "hours > 169:" "hours > 170:"
                                  (Str.replace "hours > 6:" "hours > 7:" s1)))
                   = None).
      { destruct (Str.strip_prefix "hours > 7:"
                    (String c (Str.replace "hours > 169:" "hours > 170:"
                                 (Str.replace "hours > 6:" "hours > 7:" s1))))
          as [q|] eqn:E; [exfalso | reflexivity].
        destruct (strip_prefix_head_back "hours > 169:" "h" "ours > 170:"
                    "ours > 7:" c _ q ltac:(discriminate) eq_refl E)
          as (q1 & E1).
        destruct (strip_prefix_head_back "hours > 6:" "h" "ours > 7:"
                    "ours > 7:" c s1 q1 ltac:(discriminate) eq_refl E1)
          as (r & Hr).
        rewrite (contains_false_head _ _ Hc) in Hr. discriminate Hr. }
      rewrite (replace_copy _ _ _ _ H7), (replace_copy _ _ _ _ E169).
      f_equal.
      apply (IH (String.length s1)); [subst n; cbn; lia | reflexivity |].
      exact (contains_false_tail _ _ _ Hc).
Qed.

(** X27. The validation-buffer fix, which rewrites both thresholds, is
    undone by its rollback on a parser file that contains neither
    "hours > 7:" nor "hours > 170:": there the rollback of the applied
    fix gives back the file, character for character. *)
Theorem validation_buffer_rollback_restores (source : string) :
  Str.contains "hours > 7:" source = false ->
  Str.contains "hours > 170:" source = false ->
  rollback _fix_increase_validation_buffer
    (apply _fix_increase_validation_buffer source) = source.
Proof.
  intros H7 H170.
  cbn [apply rollback _fix_increase_validation_buffer].
  rewrite (buffer_fix_first_step source H7).
  apply (replace_round_trip "hours > 169:" "h" "ours > 170:");
    [discriminate | reflexivity | exact H170].
Qed.

Lemma validation_buffer_rollback_restores_witness :
  let source :=
    "        if hours > 6:  # 5h window + 1h buffer" ++ Str.nl ++
    "        if hours > 169:  # 168h window + 1h buffer" ++ Str.nl in
  rollback _fix_increase_validation_buffer
    (apply _fix_increase_validation_buffer source) = source.
Proof.
  intros source.
  apply (validation_buffer_rollback_restores source); reflexivity.
Defined.
